(** * ASCII_ART: the conversion core, embedded and verified

    A shallow embedding of the conversion pipeline of the ASCII_ART
    repository ([src/character_sets.py], [src/color_handler.py],
    [src/image_processor.py], [src/ascii_converter.py]) together with the
    properties its design document states about it.

    Conventions of the embedding:
    - Python [int] is [Z]; Python [str] is [string] (UTF-8 bytes); a glyph is
      the [string] holding one displayed symbol.
    - Python [float] is a type [F] with the operations of the class
      [PyFloat].  Two instances are given: [exact_float] reads every float
      operation as the exact rational operation, [binary64] evaluates it in
      IEEE 754 double precision (round to nearest even) as CPython does.
    - A raised exception is a [Raise] result of the [result] monad.
    - The imaging libraries (Pillow, OpenCV, NumPy) are not part of the
      repository: an image is the term of library calls that produced it,
      and its pixel values are read through the oracles of a [PixelSource]. *)

From Stdlib Require Import ZArith QArith Qround Lia Bool List Ascii String.
From Stdlib Require Import DecimalString HexadecimalString SpecFloat.
From Stdlib Require Import Lqa.
From stdpp Require Import base option list strings gmap.
Import ListNotations.

Local Open Scope string_scope.
Local Open Scope Z_scope.

(** ** Exceptions *)

Inductive exn : Type :=
| IndexError
| ValueError
| OverflowError
| ZeroDivisionError
| FileNotFoundError.

Inductive result (A : Type) : Type :=
| Ok (a : A)
| Raise (e : exn).
Arguments Ok {A} a.
Arguments Raise {A} e.

#[global] Instance result_ret : MRet result := fun A a => Ok a.
#[global] Instance result_bind : MBind result := fun A B f m =>
  match m with
  | Ok a => f a
  | Raise e => Raise e
  end.

(** [[f(x) for x in xs]], stopping at the first exception. *)
Fixpoint for_each {A B} (f : A -> result B) (xs : list A) : result (list B) :=
  match xs with
  | [] => Ok []
  | x :: xs' => y ← f x; ys ← for_each f xs'; mret (y :: ys)
  end.

(** [range(n)] *)
Definition range (n : Z) : list Z := map Z.of_nat (seq 0 (Z.to_nat n)).

(** ** Python floats *)

Class PyFloat (F : Type) : Type := {
  (** conversion of an [int] operand, [float(n)] *)
  float_of_int : Z -> F;
  (** the decimal literal with digits [m] and [k] decimal places:
      [0.299] is [float_lit 299 3], [255.0] is [float_lit 2550 1] *)
  float_lit : Z -> positive -> F;
  fadd : F -> F -> F;
  fsub : F -> F -> F;
  fmul : F -> F -> F;
  (** float division; every divisor in the embedded code is a nonzero literal *)
  fdiv : F -> F -> F;
  flt : F -> F -> bool;
  feqb : F -> F -> bool;
  (** [int(x)]: truncation toward zero *)
  int_of_float : F -> result Z;
  (** [a / b] on two [int]s *)
  int_truediv : Z -> Z -> result F
}.

(** *** Exact reading: floats as rationals *)

Definition Q_lit (m : Z) (k : positive) : Q := Qmake m (Pos.pow 10 k).
Definition Q_ltb (x y : Q) : bool := negb (Qle_bool y x).
Definition Q_trunc (x : Q) : Z := Z.quot (Qnum x) (Zpos (Qden x)).
Definition Q_truediv (a b : Z) : result Q :=
  if b =? 0 then Raise ZeroDivisionError else Ok (inject_Z a / inject_Z b)%Q.

#[global] Instance exact_float : PyFloat Q := {
  float_of_int := inject_Z;
  float_lit := Q_lit;
  fadd := Qplus;
  fsub := Qminus;
  fmul := Qmult;
  fdiv := Qdiv;
  flt := Q_ltb;
  feqb := Qeq_bool;
  int_of_float := fun x => Ok (Q_trunc x);
  int_truediv := Q_truediv
}.

(** *** IEEE 754 binary64, as CPython computes *)

Module B64.

Definition prec : Z := 53.
Definition emax : Z := 1024.

Definition of_int (n : Z) : spec_float := binary_normalize prec emax n 0 false.
Definition add : spec_float -> spec_float -> spec_float := SFadd prec emax.
Definition sub : spec_float -> spec_float -> spec_float := SFsub prec emax.
Definition mul : spec_float -> spec_float -> spec_float := SFmul prec emax.
Definition div : spec_float -> spec_float -> spec_float := SFdiv prec emax.
Definition ltb : spec_float -> spec_float -> bool := SFltb.
Definition eqb : spec_float -> spec_float -> bool := SFeqb.

(** A decimal literal denotes the double nearest to [m / 10^k]; for
    [m] and [10^k] below [2^53] that is their correctly rounded quotient. *)
Definition lit (m : Z) (k : positive) : spec_float :=
  div (of_int m) (of_int (Zpos (Pos.pow 10 k))).

(** [int(x)] raises on [nan] and on the infinities. *)
Definition trunc (x : spec_float) : result Z :=
  match x with
  | S754_zero _ => Ok 0
  | S754_nan => Raise ValueError
  | S754_infinity _ => Raise OverflowError
  | S754_finite s m e =>
      let a := match e with
               | Zneg p => Z.shiftr (Zpos m) (Zpos p)
               | _ => Z.shiftl (Zpos m) e
               end in
      Ok (if s then - a else a)
  end.

Definition truediv (a b : Z) : result spec_float :=
  if b =? 0 then Raise ZeroDivisionError else Ok (div (of_int a) (of_int b)).

(** The rational a finite double denotes ([0] for the others). *)
Definition value (x : spec_float) : Q :=
  match x with
  | S754_finite s m e =>
      let a := match e with
               | Zneg p => Qmake (Zpos m) (Pos.pow 2 p)
               | _ => inject_Z (Zpos m * 2 ^ e)
               end in
      if s then Qopp a else a
  | _ => 0%Q
  end.

End B64.

#[global] Instance binary64 : PyFloat spec_float := {
  float_of_int := B64.of_int;
  float_lit := B64.lit;
  fadd := B64.add;
  fsub := B64.sub;
  fmul := B64.mul;
  fdiv := B64.div;
  flt := B64.ltb;
  feqb := B64.eqb;
  int_of_float := B64.trunc;
  int_truediv := B64.truediv
}.

(** ** Python built-ins *)

(** [min(a, b)] and [max(a, b)] keep the first argument unless the second
    is strictly smaller (larger). *)
Definition py_min {F} `{PyFloat F} (a b : F) : F := if flt b a then b else a.
Definition py_max {F} `{PyFloat F} (a b : F) : F := if flt a b then b else a.

(** [seq[i]] with Python's negative indices and [IndexError]. *)
Definition py_getitem {A} (l : list A) (i : Z) : result A :=
  let n := Z.of_nat (length l) in
  let j := if i <? 0 then i + n else i in
  if (j <? 0) || (n <=? j) then Raise IndexError
  else match l !! Z.to_nat j with
       | Some a => Ok a
       | None => Raise IndexError
       end.

(** [str(n)] and [format(n, "02x")] for an [int]. *)
Definition str_of_int (n : Z) : string :=
  DecimalString.NilZero.string_of_int (Z.to_int n).

Definition format_02x (n : Z) : string :=
  let s := HexadecimalString.NilZero.string_of_int (Z.to_hex_int n) in
  if (String.length s <? 2)%nat then "0" +:+ s else s.

(** [str.lower()] on ASCII letters. *)
Definition lower_ascii (c : ascii) : ascii :=
  let n := nat_of_ascii c in
  if ((65 <=? n) && (n <=? 90))%nat then ascii_of_nat (n + 32) else c.

Fixpoint lower (s : string) : string :=
  match s with
  | EmptyString => EmptyString
  | String c s' => String (lower_ascii c) (lower s')
  end.

Definition dquote : string := String (ascii_of_nat 34) EmptyString.
Definition newline : string := String (ascii_of_nat 10) EmptyString.
Definition ESC : string := String (ascii_of_nat 27) EmptyString.

Definition glyph : Type := string.

(** ** [character_sets.py] *)

Module character_sets.

(** The one-symbol strings of an ASCII table, in order. *)
Fixpoint symbols (s : string) : list glyph :=
  match s with
  | EmptyString => []
  | String c s' => String c EmptyString :: symbols s'
  end.

Inductive CharacterSet : Type :=
| STANDARD | DETAILED | SIMPLE | BLOCKS | NUMBERS | LETTERS.

Definition CharacterSet_value (c : CharacterSet) : list glyph :=
  match c with
  | STANDARD => symbols "@%#*+=-:. "
  | DETAILED =>
      symbols "$@B%8&WM#*oahkbdpqwmZO0QLCJUYXzcvunxrjft/\|()1{}[]?-_+~<>i!lI;:,"
      ++ [dquote] ++ symbols "^`'. "
  | SIMPLE => symbols "@#*:. "
  | BLOCKS => ["█"; "▓"; "▒"; "░"; " "]
  | NUMBERS => symbols "0123456789 "
  | LETTERS => symbols "MWNXK0Okxdolc:;,. "
  end.

Inductive EmojiSet : Type :=
| BRIGHTNESS | GRAYSCALE | HEARTS | SQUARES | NATURE | SPACE
| OCEAN | FOOD | FACES | WEATHER | FIRE | GEOMETRIC.

Definition EmojiSet_value (e : EmojiSet) : list glyph :=
  match e with
  | BRIGHTNESS => ["⬛"; "🟫"; "🟥"; "🟧"; "🟨"; "🟩"; "🟦"; "🟪"; "⬜"]
  | GRAYSCALE => ["⚫"; "🔴"; "🟤"; "🟠"; "🟡"; "🟢"; "🔵"; "🟣"; "⚪"]
  | HEARTS => ["🖤"; "❤️"; "🧡"; "💛"; "💚"; "💙"; "💜"; "🤍"; "💗"]
  | SQUARES => ["⬛"; "🟫"; "🟥"; "🟧"; "🟨"; "🟩"; "🟦"; "🟪"; "⬜"]
  | NATURE => ["🌑"; "🌲"; "🌳"; "🌴"; "🌿"; "🍀"; "🌸"; "🌼"; "☀️"]
  | SPACE => ["⬛"; "🌑"; "🌙"; "⭐"; "✨"; "💫"; "🌟"; "⚡"; "☀️"]
  | OCEAN => ["🌊"; "🐳"; "🐬"; "🐠"; "🐟"; "🦈"; "🐙"; "🦑"; "💎"]
  | FOOD => ["🍫"; "🍩"; "🍪"; "🧁"; "🍰"; "🍨"; "🍦"; "🎂"; "🍬"]
  | FACES => ["😈"; "👿"; "😠"; "😐"; "🙂"; "😊"; "😄"; "😁"; "🌟"]
  | WEATHER => ["🌑"; "☁️"; "🌧️"; "⛈️"; "🌤️"; "⛅"; "🌥️"; "☀️"; "✨"]
  | FIRE => ["⬛"; "🟤"; "🔴"; "🟠"; "🟡"; "🔥"; "💥"; "⭐"; "💫"]
  | GEOMETRIC => ["◼️"; "◾"; "▪️"; "◽"; "◻️"; "⬜"; "🔲"; "🔳"; "💠"]
  end.

(** *** [CharacterMapper] *)

Record CharacterMapper : Type := {
  use_emoji : bool;
  characters : list glyph;
  is_emoji : bool;
  num_chars : Z
}.

(** [CharacterMapper.__init__] *)
Definition CharacterMapper_init (charset : CharacterSet)
    (emoji_set : option EmojiSet) (use_emoji : bool) : CharacterMapper :=
  let '(chars, emo) :=
    match use_emoji, emoji_set with
    | true, Some e => (EmojiSet_value e, true)
    | _, _ => (CharacterSet_value charset, false)
    end in
  {| use_emoji := use_emoji;
     characters := chars;
     is_emoji := emo;
     num_chars := Z.of_nat (length chars) |}.

(** The class invariant [__init__] establishes: [num_chars] is the length
    of the table. *)
Definition mapper_wf (m : CharacterMapper) : Prop :=
  num_chars m = Z.of_nat (length (characters m)).

(** The keys of the [color_emojis] dictionary of [get_colored_emoji]. *)
Inductive color_key : Type :=
| red | orange | yellow | green | blue | purple | brown | black | white.

Definition color_emojis (k : color_key) : glyph :=
  match k with
  | red => "🟥"
  | orange => "🟧"
  | yellow => "🟨"
  | green => "🟩"
  | blue => "🟦"
  | purple => "🟪"
  | brown => "🟫"
  | black => "⬛"
  | white => "⬜"
  end.

Section Mapper.
Context {F : Type} `{PyFloat F}.

(** The index [get_character] computes before it reads the table. *)
Definition get_index (self : CharacterMapper) (brightness : F) : result Z :=
  let brightness := py_max (float_of_int 0) (py_min (float_of_int 255) brightness) in
  let normalized := fdiv brightness (float_lit 2550 1) in
  index ← int_of_float
    (fadd (fmul normalized (float_of_int (num_chars self - 1))) (float_lit 5 1));
  mret (Z.max 0 (Z.min index (num_chars self - 1))).

(** [CharacterMapper.get_character] *)
Definition get_character (self : CharacterMapper) (brightness : F) : result glyph :=
  index ← get_index self brightness;
  py_getitem (characters self) index.

(** [CharacterMapper.get_inverted_character] *)
Definition get_inverted_character (self : CharacterMapper) (brightness : F)
    : result glyph :=
  get_character self (fsub (float_of_int 255) brightness).

(** The key [get_colored_emoji] selects. *)
Definition dominant_color (r g b : Z) : result color_key :=
  brightness ← int_truediv (r + g + b) 3;
  if flt brightness (float_of_int 30) then mret black
  else if flt (float_of_int 225) brightness then mret white
  else
    let max_channel := Z.max (Z.max r g) b in
    if r =? max_channel then
      if (150 <? g) && (200 <? r) then mret yellow
      else if 100 <? g then mret orange
      else mret red
    else if g =? max_channel then mret green
    else
      if 150 <? r then mret purple
      else mret blue.

(** [CharacterMapper.get_colored_emoji] *)
Definition get_colored_emoji (self : CharacterMapper) (r g b : Z) : result glyph :=
  k ← dominant_color r g b;
  mret (color_emojis k).

End Mapper.

(** [get_charset_by_name] *)
Definition get_charset_by_name (name : string) : CharacterSet :=
  let name := lower name in
  if String.eqb name "standard" then STANDARD
  else if String.eqb name "detailed" then DETAILED
  else if String.eqb name "simple" then SIMPLE
  else if String.eqb name "blocks" then BLOCKS
  else if String.eqb name "numbers" then NUMBERS
  else if String.eqb name "letters" then LETTERS
  else DETAILED.

(** [get_emoji_set_by_name] *)
Definition get_emoji_set_by_name (name : string) : EmojiSet :=
  let name := lower name in
  if String.eqb name "brightness" then BRIGHTNESS
  else if String.eqb name "grayscale" then GRAYSCALE
  else if String.eqb name "hearts" then HEARTS
  else if String.eqb name "squares" then SQUARES
  else if String.eqb name "nature" then NATURE
  else if String.eqb name "space" then SPACE
  else if String.eqb name "ocean" then OCEAN
  else if String.eqb name "food" then FOOD
  else if String.eqb name "faces" then FACES
  else if String.eqb name "weather" then WEATHER
  else if String.eqb name "fire" then FIRE
  else if String.eqb name "geometric" then GEOMETRIC
  else BRIGHTNESS.

End character_sets.

(** ** [color_handler.py] *)

Module color_handler.

Record RGB : Type := { r : Z; g : Z; b : Z }.

(** [RGB.to_ansi_fg] *)
Definition to_ansi_fg (self : RGB) : string :=
  ESC +:+ "[38;2;" +:+ str_of_int (r self) +:+ ";" +:+ str_of_int (g self)
      +:+ ";" +:+ str_of_int (b self) +:+ "m".

(** [RGB.to_ansi_bg] *)
Definition to_ansi_bg (self : RGB) : string :=
  ESC +:+ "[48;2;" +:+ str_of_int (r self) +:+ ";" +:+ str_of_int (g self)
      +:+ ";" +:+ str_of_int (b self) +:+ "m".

(** [RGB.to_html] *)
Definition to_html (self : RGB) : string :=
  "#" +:+ format_02x (r self) +:+ format_02x (g self) +:+ format_02x (b self).

(** [RGB.brightness] *)
Definition brightness {F} `{PyFloat F} (self : RGB) : F :=
  fadd (fadd (fmul (float_lit 299 3) (float_of_int (r self)))
             (fmul (float_lit 587 3) (float_of_int (g self))))
       (fmul (float_lit 114 3) (float_of_int (b self))).

Inductive ColorMode : Type :=
| NONE | ANSI | ANSI_BG | HTML | HTML_BG.

Definition ColorMode_value (m : ColorMode) : string :=
  match m with
  | NONE => "none"
  | ANSI => "ansi"
  | ANSI_BG => "ansi_bg"
  | HTML => "html"
  | HTML_BG => "html_bg"
  end.

(** [ColorMode(value)]: the member with that value, or [ValueError]. *)
Definition ColorMode_of_value (v : string) : result ColorMode :=
  if String.eqb v "none" then Ok NONE
  else if String.eqb v "ansi" then Ok ANSI
  else if String.eqb v "ansi_bg" then Ok ANSI_BG
  else if String.eqb v "html" then Ok HTML
  else if String.eqb v "html_bg" then Ok HTML_BG
  else Raise ValueError.

Definition ColorMode_eqb (m1 m2 : ColorMode) : bool :=
  match m1, m2 with
  | NONE, NONE | ANSI, ANSI | ANSI_BG, ANSI_BG | HTML, HTML | HTML_BG, HTML_BG => true
  | _, _ => false
  end.

(** [mode in (ColorMode.HTML, ColorMode.HTML_BG)] *)
Definition is_html (m : ColorMode) : bool :=
  ColorMode_eqb m HTML || ColorMode_eqb m HTML_BG.

Record ColorHandler : Type := { mode : ColorMode }.

Definition RESET : string := ESC +:+ "[0m".

Section Formatter.
Context {F : Type} `{PyFloat F}.

(** [ColorHandler.format_character] *)
Definition format_character (self : ColorHandler) (char : string)
    (color : option RGB) : string :=
  match color with
  | None => char
  | Some color =>
      match mode self with
      | NONE => char
      | ANSI => to_ansi_fg color +:+ char +:+ RESET
      | ANSI_BG =>
          let text_color :=
            if flt (brightness color) (float_of_int 128)
            then {| r := 255; g := 255; b := 255 |}
            else {| r := 0; g := 0; b := 0 |} in
          to_ansi_bg color +:+ to_ansi_fg text_color +:+ char +:+ RESET
      | HTML =>
          let char :=
            if String.eqb char "<" then "&lt;"
            else if String.eqb char ">" then "&gt;"
            else if String.eqb char "&" then "&amp;"
            else if String.eqb char dquote then "&quot;"
            else if String.eqb char " " then "&nbsp;"
            else char in
          "<span style=" +:+ dquote +:+ "color:" +:+ to_html color +:+ dquote
            +:+ ">" +:+ char +:+ "</span>"
      | HTML_BG =>
          let text_color :=
            if flt (brightness color) (float_of_int 128)
            then "#ffffff" else "#000000" in
          let char := if String.eqb char " " then "&nbsp;" else char in
          "<span style=" +:+ dquote +:+ "background:" +:+ to_html color
            +:+ ";color:" +:+ text_color +:+ dquote +:+ ">" +:+ char +:+ "</span>"
      end
  end.

End Formatter.

(** [ColorHandler.format_emoji] *)
Definition format_emoji (self : ColorHandler) (emoji : string)
    (color : option RGB) : string :=
  if is_html (mode self)
  then "<span class=" +:+ dquote +:+ "emoji" +:+ dquote +:+ ">" +:+ emoji +:+ "</span>"
  else emoji.

(** [ColorHandler.format_line] *)
Definition format_line (self : ColorHandler) (line : string) : string :=
  if is_html (mode self)
  then "<div class=" +:+ dquote +:+ "ascii-line" +:+ dquote +:+ ">" +:+ line +:+ "</div>"
  else line.

(** [ColorHandler.wrap_output] *)
Definition wrap_output (self : ColorHandler) (content : string)
    (is_emoji : bool) : string :=
  if is_html (mode self) then
    let font_size := if is_emoji then "16px" else "10px" in
    let line_height := if is_emoji then "18px" else "10px" in
    let letter_spacing := if is_emoji then "2px" else "0px" in
    String.concat newline [
      "<!DOCTYPE html>";
      "<html lang=" +:+ dquote +:+ "en" +:+ dquote +:+ ">";
      "<head>";
      "    <meta charset=" +:+ dquote +:+ "UTF-8" +:+ dquote +:+ ">";
      "    <meta name=" +:+ dquote +:+ "viewport" +:+ dquote +:+ " content=" +:+ dquote +:+ "width=device-width, initial-scale=1.0" +:+ dquote +:+ ">";
      "    <title>ASCII Art</title>";
      "    <style>";
      "        * {";
      "            margin: 0;";
      "            padding: 0;";
      "            box-sizing: border-box;";
      "        }";
      "        body {";
      "            background: #1a1a2e;";
      "            display: flex;";
      "            justify-content: center;";
      "            align-items: center;";
      "            min-height: 100vh;";
      "            padding: 20px;";
      "        }";
      "        .ascii-container {";
      "            background: #16213e;";
      "            padding: 20px;";
      "            border-radius: 10px;";
      "            box-shadow: 0 10px 40px rgba(0, 0, 0, 0.5);";
      "            overflow-x: auto;";
      "        }";
      "        .ascii-art {";
      "            font-family: 'Courier New', 'Monaco', 'Menlo', monospace;";
      "            font-size: " +:+ font_size +:+ ";";
      "            line-height: " +:+ line_height +:+ ";";
      "            letter-spacing: " +:+ letter_spacing +:+ ";";
      "            white-space: pre;";
      "        }";
      "        .ascii-line {";
      "            display: block;";
      "        }";
      "        .emoji {";
      "            display: inline;";
      "        }";
      "    </style>";
      "</head>";
      "<body>";
      "    <div class=" +:+ dquote +:+ "ascii-container" +:+ dquote +:+ ">";
      "        <div class=" +:+ dquote +:+ "ascii-art" +:+ dquote +:+ ">";
      content;
      "        </div>";
      "    </div>";
      "</body>";
      "</html>"
    ]
  else content.

End color_handler.

(** ** [image_processor.py] *)

Module image_processor.

(** What the file system and the decoder report for an image path. *)
Record image_file : Type := {
  file_exists : bool;
  file_suffix : string;
  file_size : Z * Z
}.

Inductive pil_mode : Type :=
| mode_RGB
| mode_L
| mode_as_decoded.

Inductive enhancer : Type :=
| Contrast | Brightness | Sharpness.

Inductive pil_filter : Type :=
| MedianFilter_3 | FIND_EDGES.

(** A Pillow image, as the term of library calls that built it. *)
Inductive image {F : Type} : Type :=
| PIL_open (f : image_file)
| PIL_convert (m : pil_mode) (i : image)
| PIL_copy (i : image)
| PIL_resize_LANCZOS (size : Z * Z) (i : image)
| PIL_enhance (k : enhancer) (factor : F) (i : image)
| PIL_filter (k : pil_filter) (i : image)
| PIL_autocontrast (i : image)
| PIL_invert (i : image)
(** [Image.fromarray(cv2.bilateralFilter(np.array(i), 9, 75, 75))] *)
| cv2_bilateralFilter_9_75_75 (i : image)
(** [Image.fromarray(255 - cv2.Canny(np.array(i), 100, 200))] *)
| cv2_Canny_100_200_inverted (i : image).
Arguments image F : clear implicits.

(** [Image.size], as [(width, height)]: only [resize] changes it. *)
Fixpoint image_size {F} (i : image F) : Z * Z :=
  match i with
  | PIL_open f => file_size f
  | PIL_resize_LANCZOS size _ => size
  | PIL_convert _ i' | PIL_copy i' | PIL_enhance _ _ i' | PIL_filter _ i'
  | PIL_autocontrast i' | PIL_invert i'
  | cv2_bilateralFilter_9_75_75 i' | cv2_Canny_100_200_inverted i' => image_size i'
  end.

(** [Image.mode] *)
Fixpoint image_mode {F} (i : image F) : pil_mode :=
  match i with
  | PIL_open _ => mode_as_decoded
  | PIL_convert m _ => m
  | PIL_resize_LANCZOS _ i' | PIL_copy i' | PIL_enhance _ _ i' | PIL_filter _ i'
  | PIL_autocontrast i' | PIL_invert i'
  | cv2_bilateralFilter_9_75_75 i' | cv2_Canny_100_200_inverted i' => image_mode i'
  end.

Definition is_mode_L (m : pil_mode) : bool :=
  match m with
  | mode_L => true
  | _ => false
  end.

Definition uint8 : Type := Byte.byte.
Definition uint8_value (v : uint8) : Z := Z.of_N (Byte.to_N v).

(** The imaging libraries: whether OpenCV imported, and the pixel values
    [np.array(i)[y, x]] of a single-channel and of an RGB image. *)
Record PixelSource {F : Type} : Type := {
  HAS_OPENCV : bool;
  gray_at : image F -> Z -> Z -> uint8;
  color_at : image F -> Z -> Z -> uint8 * uint8 * uint8
}.
Arguments PixelSource F : clear implicits.

(** A NumPy array of shape [(height, width)], row by row. *)
Definition ndarray (A : Type) : Type := list (list A).

Definition shape {A} (m : ndarray A) : Z * Z :=
  (Z.of_nat (length m), Z.of_nat (length (hd [] m))).

(** [m[y, x]] *)
Definition at_yx {A} (m : ndarray A) (y x : Z) : result A :=
  row ← py_getitem m y; py_getitem row x.

(** [np.array(i)]: [height] rows of [width] pixels. *)
Definition np_array {F A} (px : image F -> Z -> Z -> A) (i : image F) : ndarray A :=
  let '(width, height) := image_size i in
  map (fun y => map (fun x => px i y x) (range width)) (range height).

Definition SUPPORTED_FORMATS : list string :=
  [".png"; ".jpg"; ".jpeg"; ".gif"; ".bmp"; ".webp"; ".tiff"; ".ico"].

Section Processor.
Context {F : Type} `{PyFloat F}.
Variable env : PixelSource F.

Record ImageProcessor : Type := {
  image_path : image_file;
  original_image : image F;
  processed_image : image F
}.

(** [ImageProcessor._validate_image] *)
Definition _validate_image (path : image_file) : result unit :=
  if negb (file_exists path) then Raise FileNotFoundError
  else if negb (existsb (String.eqb (lower (file_suffix path))) SUPPORTED_FORMATS)
  then Raise ValueError
  else Ok tt.

(** [ImageProcessor.__init__] *)
Definition ImageProcessor_init (path : image_file) : result ImageProcessor :=
  _ ← _validate_image path;
  let original := PIL_convert mode_RGB (PIL_open path) in
  mret {| image_path := path;
          original_image := original;
          processed_image := PIL_copy original |}.

Definition with_processed (self : ImageProcessor) (i : image F) : ImageProcessor :=
  {| image_path := image_path self;
     original_image := original_image self;
     processed_image := i |}.

(** [ImageProcessor.resize] *)
Definition resize (self : ImageProcessor) (width : Z) (height : option Z)
    (maintain_aspect : bool) (char_aspect_ratio : F) : result ImageProcessor :=
  let '(original_width, original_height) := image_size (processed_image self) in
  height ←
    (if maintain_aspect then
       image_aspect ← int_truediv original_height original_width;
       int_of_float (fmul (fmul (float_of_int width) image_aspect) char_aspect_ratio)
     else match height with
          | None => mret width
          | Some h => mret h
          end);
  let height := Z.max 1 height in
  let width := Z.max 1 width in
  mret (with_processed self
          (PIL_resize_LANCZOS (width, height) (processed_image self))).

(** [ImageProcessor.to_grayscale] *)
Definition to_grayscale (self : ImageProcessor) : ImageProcessor :=
  with_processed self (PIL_convert mode_L (processed_image self)).

(** [ImageProcessor.adjust_contrast] *)
Definition adjust_contrast (self : ImageProcessor) (factor : F) : ImageProcessor :=
  with_processed self (PIL_enhance Contrast factor (processed_image self)).

(** [ImageProcessor.adjust_brightness] *)
Definition adjust_brightness (self : ImageProcessor) (factor : F) : ImageProcessor :=
  with_processed self (PIL_enhance Brightness factor (processed_image self)).

(** [ImageProcessor.sharpen] *)
Definition sharpen (self : ImageProcessor) (factor : F) : ImageProcessor :=
  with_processed self (PIL_enhance Sharpness factor (processed_image self)).

(** [ImageProcessor.edge_detection] *)
Definition edge_detection (self : ImageProcessor) : ImageProcessor :=
  if HAS_OPENCV env then
    with_processed self
      (cv2_Canny_100_200_inverted (PIL_convert mode_L (processed_image self)))
  else
    with_processed self
      (PIL_invert (PIL_filter FIND_EDGES (PIL_convert mode_L (processed_image self)))).

(** [ImageProcessor.denoise] *)
Definition denoise (self : ImageProcessor) : ImageProcessor :=
  if HAS_OPENCV env then
    with_processed self (cv2_bilateralFilter_9_75_75 (processed_image self))
  else
    with_processed self (PIL_filter MedianFilter_3 (processed_image self)).

(** [ImageProcessor.auto_enhance] *)
Definition auto_enhance (self : ImageProcessor) : ImageProcessor :=
  with_processed self (PIL_autocontrast (processed_image self)).

(** [ImageProcessor.get_pixel_matrix] *)
Definition get_pixel_matrix (self : ImageProcessor) : ndarray uint8 :=
  if negb (is_mode_L (image_mode (processed_image self))) then
    np_array (gray_at env) (PIL_convert mode_L (processed_image self))
  else np_array (gray_at env) (processed_image self).

(** [ImageProcessor.get_color_matrix] *)
Definition get_color_matrix (self : ImageProcessor) : ndarray (uint8 * uint8 * uint8) :=
  let rgb_image := PIL_convert mode_RGB (original_image self) in
  let resized := PIL_resize_LANCZOS (image_size (processed_image self)) rgb_image in
  np_array (color_at env) resized.

(** [ImageProcessor.size] *)
Definition size (self : ImageProcessor) : Z * Z :=
  image_size (processed_image self).

End Processor.

Arguments ImageProcessor F : clear implicits.

End image_processor.

(** ** [ascii_converter.py] *)

Module ascii_converter.

Import character_sets color_handler image_processor.

(** A reference to a [ConversionSettings] object. *)
Definition ref : Type := positive.

Record ConversionSettings {F : Type} : Type := {
  width : Z;
  height : option Z;
  charset : CharacterSet;
  color_mode : ColorMode;
  invert : bool;
  contrast : F;
  brightness : F;
  edge_detection : bool;
  denoise : bool;
  use_emoji : bool;
  emoji_set : EmojiSet;
  color_emoji : bool;
  dithering : bool;
  sharpen : F;
  auto_enhance : bool
}.
Arguments ConversionSettings F : clear implicits.

Module ASCIIArt.
Record t : Type := {
  art : string;
  width : Z;
  height : Z;
  colored : bool;
  is_emoji : bool;
  settings : ref
}.
End ASCIIArt.

(** A keyword argument of [convert]: table and color-mode selections come
    as the enumeration member or as its name. *)
Inductive selection (A : Type) : Type :=
| member (a : A)
| by_name (name : string).
Arguments member {A} a.
Arguments by_name {A} name.

Inductive kwarg {F : Type} : Type :=
| kw_width (v : Z)
| kw_height (v : option Z)
| kw_charset (v : selection CharacterSet)
| kw_color_mode (v : selection ColorMode)
| kw_invert (v : bool)
| kw_contrast (v : F)
| kw_brightness (v : F)
| kw_edge_detection (v : bool)
| kw_denoise (v : bool)
| kw_use_emoji (v : bool)
| kw_emoji_set (v : selection EmojiSet)
| kw_color_emoji (v : bool)
| kw_dithering (v : bool)
| kw_sharpen (v : F)
| kw_auto_enhance (v : bool)
(** a key that names no attribute of the settings object *)
| kw_other (key : string).
Arguments kwarg F : clear implicits.

Section Converter.
Context {F : Type} `{PyFloat F}.
Variable env : PixelSource F.

(** [ConversionSettings()] *)
Definition ConversionSettings_default : ConversionSettings F := {|
  width := 100;
  height := None;
  charset := DETAILED;
  color_mode := NONE;
  invert := false;
  contrast := float_lit 12 1;
  brightness := float_lit 10 1;
  edge_detection := false;
  denoise := true;
  use_emoji := false;
  emoji_set := BRIGHTNESS;
  color_emoji := false;
  dithering := false;
  sharpen := float_lit 10 1;
  auto_enhance := false
|}.

Record ASCIIConverter : Type := {
  image_path : image_file;
  processor : option (ImageProcessor F);
  settings : option ref
}.

(** [ASCIIConverter.__init__] *)
Definition ASCIIConverter_init (image_path : image_file) : ASCIIConverter :=
  {| image_path := image_path; processor := None; settings := None |}.

(** The objects a call can reach: the settings objects by reference, and
    the converter [self]. *)
Record world : Type := {
  heap : gmap ref (ConversionSettings F);
  this : ASCIIConverter
}.

(** Statements: a state change and a value or a raised exception. *)
Definition stmt (A : Type) : Type := world -> world * result A.

Definition ret {A} (a : A) : stmt A := fun w => (w, Ok a).
Definition bind {A B} (m : stmt A) (k : A -> stmt B) : stmt B := fun w =>
  match m w with
  | (w', Ok a) => k a w'
  | (w', Raise e) => (w', Raise e)
  end.
Definition lift {A} (r : result A) : stmt A := fun w => (w, r).
Definition when (c : bool) (m : stmt unit) : stmt unit := if c then m else ret tt.

Notation "x <- m ;; k" := (bind m (fun x => k))
  (at level 100, m at next level, k at level 200, right associativity).
Notation "m ;; k" := (bind m (fun _ => k))
  (at level 100, k at level 200, right associativity).

(** a statement that leaves every settings object as it is *)
Definition heap_preserving {A} (m : stmt A) : Prop :=
  forall w, heap (fst (m w)) = heap w.

(** [self.settings], dereferenced *)
Definition read_settings : stmt (ConversionSettings F) := fun w =>
  match settings (this w) with
  | Some l =>
      match heap w !! l with
      | Some s => (w, Ok s)
      | None => (w, Raise ValueError)
      end
  | None => (w, Raise ValueError)
  end.

(** [self.processor = p] *)
Definition set_processor (w : world) (p : ImageProcessor F) : world :=
  {| heap := heap w;
     this := {| image_path := image_path (this w);
                processor := Some p;
                settings := settings (this w) |} |}.

(** [self.processor.method(...)]: the method updates the processor in place *)
Definition call_processor (method : ImageProcessor F -> result (ImageProcessor F))
    : stmt unit := fun w =>
  match processor (this w) with
  | Some p =>
      match method p with
      | Ok p' => (set_processor w p', Ok tt)
      | Raise e => (w, Raise e)
      end
  | None => (w, Raise ValueError)
  end.

Definition read_processor : stmt (ImageProcessor F) := fun w =>
  match processor (this w) with
  | Some p => (w, Ok p)
  | None => (w, Raise ValueError)
  end.

(** [ASCIIConverter._apply_preprocessing] *)
Definition _apply_preprocessing : stmt unit :=
  settings <- read_settings ;;
  when (denoise settings)
    (call_processor (fun p => Ok (image_processor.denoise env p))) ;;
  when (negb (feqb (contrast settings) (float_lit 10 1)))
    (call_processor (fun p => Ok (adjust_contrast p (contrast settings)))) ;;
  when (negb (feqb (brightness settings) (float_lit 10 1)))
    (call_processor (fun p => Ok (adjust_brightness p (brightness settings)))) ;;
  when (auto_enhance settings)
    (call_processor (fun p => Ok (image_processor.auto_enhance p))) ;;
  when (negb (feqb (sharpen settings) (float_lit 10 1)))
    (call_processor (fun p => Ok (image_processor.sharpen p (sharpen settings)))) ;;
  let char_aspect := if use_emoji settings then float_lit 10 1 else float_lit 5 1 in
  call_processor (fun p =>
    resize p (width settings) (height settings)
           (bool_decide (height settings = None)) char_aspect) ;;
  if edge_detection settings && negb (use_emoji settings) then
    call_processor (fun p => Ok (image_processor.edge_detection env p))
  else if negb (use_emoji settings) then
    call_processor (fun p => Ok (to_grayscale p))
  else ret tt.

(** The color data [_generate_ascii] fetches, when it is needed. *)
Definition color_matrix_for (settings : ConversionSettings F) (p : ImageProcessor F)
    : option (ndarray (uint8 * uint8 * uint8)) :=
  if negb (ColorMode_eqb (color_mode settings) NONE) || color_emoji settings
  then Some (get_color_matrix env p)
  else None.

(** One cell of the loop body of [_generate_ascii]. *)
Definition generate_cell (settings : ConversionSettings F)
    (grayscale_matrix : ndarray uint8)
    (color_matrix : option (ndarray (uint8 * uint8 * uint8)))
    (mapper : CharacterMapper) (color_handler : ColorHandler) (y x : Z)
    : result string :=
  v ← at_yx grayscale_matrix y x;
  let brightness := float_of_int (uint8_value v) in
  char ←
    match use_emoji settings && color_emoji settings, color_matrix with
    | true, Some cm =>
        '(r, g, b) ← at_yx cm y x;
        get_colored_emoji mapper (uint8_value r) (uint8_value g) (uint8_value b)
    | _, _ =>
        if invert settings then get_inverted_character mapper brightness
        else get_character mapper brightness
    end;
  match color_matrix, negb (ColorMode_eqb (color_mode settings) NONE) with
  | Some cm, true =>
      '(r, g, b) ← at_yx cm y x;
      let color := {| r := uint8_value r; g := uint8_value g; b := uint8_value b |} in
      if use_emoji settings then mret (format_emoji color_handler char (Some color))
      else mret (format_character color_handler char (Some color))
  | _, _ => mret char
  end.

(** [ASCIIConverter._generate_ascii] *)
Definition _generate_ascii : stmt (list string) :=
  settings <- read_settings ;;
  p <- read_processor ;;
  let grayscale_matrix := get_pixel_matrix env p in
  let color_matrix := color_matrix_for settings p in
  let mapper :=
    CharacterMapper_init (charset settings)
      (if use_emoji settings then Some (emoji_set settings) else None)
      (use_emoji settings) in
  let color_handler := {| mode := color_mode settings |} in
  let '(height, width) := shape grayscale_matrix in
  lift (for_each (fun y =>
          line_chars ← for_each
            (generate_cell settings grayscale_matrix color_matrix mapper color_handler y)
            (range width);
          let line := String.concat EmptyString line_chars in
          mret (if is_html (color_mode settings)
                then format_line color_handler line else line))
        (range height)).

(** The three [isinstance(..., str)] conversions at the head of [convert]. *)
Definition resolve_name (kw : kwarg F) : result (kwarg F) :=
  match kw with
  | kw_charset (by_name n) => Ok (kw_charset (member (get_charset_by_name n)))
  | kw_emoji_set (by_name n) => Ok (kw_emoji_set (member (get_emoji_set_by_name n)))
  | kw_color_mode (by_name n) => m ← ColorMode_of_value n; mret (kw_color_mode (member m))
  | _ => Ok kw
  end.

(** [setattr(settings, key, value)] under [hasattr(settings, key)] *)
Definition setattr (s : ConversionSettings F) (kw : kwarg F) : ConversionSettings F :=
  let upd w h cs cm inv con bri edg den emo es ce dit sha aut :=
    {| width := w; height := h; charset := cs; color_mode := cm; invert := inv;
       contrast := con; brightness := bri; edge_detection := edg; denoise := den;
       use_emoji := emo; emoji_set := es; color_emoji := ce; dithering := dit;
       sharpen := sha; auto_enhance := aut |} in
  let '(Build_ConversionSettings _ w h cs cm inv con bri edg den emo es ce dit sha aut) := s in
  match kw with
  | kw_width v => upd v h cs cm inv con bri edg den emo es ce dit sha aut
  | kw_height v => upd w v cs cm inv con bri edg den emo es ce dit sha aut
  | kw_charset (member v) => upd w h v cm inv con bri edg den emo es ce dit sha aut
  | kw_color_mode (member v) => upd w h cs v inv con bri edg den emo es ce dit sha aut
  | kw_invert v => upd w h cs cm v con bri edg den emo es ce dit sha aut
  | kw_contrast v => upd w h cs cm inv v bri edg den emo es ce dit sha aut
  | kw_brightness v => upd w h cs cm inv con v edg den emo es ce dit sha aut
  | kw_edge_detection v => upd w h cs cm inv con bri v den emo es ce dit sha aut
  | kw_denoise v => upd w h cs cm inv con bri edg v emo es ce dit sha aut
  | kw_use_emoji v => upd w h cs cm inv con bri edg den v es ce dit sha aut
  | kw_emoji_set (member v) => upd w h cs cm inv con bri edg den emo v ce dit sha aut
  | kw_color_emoji v => upd w h cs cm inv con bri edg den emo es v dit sha aut
  | kw_dithering v => upd w h cs cm inv con bri edg den emo es ce v sha aut
  | kw_sharpen v => upd w h cs cm inv con bri edg den emo es ce dit v aut
  | kw_auto_enhance v => upd w h cs cm inv con bri edg den emo es ce dit sha v
  | kw_charset (by_name _) | kw_color_mode (by_name _) | kw_emoji_set (by_name _)
  | kw_other _ => s
  end.

(** [settings = ConversionSettings()] when the caller passed none *)
Definition settings_or_new (settings : option ref) : stmt ref := fun w =>
  match settings with
  | Some l => (w, Ok l)
  | None =>
      let l := fresh (dom (heap w)) in
      ({| heap := <[l := ConversionSettings_default]> (heap w); this := this w |}, Ok l)
  end.

(** The [for key, value in kwargs.items()] loop of [convert]. *)
Definition override (l : ref) (kwargs : list (kwarg F)) : stmt unit := fun w =>
  ({| heap := alter (fun s => fold_left setattr kwargs s) l (heap w);
      this := this w |}, Ok tt).

Definition assign_settings (l : ref) : stmt unit := fun w =>
  ({| heap := heap w;
      this := {| image_path := image_path (this w);
                 processor := processor (this w);
                 settings := Some l |} |}, Ok tt).

Definition assign_processor (p : ImageProcessor F) : stmt unit := fun w =>
  (set_processor w p, Ok tt).

(** [ASCIIConverter.convert] *)
Definition convert (settings : option ref) (kwargs : list (kwarg F))
    : stmt ASCIIArt.t :=
  l <- settings_or_new settings ;;
  kwargs <- lift (for_each resolve_name kwargs) ;;
  override l kwargs ;;
  assign_settings l ;;
  path <- (fun w => (w, Ok (image_path (this w)))) ;;
  p <- lift (ImageProcessor_init path) ;;
  assign_processor p ;;
  _apply_preprocessing ;;
  ascii_lines <- _generate_ascii ;;
  settings <- read_settings ;;
  p <- read_processor ;;
  let color_handler := {| mode := color_mode settings |} in
  let formatted_art :=
    wrap_output color_handler (String.concat newline ascii_lines) (use_emoji settings) in
  ret {| ASCIIArt.art := formatted_art;
         ASCIIArt.width := fst (size p);
         ASCIIArt.height := snd (size p);
         ASCIIArt.colored := negb (ColorMode_eqb (color_mode settings) NONE);
         ASCIIArt.is_emoji := use_emoji settings;
         ASCIIArt.settings := l |}.

End Converter.

Arguments ASCIIConverter F : clear implicits.
Arguments world F : clear implicits.

End ascii_converter.

(** ** The formulas of the design document

    These definitions follow the wording of the design document, not the
    code; the theorems below compare the code with them. *)

Module design.

(** [clamp(x, lo, hi)] *)
Definition clamp (x lo hi : Q) : Q :=
  if Qle_bool x lo then lo else if Qle_bool hi x then hi else x.

(** rounding to the nearest integer, halves upward *)
Definition round_half_up (x : Q) : Z := Qfloor (x + (1 # 2)).

(** [index(brightness) = round(clamp(brightness,0,255)/255 * (tableLength-1))],
    clamped again to [[0, tableLength-1]] *)
Definition index (tableLength : Z) (brightness : Q) : Z :=
  let i := round_half_up (clamp brightness 0 255 / 255 * inject_Z (tableLength - 1)) in
  Z.max 0 (Z.min i (tableLength - 1)).

(** [char_aspect_ratio]: 1.0 for emoji mode, 0.5 for glyph mode *)
Definition char_aspect_ratio (emoji : bool) : Q := if emoji then 1 else 1 # 2.

(** [round(W * (original_height / original_width) * char_aspect_ratio)] *)
Definition derived_height (W original_width original_height : Z) (emoji : bool) : Z :=
  round_half_up (inject_Z W * (inject_Z original_height / inject_Z original_width)
                 * char_aspect_ratio emoji).

(** mean brightness [(r+g+b)/3] *)
Definition mean (r g b : Z) : Q := inject_Z (r + g + b) / 3.


(** HTML escaping of the five reserved characters *)
Definition html_escape (glyph : string) : string :=
  if String.eqb glyph "<" then "&lt;"
  else if String.eqb glyph ">" then "&gt;"
  else if String.eqb glyph "&" then "&amp;"
  else if String.eqb glyph dquote then "&quot;"
  else if String.eqb glyph " " then "&nbsp;"
  else glyph.

(** The operations of the preprocessing pipeline, in their fixed order. *)
Inductive stage : Type :=
| st_denoise
| st_contrast
| st_brightness
| st_auto_enhance
| st_sharpen
| st_resize
| st_edge_detection
| st_grayscale.

Definition fixed_order : list stage :=
  [st_denoise; st_contrast; st_brightness; st_auto_enhance; st_sharpen;
   st_resize; st_edge_detection; st_grayscale].

Section Pipeline.
Import image_processor ascii_converter.
Context {F : Type} `{PyFloat F}.
Variable env : PixelSource F.

(** a factor is neutral when it is 1.0 *)
Definition neutral (factor : F) : bool := feqb factor (float_lit 10 1).

(** An operation is applied when its flag is set or its factor is not
    neutral; resize always; edge detection or else grayscale conversion,
    and neither in emoji mode. *)
Definition enabled (s : ConversionSettings F) (st : stage) : bool :=
  match st with
  | st_denoise => denoise s
  | st_contrast => negb (neutral (contrast s))
  | st_brightness => negb (neutral (brightness s))
  | st_auto_enhance => auto_enhance s
  | st_sharpen => negb (neutral (sharpen s))
  | st_resize => true
  | st_edge_detection => edge_detection s && negb (use_emoji s)
  | st_grayscale => negb (edge_detection s) && negb (use_emoji s)
  end.

(** the Pixel Source primitive an operation delegates to *)
Definition run_stage (s : ConversionSettings F) (st : stage)
    (p : ImageProcessor F) : result (ImageProcessor F) :=
  match st with
  | st_denoise => Ok (image_processor.denoise env p)
  | st_contrast => Ok (adjust_contrast p (contrast s))
  | st_brightness => Ok (adjust_brightness p (brightness s))
  | st_auto_enhance => Ok (image_processor.auto_enhance p)
  | st_sharpen => Ok (image_processor.sharpen p (sharpen s))
  | st_resize =>
      resize p (width s) (height s) (bool_decide (height s = None))
             (if use_emoji s then float_lit 10 1 else float_lit 5 1)
  | st_edge_detection => Ok (image_processor.edge_detection env p)
  | st_grayscale => Ok (to_grayscale p)
  end.

Fixpoint run_stages (s : ConversionSettings F) (sts : list stage)
    (p : ImageProcessor F) : result (ImageProcessor F) :=
  match sts with
  | [] => Ok p
  | st :: sts' => p' ← run_stage s st p; run_stages s sts' p'
  end.

(** the enabled operations, in the fixed order *)
Definition pipeline (s : ConversionSettings F) : list stage :=
  List.filter (enabled s) fixed_order.

(** The height the resize step asks for, before the clamp to 1: the
    explicit height, or else the truncated product
    [int(W * (original_height / original_width) * char_aspect)]. *)
Definition requested_height (s : ConversionSettings F)
    (original_width original_height : Z) : result Z :=
  match height s with
  | Some h => Ok h
  | None =>
      image_aspect ← int_truediv original_height original_width;
      int_of_float
        (fmul (fmul (float_of_int (width s)) image_aspect)
              (if use_emoji s then float_lit 10 1 else float_lit 5 1))
  end.

(** the enabled operations before and after the resize *)
Definition before_resize (s : ConversionSettings F) : list stage :=
  List.filter (enabled s)
    [st_denoise; st_contrast; st_brightness; st_auto_enhance; st_sharpen].

Definition after_resize (s : ConversionSettings F) : list stage :=
  List.filter (enabled s) [st_edge_detection; st_grayscale].

End Pipeline.

End design.

(** ** Checks over the pixel domain

    Decision procedures that compare the binary64 evaluation with the exact
    one on the values a converted image can hold: the 256 intensities and
    the channel sums [0..765]. *)

Module pixel_domain.

Import character_sets.

Definition intensities : list Z := range 256.
Definition channel_sums : list Z := range 766.

(** Every mapper [CharacterMapper.__init__] can build. *)
Definition source_mappers : list CharacterMapper :=
  map (fun c => CharacterMapper_init c None false)
      [STANDARD; DETAILED; SIMPLE; BLOCKS; NUMBERS; LETTERS]
  ++ map (fun e => CharacterMapper_init DETAILED (Some e) true)
      [BRIGHTNESS; GRAYSCALE; HEARTS; SQUARES; NATURE; SPACE;
       OCEAN; FOOD; FACES; WEATHER; FIRE; GEOMETRIC].

Definition result_Z_eqb (a b : result Z) : bool :=
  match a, b with
  | Ok i, Ok j => i =? j
  | _, _ => false
  end.

(** binary64 and exact arithmetic compute the same index for intensity [v],
    directly and through the inverted mapping *)
Definition index_agrees (m : CharacterMapper) (v : Z) : bool :=
  result_Z_eqb (get_index (F := spec_float) m (float_of_int v))
               (get_index (F := Q) m (inject_Z v))
  && result_Z_eqb
       (get_index (F := spec_float) m (fsub (float_of_int 255) (float_of_int v)))
       (get_index (F := Q) m (255 - inject_Z v)%Q).

(** in binary64, [s / 3 < 30] exactly when [s < 90], and [s / 3 > 225]
    exactly when [s > 675] *)
Definition mean_agrees (s : Z) : bool :=
  match int_truediv (F := spec_float) s 3 with
  | Ok x => Bool.eqb (flt x (float_of_int 30)) (s <? 90)
            && Bool.eqb (flt (float_of_int 225) x) (675 <? s)
  | Raise _ => false
  end.

(** A float arithmetic in which every glyph selection of the pixel domain
    returns: the standard and the inverted mapping of each intensity over
    each table, and the color classification of each RGB triple. *)
Definition pixel_total (F : Type) `{PyFloat F} : Prop :=
  forall m, m ∈ source_mappers ->
    (forall v : image_processor.uint8,
        exists ch, get_character m (float_of_int (image_processor.uint8_value v)) = Ok ch)
    /\ (forall v : image_processor.uint8,
        exists ch,
          get_inverted_character m (float_of_int (image_processor.uint8_value v)) = Ok ch)
    /\ (forall r g b : image_processor.uint8,
        exists ch,
          get_colored_emoji m (image_processor.uint8_value r)
            (image_processor.uint8_value g) (image_processor.uint8_value b) = Ok ch).

End pixel_domain.

(** ** Sample inputs *)

Module examples.

Import character_sets color_handler image_processor ascii_converter.

(** an existing PNG file of the given size *)
Definition png (w h : Z) : image_file :=
  {| file_exists := true; file_suffix := ".png"; file_size := (w, h) |}.

(** imaging libraries without OpenCV, every pixel of every image mid-gray *)
Definition flat_gray {F} : PixelSource F :=
  {| HAS_OPENCV := false;
     gray_at := fun _ _ _ => Byte.x80;
     color_at := fun _ _ _ => (Byte.x80, Byte.x80, Byte.x80) |}.

Definition the_settings : ref := 1%positive.

(** a converter for [file], and one settings object [s] the caller holds *)
Definition caller_world {F} `{PyFloat F} (file : image_file)
    (s : ConversionSettings F) : world F :=
  {| heap := {[ the_settings := s ]}; this := ASCIIConverter_init file |}.

(** the default settings with another width *)
Definition settings_of_width {F} `{PyFloat F} (w : Z) : ConversionSettings F :=
  setattr ConversionSettings_default (kw_width w).

(** the processor [ImageProcessor(file)] builds for a supported file *)
Definition fresh_processor {F} (file : image_file) : ImageProcessor F :=
  {| image_processor.image_path := file;
     original_image := PIL_convert mode_RGB (PIL_open file);
     processed_image := PIL_copy (PIL_convert mode_RGB (PIL_open file)) |}.

(** the state [convert] is in when it calls [_apply_preprocessing] *)
Definition ready_world {F} `{PyFloat F} (file : image_file)
    (s : ConversionSettings F) : world F :=
  {| heap := {[ the_settings := s ]};
     this := {| image_path := file;
                processor := Some (fresh_processor file);
                settings := Some the_settings |} |}.

End examples.

(** ** More Python built-ins: text *)

(** The text holds ASCII characters only.  On such text the bytes of a
    [string] are the characters of the Python [str], so that slicing,
    [lstrip], [replace], [lower] and [int] below act as Python's. *)
Definition is_ascii (s : string) : bool :=
  forallb (fun c => (nat_of_ascii c <? 128)%nat) (list_ascii_of_string s).

(** [s.lstrip(c)] for a one-character [c] *)
Fixpoint lstrip (c : ascii) (s : string) : string :=
  match s with
  | EmptyString => EmptyString
  | String c' s' => if Ascii.eqb c' c then lstrip c s' else s
  end.

(** [s[i:j]] for literal bounds [0 <= i <= j] *)
Definition py_slice (s : string) (i j : nat) : string := substring i (j - i) s.

(** [s.replace(old, new)] for a one-character [old] *)
Fixpoint replace (old : ascii) (new : string) (s : string) : string :=
  match s with
  | EmptyString => EmptyString
  | String c s' =>
      if Ascii.eqb c old then new +:+ replace old new s'
      else String c (replace old new s')
  end.

(** *** [int(text, 16)] on ASCII text *)

(** the white space [int] skips around the number *)
Definition is_space (c : ascii) : bool :=
  let n := nat_of_ascii c in
  (((9 <=? n) && (n <=? 13)) || (n =? 32))%nat.

Definition hex_value (c : ascii) : option Z :=
  let n := Z.of_nat (nat_of_ascii c) in
  if (48 <=? n) && (n <=? 57) then Some (n - 48)
  else if (97 <=? n) && (n <=? 102) then Some (n - 87)
  else if (65 <=? n) && (n <=? 70) then Some (n - 55)
  else None.

Fixpoint skip_spaces (s : string) : string :=
  match s with
  | String c s' => if is_space c then skip_spaces s' else s
  | EmptyString => EmptyString
  end.

(** The digits, with single underscores between them, and what follows
    them; [None] for a doubled or a trailing underscore. *)
Fixpoint hex_digits (after_underscore : bool) (acc : Z) (s : string)
    : option (Z * string) :=
  match s with
  | EmptyString => if after_underscore then None else Some (acc, s)
  | String c s' =>
      if Ascii.eqb c "_" then
        if after_underscore then None else hex_digits true acc s'
      else
        match hex_value c with
        | Some d => hex_digits false (16 * acc + d) s'
        | None => if after_underscore then None else Some (acc, s)
        end
  end.

(** [int(text, 16)]: white space, a sign, the prefix [0x] (after which one
    underscore may stand), digits with single underscores between them,
    white space. *)
Definition int_base16 (text : string) : result Z :=
  let s := skip_spaces text in
  let '(negative, s) :=
    match s with
    | String "+" s' => (false, s')
    | String "-" s' => (true, s')
    | _ => (false, s)
    end in
  let s :=
    match s with
    | String "0" (String "x" s') | String "0" (String "X" s') =>
        match s' with
        | String "_" s'' => s''
        | _ => s'
        end
    | _ => s
    end in
  match s with
  | String c _ =>
      match hex_value c, hex_digits false 0 s with
      | Some _, Some (n, rest) =>
          match skip_spaces rest with
          | EmptyString => Ok (if negative then - n else n)
          | _ => Raise ValueError
          end
      | _, _ => Raise ValueError
      end
  | EmptyString => Raise ValueError
  end.

(** [a // b] on two [int]s *)
Definition floordiv (a b : Z) : result Z :=
  if b =? 0 then Raise ZeroDivisionError else Ok (a / b).

(** ** [character_sets.py]: the lists of names *)

Module names.

(** [list_available_charsets] *)
Definition list_available_charsets : list string :=
  ["standard"; "detailed"; "simple"; "blocks"; "numbers"; "letters"].

(** [list_available_emoji_sets] *)
Definition list_available_emoji_sets : list string :=
  ["brightness"; "grayscale"; "hearts"; "squares"; "nature";
   "space"; "ocean"; "food"; "faces"; "weather"; "fire"; "geometric"].

End names.

(** ** [color_handler.py]: the other functions on colors *)

Module colors.

Import color_handler.

(** [RGB.to_tuple] *)
Definition to_tuple (self : RGB) : Z * Z * Z := (r self, g self, b self).

(** [RGB.get_complementary] *)
Definition get_complementary (self : RGB) : RGB :=
  {| r := 255 - r self; g := 255 - g self; b := 255 - b self |}.

(** [RGB.get_grayscale] *)
Definition get_grayscale {F} `{PyFloat F} (self : RGB) : result RGB :=
  gray ← int_of_float (brightness self);
  mret {| r := gray; g := gray; b := gray |}.

(** [RGB.from_hex], on ASCII text; [None] stands for text with other
    characters, which this embedding does not cover. *)
Definition from_hex (hex_color : string) : option (result RGB) :=
  if is_ascii hex_color then
    Some (let hex_color := lstrip "#" hex_color in
          r ← int_base16 (py_slice hex_color 0 2);
          g ← int_base16 (py_slice hex_color 2 4);
          b ← int_base16 (py_slice hex_color 4 6);
          mret {| r := r; g := g; b := b |})
  else None.

(** [quantize_color] *)
Definition quantize_color (color : RGB) (levels : Z) : result RGB :=
  step ← floordiv 256 levels;
  r' ← floordiv (r color) step;
  g' ← floordiv (g color) step;
  b' ← floordiv (b color) step;
  mret {| r := r' * step; g := g' * step; b := b' * step |}.

(** a channel triple of a decoded image: every channel in [[0, 255]] *)
Definition in_gamut (c : RGB) : Prop :=
  0 <= r c <= 255 /\ 0 <= g c <= 255 /\ 0 <= b c <= 255.

(** [format(v, "02x")] is two ASCII characters, the first of them not
    [#], which [int(_, 16)] reads back as [v] *)
Definition hex_pair_ok (v : Z) : bool :=
  match format_02x v with
  | String c1 (String c2 EmptyString) =>
      is_ascii (format_02x v) && negb (Ascii.eqb c1 "#")
      && match int_base16 (format_02x v) with
         | Ok n => n =? v
         | Raise _ => false
         end
  | _ => false
  end.

(** [get_grayscale] of the gray of level [v] stays within one level of [v] *)
Definition gray_kept (v : Z) : bool :=
  match get_grayscale (F := spec_float) {| r := v; g := v; b := v |} with
  | Ok c => ((r c =? v) || (r c =? v - 1)) && (g c =? r c) && (b c =? r c)
  | Raise _ => false
  end.

End colors.

(** ** The glyph ramp

    A decision procedure over the pixel domain: every position of the
    table of [m] is the design's index of some intensity. *)

Module ramp.

Import character_sets.

Definition onto (m : CharacterMapper) : bool :=
  forallb
    (fun i => existsb (fun v => design.index (num_chars m) (inject_Z v) =? i)
                      pixel_domain.intensities)
    (range (num_chars m)).

(** the design's index of the complement [255 - v] is the position of
    [v] counted from the other end of the table *)
Definition mirrored (m : CharacterMapper) : bool :=
  forallb
    (fun v => design.index (num_chars m) (255 - inject_Z v)
              =? num_chars m - 1 - design.index (num_chars m) (inject_Z v))
    pixel_domain.intensities.

End ramp.

(** ** [image_processor.py]: starting over *)

Module processor_state.

Import image_processor.

(** [ImageProcessor.reset] *)
Definition reset {F} (self : ImageProcessor F) : ImageProcessor F :=
  with_processed self (PIL_copy (original_image self)).

End processor_state.

(** ** [ascii_converter.py]: the phases of [convert] *)

Module phases.

Import character_sets color_handler image_processor ascii_converter.

Section Phases.
Context {F : Type} `{PyFloat F}.
Variable env : PixelSource F.

(** The state [convert] is in after the loop of the overrides and
    [self.settings = settings]. *)
Definition configured (w : world F) (l : ref) (resolved : list (kwarg F)) : world F :=
  {| heap := alter (fun s => fold_left setattr resolved s) l (heap w);
     this := {| ascii_converter.image_path := ascii_converter.image_path (this w);
                processor := processor (this w);
                settings := Some l |} |}.

(** [convert] from [self._apply_preprocessing()] on *)
Definition render (l : ref) : stmt (F := F) ASCIIArt.t :=
  bind (_apply_preprocessing env) (fun _ =>
  bind (_generate_ascii env) (fun ascii_lines =>
  bind read_settings (fun settings =>
  bind read_processor (fun p =>
    ret {| ASCIIArt.art :=
             wrap_output {| mode := color_mode settings |}
               (String.concat newline ascii_lines) (use_emoji settings);
           ASCIIArt.width := fst (size p);
           ASCIIArt.height := snd (size p);
           ASCIIArt.colored := negb (ColorMode_eqb (color_mode settings) NONE);
           ASCIIArt.is_emoji := use_emoji settings;
           ASCIIArt.settings := l |})))).

(** [convert] from [self.processor = ImageProcessor(self.image_path)] on *)
Definition process (l : ref) : stmt (F := F) ASCIIArt.t :=
  bind (fun w => (w, Ok (ascii_converter.image_path (this w)))) (fun path =>
  bind (lift (ImageProcessor_init path)) (fun p =>
  bind (assign_processor p) (fun _ => render l))).

(** a statement that leaves [self.image_path] as it is *)
Definition keeps_path {A} (m : stmt (F := F) A) : Prop :=
  forall w, ascii_converter.image_path (this (fst (m w)))
            = ascii_converter.image_path (this w).

(** The rows [_generate_ascii] builds from a working image of [height]
    rows and [width] columns. *)
Definition rows_of (settings : ConversionSettings F) (p : ImageProcessor F)
    (width height : Z) : result (list string) :=
  let grayscale_matrix := get_pixel_matrix env p in
  let color_matrix := color_matrix_for env settings p in
  let mapper :=
    CharacterMapper_init (charset settings)
      (if use_emoji settings then Some (emoji_set settings) else None)
      (use_emoji settings) in
  let color_handler := {| mode := color_mode settings |} in
  for_each (fun y =>
      line_chars ← for_each
        (generate_cell settings grayscale_matrix color_matrix mapper color_handler y)
        (range width);
      let line := String.concat EmptyString line_chars in
      mret (if is_html (color_mode settings)
            then format_line color_handler line else line))
    (range height).

End Phases.

End phases.

(** ** [ascii_converter.py]: previews and one-call conversions *)

Module shortcuts.

Import character_sets color_handler image_processor ascii_converter.

Section Shortcuts.
Context {F : Type} `{PyFloat F}.
Variable env : PixelSource F.

(** [ASCIIArt.__str__] *)
Definition ASCIIArt_str (a : ASCIIArt.t) : string := ASCIIArt.art a.

(** [ASCIIConverter.preview] *)
Definition preview (width : Z) : stmt (F := F) string :=
  bind (convert env None [kw_width width; kw_color_mode (member NONE)])
       (fun art => ret (ASCIIArt_str art)).

(** [ASCIIConverter.preview_emoji] *)
Definition preview_emoji (width : Z) (emoji_set : string) : stmt (F := F) string :=
  bind (convert env None
          [kw_width width; kw_use_emoji true;
           kw_emoji_set (member (get_emoji_set_by_name emoji_set))])
       (fun art => ret (ASCIIArt_str art)).

(** a program state with no settings object yet, as the one-call
    conversions start in, holding the converter they build *)
Definition new_converter (image_path : image_file) : world F :=
  {| heap := ∅; this := ASCIIConverter_init image_path |}.

(** [image_to_ascii]: [str(convert_image(image_path, width=width))] *)
Definition image_to_ascii (image_path : image_file) (width : Z) : result string :=
  art ← snd (convert env None [kw_width width] (new_converter image_path));
  mret (ASCIIArt_str art).

(** [image_to_emoji]:
    [str(convert_to_emoji(image_path, width=width, emoji_set=emoji_set))] *)
Definition image_to_emoji (image_path : image_file) (width : Z) (emoji_set : string)
    : result string :=
  art ← snd (convert env None
               [kw_use_emoji true;
                kw_emoji_set (member (get_emoji_set_by_name emoji_set));
                kw_width width]
               (new_converter image_path));
  mret (ASCIIArt_str art).

End Shortcuts.

(** The glyphs a cell of an uncolored conversion can hold: the squares of
    the color classification when that is on, the selected table
    otherwise. *)
Definition palette {F} (s : ConversionSettings F) : list glyph :=
  if use_emoji s && color_emoji s
  then map color_emojis [red; orange; yellow; green; blue; purple; black; white]
  else characters (CharacterMapper_init (charset s)
                     (if use_emoji s then Some (emoji_set s) else None)
                     (use_emoji s)).

(** a text of [height] rows of [width] glyphs of [glyphs], one row a line *)
Definition is_grid (glyphs : list glyph) (width height : Z) (text : string) : Prop :=
  exists rows : list (list glyph),
    text = String.concat newline (map (String.concat EmptyString) rows)
    /\ Z.of_nat (length rows) = height
    /\ Forall (fun row => Z.of_nat (length row) = width
                          /\ Forall (fun g => g ∈ glyphs) row) rows.

End shortcuts.

(** ** [utils.py] *)

Module utils.

(** [get_terminal_size]: what the terminal reports, or the fallback when
    there is none ([OSError]) *)
Definition get_terminal_size (terminal : option (Z * Z)) : Z * Z :=
  match terminal with
  | Some size => size
  | None => (80, 24)
  end.

(** [x / y] on an [int] and a [float] *)
Definition int_div_float {F} `{PyFloat F} (x : Z) (y : F) : result F :=
  if feqb y (float_of_int 0) then Raise ZeroDivisionError
  else Ok (fdiv (float_of_int x) y).

(** [calculate_optimal_width] *)
Definition calculate_optimal_width {F} `{PyFloat F} (terminal : option (Z * Z))
    (image_width image_height : Z) (max_width max_height : option Z) : result Z :=
  let max_width :=
    match max_width with
    | Some m => m
    | None => fst (get_terminal_size terminal) - 2
    end in
  let max_height :=
    match max_height with
    | Some m => m
    | None => snd (get_terminal_size terminal) - 4
    end in
  q ← int_truediv image_height image_width;
  let aspect_ratio := fmul q (float_lit 55 2) in
  let width := max_width in
  height ← int_of_float (fmul (float_of_int width) aspect_ratio);
  width ←
    (if max_height <? height then
       x ← int_div_float max_height aspect_ratio;
       int_of_float x
     else mret width);
  mret (Z.max 1 (Z.min width max_width)).

(** [sanitize_filename] *)
Definition invalid_chars : list ascii :=
  list_ascii_of_string "<>:" ++ [ascii_of_nat 34] ++ list_ascii_of_string "/\|?*".

Definition sanitize_filename (filename : string) : string :=
  fold_left (fun filename char => replace char "_" filename) invalid_chars filename.

End utils.

(** * Theorems *)

(** ** The glyph mapper in exact arithmetic *)

Section exact_lemmas.
Import character_sets.

Lemma Q_trunc_floor (x : Q) : (0 <= x)%Q -> Q_trunc x = Qfloor x.
Proof.
  destruct x as [n d]. unfold Qle, Q_trunc, Qfloor. simpl. intros Hn.
  apply Z.quot_div_nonneg; lia.
Qed.


Lemma Q_ltb_spec (x y : Q) : Q_ltb x y = true <-> (x < y)%Q.
Proof.
  unfold Q_ltb. rewrite negb_true_iff. split.
  - intros Hb. apply Qnot_le_lt. intros Hle. apply Qle_bool_iff in Hle. congruence.
  - intros Hlt. destruct (Qle_bool y x) eqn:E; [|reflexivity].
    apply Qle_bool_iff in E. exfalso. eapply Qlt_not_le; eassumption.
Qed.

Lemma Q_ltb_false (x y : Q) : Q_ltb x y = false <-> (y <= x)%Q.
Proof.
  unfold Q_ltb. rewrite negb_false_iff. apply Qle_bool_iff.
Qed.

(** The code's double [max]/[min] is the design's clamp. *)
Lemma py_clamp_exact (x : Q) :
  (py_max (float_of_int 0) (py_min (float_of_int 255) x) == design.clamp x 0 255)%Q.
Proof.
  unfold py_max, py_min, design.clamp. cbn [flt float_of_int exact_float].
  destruct (Q_ltb x (inject_Z 255)) eqn:E1.
  - apply Q_ltb_spec in E1.
    destruct (Q_ltb (inject_Z 0) x) eqn:E2.
    + apply Q_ltb_spec in E2.
      destruct (Qle_bool x 0) eqn:E3.
      { apply Qle_bool_iff in E3. exfalso. change (inject_Z 0) with 0%Q in E2. lra. }
      destruct (Qle_bool 255 x) eqn:E4.
      { apply Qle_bool_iff in E4. exfalso. change (inject_Z 255) with 255%Q in E1. lra. }
      reflexivity.
    + apply Q_ltb_false in E2.
      destruct (Qle_bool x 0) eqn:E3; [reflexivity|].
      exfalso. change (inject_Z 0) with 0%Q in E2. apply Qle_bool_iff in E2. congruence.
  - apply Q_ltb_false in E1. change (inject_Z 255) with 255%Q in E1.
    assert (E2 : Q_ltb (inject_Z 0) (inject_Z 255) = true) by reflexivity.
    rewrite E2.
    destruct (Qle_bool x 0) eqn:E3.
    { apply Qle_bool_iff in E3. exfalso. lra. }
    destruct (Qle_bool 255 x) eqn:E4; [reflexivity|].
    apply Qle_bool_iff in E1. congruence.
Qed.

Lemma clamp_bounds (x : Q) : (0 <= design.clamp x 0 255 <= 255)%Q.
Proof.
  unfold design.clamp.
  destruct (Qle_bool x 0) eqn:E3; [lra|].
  destruct (Qle_bool 255 x) eqn:E4; [lra|].
  assert (~ (x <= 0)%Q) by (rewrite <- Qle_bool_iff; congruence).
  assert (~ (255 <= x)%Q) by (rewrite <- Qle_bool_iff; congruence).
  lra.
Qed.

End exact_lemmas.

Section exact_index.
Import character_sets.

(** The value [get_character] truncates, in exact arithmetic. *)
Lemma scaled_exact (n : Z) (x : Q) :
  (fadd (fmul (fdiv (py_max (float_of_int 0) (py_min (float_of_int 255) x))
                    (float_lit 2550 1))
              (float_of_int (n - 1)))
        (float_lit 5 1)
   == design.clamp x 0 255 / 255 * inject_Z (n - 1) + (1 # 2))%Q.
Proof.
  cbn [fadd fmul fdiv float_lit exact_float].
  rewrite py_clamp_exact.
  cbn [float_of_int exact_float].
  assert (E1 : (Q_lit 2550 1 == 255)%Q) by reflexivity.
  assert (E2 : (Q_lit 5 1 == 1 # 2)%Q) by reflexivity.
  rewrite E1, E2. reflexivity.
Qed.

Lemma scaled_bounds (n : Z) (x : Q) :
  1 <= n ->
  ((1 # 2) <= design.clamp x 0 255 / 255 * inject_Z (n - 1) + (1 # 2)
   /\ design.clamp x 0 255 / 255 * inject_Z (n - 1) + (1 # 2) < inject_Z n)%Q.
Proof.
  intros Hn.
  pose proof (clamp_bounds x) as [Hlo Hhi].
  set (c := design.clamp x 0 255) in *.
  assert (Hm : (0 <= inject_Z (n - 1))%Q).
  { change 0%Q with (inject_Z 0). rewrite <- Zle_Qle. lia. }
  assert (Hn1 : (inject_Z n == inject_Z (n - 1) + 1)%Q).
  { unfold Qeq, Qplus, inject_Z. simpl. lia. }
  assert (Hc : (0 <= c / 255 /\ c / 255 <= 1)%Q).
  { split.
    - apply Qle_shift_div_l; [reflexivity | lra].
    - apply Qle_shift_div_r; [reflexivity | lra]. }
  destruct Hc as [Hc0 Hc1].
  set (t := (c / 255)%Q) in *. set (m := inject_Z (n - 1)) in *.
  split.
  - assert (0 <= t * m)%Q by (apply Qmult_le_0_compat; assumption). lra.
  - rewrite Hn1.
    assert (t * m <= 1 * m)%Q by (apply Qmult_le_compat_r; assumption). lra.
Qed.

Lemma design_index_range (n : Z) (x : Q) :
  1 <= n -> 0 <= design.index n x <= n - 1.
Proof. intros Hn. unfold design.index. lia. Qed.

Lemma get_index_exact (self : CharacterMapper) (x : Q) :
  1 <= num_chars self ->
  get_index self x = Ok (design.index (num_chars self) x).
Proof.
  intros Hn. unfold get_index, design.index, design.round_half_up.
  set (y := fadd _ _).
  pose proof (scaled_exact (num_chars self) x) as Hy. fold y in Hy.
  pose proof (scaled_bounds (num_chars self) x Hn) as [Hlo _].
  cbn [int_of_float exact_float mbind result_bind mret result_ret].
  rewrite Q_trunc_floor by (rewrite Hy; lra).
  rewrite Hy. reflexivity.
Qed.

End exact_index.

Section exact_index_ends.
Import character_sets.



Lemma py_getitem_in_range {A} (l : list A) (i : Z) :
  0 <= i < Z.of_nat (length l) ->
  exists a, l !! Z.to_nat i = Some a /\ py_getitem l i = Ok a.
Proof.
  intros Hi. unfold py_getitem.
  destruct (i <? 0) eqn:E1; [lia|]. rewrite E1.
  destruct (Z.of_nat (length l) <=? i) eqn:E2; [lia|]. simpl.
  destruct (l !! Z.to_nat i) as [a|] eqn:E3.
  - exists a. split; reflexivity.
  - apply lookup_ge_None in E3. lia.
Qed.

End exact_index_ends.

Lemma get_character_design_index_aux (self : character_sets.CharacterMapper) (x : Q) :
  character_sets.mapper_wf self ->
  1 <= character_sets.num_chars self ->
  exists g,
    character_sets.characters self
      !! Z.to_nat (design.index (character_sets.num_chars self) x) = Some g /\
    character_sets.get_character self x = Ok g.
Proof.
  intros Hwf Hn.
  pose proof (design_index_range (character_sets.num_chars self) x Hn) as Hr.
  unfold character_sets.get_character.
  rewrite (get_index_exact self x Hn).
  cbn [mbind result_bind].
  apply py_getitem_in_range. rewrite <- Hwf. lia.
Qed.


(** ** The pixel domain in double precision *)

Section pixel_checks.
Import character_sets pixel_domain.

Lemma range_spec (n v : Z) : 0 <= v < n -> v ∈ range n.
Proof.
  intros Hv. unfold range. apply list_elem_of_fmap.
  exists (Z.to_nat v). split; [lia|]. apply elem_of_seq. lia.
Qed.

Lemma range_inv (n v : Z) : v ∈ range n -> 0 <= v < n.
Proof.
  unfold range. intros Hv. apply list_elem_of_fmap in Hv as (k & -> & Hk).
  apply elem_of_seq in Hk. lia.
Qed.

Lemma length_range (n : Z) : length (range n) = Z.to_nat n.
Proof. unfold range. rewrite length_map, length_seq. reflexivity. Qed.

Lemma index_agrees_all :
  forallb (fun m => forallb (index_agrees m) intensities) source_mappers = true.
Proof. vm_compute. reflexivity. Qed.

Lemma mean_agrees_all : forallb mean_agrees channel_sums = true.
Proof. vm_compute. reflexivity. Qed.

Lemma source_mappers_nonempty (m : CharacterMapper) :
  m ∈ source_mappers -> 1 <= num_chars m.
Proof.
  intros Hm. unfold source_mappers in Hm.
  repeat (apply elem_of_cons in Hm as [-> | Hm]; [vm_compute; discriminate|]).
  inversion Hm.
Qed.

Lemma source_mappers_wf (m : CharacterMapper) :
  m ∈ source_mappers -> mapper_wf m.
Proof.
  intros Hm. unfold source_mappers in Hm.
  repeat (apply elem_of_cons in Hm as [-> | Hm]; [reflexivity|]).
  inversion Hm.
Qed.

(** On every table of the repository and every pixel intensity, the double
    precision evaluation of [get_index] is the design's index. *)
Lemma binary64_index_on_pixels (m : CharacterMapper) (v : Z) :
  m ∈ source_mappers -> 0 <= v <= 255 ->
  get_index (F := spec_float) m (float_of_int v)
  = Ok (design.index (num_chars m) (inject_Z v)).
Proof.
  intros Hm Hv.
  pose proof index_agrees_all as Hall.
  rewrite forallb_forall in Hall.
  pose proof Hm as Hm'. apply list_elem_of_In in Hm'. specialize (Hall m Hm').
  rewrite forallb_forall in Hall.
  assert (Hin : In v intensities) by (apply list_elem_of_In, range_spec; lia).
  specialize (Hall v Hin). unfold index_agrees in Hall.
  apply andb_true_iff in Hall as [Hall _].
  rewrite (get_index_exact m (inject_Z v) (source_mappers_nonempty m Hm)) in Hall.
  destruct (get_index (F := spec_float) m (float_of_int v)) as [i|]; [|discriminate].
  simpl in Hall. apply Z.eqb_eq in Hall. congruence.
Qed.


Lemma binary64_mean (s : Z) :
  0 <= s <= 765 ->
  exists x, int_truediv (F := spec_float) s 3 = Ok x
            /\ flt x (float_of_int 30) = (s <? 90)
            /\ flt (float_of_int 225) x = (675 <? s).
Proof.
  intros Hs. pose proof mean_agrees_all as Hall.
  rewrite forallb_forall in Hall.
  assert (Hin : In s channel_sums) by (apply list_elem_of_In, range_spec; lia).
  specialize (Hall s Hin). unfold mean_agrees in Hall.
  destruct (int_truediv (F := spec_float) s 3) as [x|]; [|discriminate].
  apply andb_true_iff in Hall as [H1 H2].
  apply Bool.eqb_prop in H1, H2. eauto.
Qed.

Lemma exact_mean (s : Z) :
  exists x, int_truediv (F := Q) s 3 = Ok x
            /\ flt x (float_of_int 30) = (s <? 90)
            /\ flt (float_of_int 225) x = (675 <? s).
Proof.
  exists (inject_Z s / inject_Z 3)%Q. split; [reflexivity|].
  cbn [flt float_of_int exact_float].
  assert (Hq : forall k, (inject_Z s / inject_Z 3 < inject_Z k)%Q <-> s < 3 * k).
  { intros k. unfold Qlt, Qdiv, Qmult, Qinv, inject_Z. simpl. lia. }
  assert (Hq' : forall k, (inject_Z k < inject_Z s / inject_Z 3)%Q <-> 3 * k < s).
  { intros k. unfold Qlt, Qdiv, Qmult, Qinv, inject_Z. simpl. lia. }
  split.
  - destruct (s <? 90) eqn:E.
    + apply Q_ltb_spec, Hq. lia.
    + destruct (Q_ltb _ _) eqn:E'; [|reflexivity].
      apply Q_ltb_spec, Hq in E'. lia.
  - destruct (675 <? s) eqn:E.
    + apply Q_ltb_spec, Hq'. lia.
    + destruct (Q_ltb _ _) eqn:E'; [|reflexivity].
      apply Q_ltb_spec, Hq' in E'. lia.
Qed.

End pixel_checks.



(** ** Color-driven emoji *)

Section emoji_classification.
Import character_sets.
Context {F : Type} `{PyFloat F}.

Lemma mean_lt (r g b k : Z) : (design.mean r g b < inject_Z k)%Q <-> r + g + b < 3 * k.
Proof. unfold design.mean, Qlt, Qdiv, Qmult, Qinv, inject_Z. simpl. lia. Qed.

Lemma mean_gt (r g b k : Z) : (inject_Z k < design.mean r g b)%Q <-> 3 * k < r + g + b.
Proof. unfold design.mean, Qlt, Qdiv, Qmult, Qinv, inject_Z. simpl. lia. Qed.

(** Once the two comparisons of the mean are known, the decision is made
    on integers alone. *)
Lemma dominant_color_decision (r g b : Z) (x : F) :
  int_truediv (r + g + b) 3 = Ok x ->
  flt x (float_of_int 30) = (r + g + b <? 90) ->
  flt (float_of_int 225) x = (675 <? r + g + b) ->
  exists k, dominant_color r g b = Ok k /\
    ((design.mean r g b < 30)%Q -> k = black) /\
    (~ (design.mean r g b < 30)%Q -> (225 < design.mean r g b)%Q -> k = white) /\
    (~ (design.mean r g b < 30)%Q -> ~ (225 < design.mean r g b)%Q ->
       (g <= r -> b <= r ->
          (150 < g -> 200 < r -> k = yellow) /\
          (~ (150 < g /\ 200 < r) -> 100 < g -> k = orange) /\
          (g <= 100 -> k = red)) /\
       (r < g -> b <= g -> k = green) /\
       (r < b -> g < b -> (150 < r -> k = purple) /\ (r <= 150 -> k = blue))).
Proof.
  intros Hx H30 H225. unfold dominant_color. rewrite Hx.
  cbn [mbind result_bind mret result_ret]. rewrite H30, H225.
  pose proof (mean_lt r g b 30) as A. change (inject_Z 30) with 30%Q in A.
  pose proof (mean_gt r g b 225) as B. change (inject_Z 225) with 225%Q in B.
  destruct (r + g + b <? 90) eqn:E1.
  { exists black. split; [reflexivity|]. rewrite A, B.
    repeat split; intros; try reflexivity; lia. }
  destruct (675 <? r + g + b) eqn:E2.
  { exists white. split; [reflexivity|]. rewrite A, B.
    repeat split; intros; try reflexivity; lia. }
  destruct (r =? Z.max (Z.max r g) b) eqn:E3.
  { destruct (150 <? g) eqn:E4; destruct (200 <? r) eqn:E5; simpl;
      try (destruct (100 <? g) eqn:E6);
      eexists; (split; [reflexivity|]); rewrite A, B;
      repeat split; intros; try reflexivity; lia. }
  destruct (g =? Z.max (Z.max r g) b) eqn:E4.
  { exists green. split; [reflexivity|]. rewrite A, B.
    repeat split; intros; try reflexivity; lia. }
  destruct (150 <? r) eqn:E5;
    eexists; (split; [reflexivity|]); rewrite A, B;
    repeat split; intros; try reflexivity; lia.
Qed.

End emoji_classification.

(** C3. For channels in [[0,255]], the color-driven emoji classification,
    evaluated in double precision, follows the decision order of the
    design: black below mean 30, white above mean 225, then by maximum
    channel with thresholds 150/200/100 for red and 150 for blue; the five
    sample colors map to black, white, yellow, green and blue. *)
Theorem get_colored_emoji_decision :
  forall (self : character_sets.CharacterMapper) (r g b : Z),
    0 <= r <= 255 -> 0 <= g <= 255 -> 0 <= b <= 255 ->
    (exists k,
      character_sets.get_colored_emoji (F := spec_float) self r g b
        = Ok (character_sets.color_emojis k) /\
      ((design.mean r g b < 30)%Q -> k = character_sets.black) /\
      (~ (design.mean r g b < 30)%Q -> (225 < design.mean r g b)%Q ->
         k = character_sets.white) /\
      (~ (design.mean r g b < 30)%Q -> ~ (225 < design.mean r g b)%Q ->
         (g <= r -> b <= r ->
            (150 < g -> 200 < r -> k = character_sets.yellow) /\
            (~ (150 < g /\ 200 < r) -> 100 < g -> k = character_sets.orange) /\
            (g <= 100 -> k = character_sets.red)) /\
         (r < g -> b <= g -> k = character_sets.green) /\
         (r < b -> g < b ->
            (150 < r -> k = character_sets.purple) /\
            (r <= 150 -> k = character_sets.blue)))) /\
    character_sets.get_colored_emoji (F := spec_float) self 10 10 10
      = Ok (character_sets.color_emojis character_sets.black) /\
    character_sets.get_colored_emoji (F := spec_float) self 245 245 245
      = Ok (character_sets.color_emojis character_sets.white) /\
    character_sets.get_colored_emoji (F := spec_float) self 220 180 10
      = Ok (character_sets.color_emojis character_sets.yellow) /\
    character_sets.get_colored_emoji (F := spec_float) self 0 200 0
      = Ok (character_sets.color_emojis character_sets.green) /\
    character_sets.get_colored_emoji (F := spec_float) self 10 10 220
      = Ok (character_sets.color_emojis character_sets.blue).
Proof.
  intros self r g b Hr Hg Hb. split.
  - destruct (binary64_mean (r + g + b)) as (x & Hx & H30 & H225); [lia|].
    destruct (dominant_color_decision r g b x Hx H30 H225) as (k & Hk & Hdec).
    exists k. split; [|exact Hdec].
    unfold character_sets.get_colored_emoji. rewrite Hk. reflexivity.
  - repeat split; vm_compute; reflexivity.
Qed.

Lemma get_colored_emoji_decision_witness :
  exists k,
    character_sets.get_colored_emoji (F := spec_float)
      (character_sets.CharacterMapper_init character_sets.DETAILED
         (Some character_sets.BRIGHTNESS) true) 200 120 40
      = Ok (character_sets.color_emojis k)
    /\ k = character_sets.orange.
Proof.
  destruct (get_colored_emoji_decision
              (character_sets.CharacterMapper_init character_sets.DETAILED
                 (Some character_sets.BRIGHTNESS) true) 200 120 40
              ltac:(lia) ltac:(lia) ltac:(lia)) as [(k & Hk & _ & _ & Hdec) _].
  exists k. split; [exact Hk|].
  assert (H1 : ~ (design.mean 200 120 40 < 30)%Q) by (vm_compute; discriminate).
  assert (H2 : ~ (225 < design.mean 200 120 40)%Q) by (vm_compute; discriminate).
  destruct (Hdec H1 H2) as [Hred _].
  destruct (Hred ltac:(lia) ltac:(lia)) as (_ & Ho & _).
  apply Ho; lia.
Defined.

(** ** The inverted mapping *)

Section inverted_generic.
Import character_sets.
Context {F : Type} `{PyFloat F}.

(** In every float arithmetic the inverted mapping is the standard mapping
    of [255 - brightness]. *)
Lemma get_inverted_character_unfold (self : CharacterMapper) (brightness : F) :
  get_inverted_character self brightness
  = get_character self (fsub (float_of_int 255) brightness).
Proof. reflexivity. Qed.

End inverted_generic.

Section inverted_pixels.
Import character_sets pixel_domain.

(** On the repository's tables and the pixel intensities, double precision
    computes the design's index of the complement. *)
Lemma binary64_inverted_index_on_pixels (m : CharacterMapper) (v : Z) :
  m ∈ source_mappers -> 0 <= v <= 255 ->
  get_index (F := spec_float) m (fsub (float_of_int 255) (float_of_int v))
  = Ok (design.index (num_chars m) (255 - inject_Z v)).
Proof.
  intros Hm Hv.
  pose proof index_agrees_all as Hall.
  rewrite forallb_forall in Hall.
  pose proof Hm as Hm'. apply list_elem_of_In in Hm'. specialize (Hall m Hm').
  rewrite forallb_forall in Hall.
  assert (Hin : In v intensities) by (apply list_elem_of_In, range_spec; lia).
  specialize (Hall v Hin). unfold index_agrees in Hall.
  apply andb_true_iff in Hall as [_ Hall].
  rewrite (get_index_exact m (255 - inject_Z v)%Q (source_mappers_nonempty m Hm)) in Hall.
  destruct (get_index (F := spec_float) m _) as [i|]; [|discriminate].
  simpl in Hall. apply Z.eqb_eq in Hall. congruence.
Qed.

Lemma binary64_inverted_character_on_pixels (m : CharacterMapper) (v : Z) :
  m ∈ source_mappers -> 0 <= v <= 255 ->
  exists g,
    characters m !! Z.to_nat (design.index (num_chars m) (255 - inject_Z v)) = Some g /\
    get_character (F := spec_float) m (fsub (float_of_int 255) (float_of_int v)) = Ok g /\
    get_inverted_character (F := spec_float) m (float_of_int v) = Ok g.
Proof.
  intros Hm Hv. unfold get_inverted_character, get_character.
  rewrite (binary64_inverted_index_on_pixels m v Hm Hv). cbn [mbind result_bind].
  destruct (py_getitem_in_range (characters m)
              (design.index (num_chars m) (255 - inject_Z v))) as (g & Hg & Hget).
  { pose proof (design_index_range (num_chars m) (255 - inject_Z v)
                  (source_mappers_nonempty m Hm)).
    rewrite <- (source_mappers_wf m Hm). lia. }
  exists g. split; [exact Hg|]. split; exact Hget.
Qed.

End inverted_pixels.


(** C10. The inverted mapping of a brightness is the standard mapping of
    its complement: [glyph_inverted(b) = glyph(255 - b)], both being the
    table entry at [index(255 - b)]; in exact arithmetic for every table
    and brightness, and in double precision for the tables of the
    repository and the pixel intensities. *)
Theorem get_inverted_character_complement :
  forall (self : character_sets.CharacterMapper) (brightness : Q),
    character_sets.mapper_wf self ->
    1 <= character_sets.num_chars self ->
    (0 <= brightness <= 255)%Q ->
    (exists g,
      character_sets.characters self
        !! Z.to_nat (design.index (character_sets.num_chars self) (255 - brightness))
        = Some g /\
      character_sets.get_character self (255 - brightness)%Q = Ok g /\
      character_sets.get_inverted_character self brightness = Ok g) /\
    (forall v,
        self ∈ pixel_domain.source_mappers -> 0 <= v <= 255 ->
        exists g,
          character_sets.characters self
            !! Z.to_nat (design.index (character_sets.num_chars self) (255 - inject_Z v))
            = Some g /\
          character_sets.get_character (F := spec_float) self
            (fsub (float_of_int 255) (float_of_int v)) = Ok g /\
          character_sets.get_inverted_character (F := spec_float) self (float_of_int v)
          = Ok g).
Proof.
  intros self x Hwf Hn _. split.
  - destruct (get_character_design_index_aux self (255 - x)%Q Hwf Hn) as (g & Hg & Hc).
    exists g. split; [exact Hg|]. split; [exact Hc|].
    unfold character_sets.get_inverted_character. exact Hc.
  - intros v Hm Hv.
    destruct (binary64_inverted_character_on_pixels self v Hm Hv) as (g & Hg & Hc & Hi).
    exists g. split; [exact Hg|]. split; [exact Hc | exact Hi].
Qed.

Lemma get_inverted_character_complement_witness :
  exists g,
    character_sets.characters
      (character_sets.CharacterMapper_init character_sets.STANDARD None false)
      !! Z.to_nat (design.index 10 (255 - 40)) = Some g /\
    character_sets.get_character
      (character_sets.CharacterMapper_init character_sets.STANDARD None false)
      (255 - 40)%Q = Ok g /\
    character_sets.get_inverted_character
      (character_sets.CharacterMapper_init character_sets.STANDARD None false)
      (40 : Q) = Ok g.
Proof.
  destruct (get_inverted_character_complement
              (character_sets.CharacterMapper_init character_sets.STANDARD None false)
              40%Q) as [Hexact _].
  - reflexivity.
  - vm_compute; discriminate.
  - split; vm_compute; discriminate.
  - exact Hexact.
Defined.


(** ** The color formatter *)

Section formatter_lemmas.
Import color_handler.
Context {F : Type} `{PyFloat F}.


(** [html-fg] escapes the five reserved characters, once. *)
Lemma format_character_html (char : string) (color : RGB) :
  format_character {| mode := HTML |} char (Some color)
  = "<span style=" +:+ dquote +:+ "color:" +:+ to_html color +:+ dquote
    +:+ ">" +:+ design.html_escape char +:+ "</span>".
Proof. reflexivity. Qed.

(** [html-bg] replaces the space only. *)
Lemma format_character_html_bg (char : string) (color : RGB) :
  format_character {| mode := HTML_BG |} char (Some color)
  = "<span style=" +:+ dquote +:+ "background:" +:+ to_html color
    +:+ ";color:"
    +:+ (if flt (brightness color) (float_of_int 128) then "#ffffff" else "#000000")
    +:+ dquote +:+ ">"
    +:+ (if String.eqb char " " then "&nbsp;" else char) +:+ "</span>".
Proof. reflexivity. Qed.

End formatter_lemmas.

(** The entities of the five reserved characters; an entity is not
    escaped again. *)
Lemma html_escape_reserved :
  design.html_escape "<" = "&lt;" /\
  design.html_escape ">" = "&gt;" /\
  design.html_escape "&" = "&amp;" /\
  design.html_escape dquote = "&quot;" /\
  design.html_escape " " = "&nbsp;".
Proof. repeat split; reflexivity. Qed.


(** Mid-gray: the exact luminance of (128,128,128) is 128, the double
    precision sum is the double just below it, and the text is white. *)
Lemma mid_gray_luminance :
  let gray := {| color_handler.r := 128; color_handler.g := 128; color_handler.b := 128 |} in
  color_handler.brightness (F := Q) gray == 128 /\
  color_handler.brightness (F := spec_float) gray
    = S754_finite false 9007199254740991 (-46) /\
  flt (color_handler.brightness (F := spec_float) gray) (float_of_int 128) = true /\
  flt (color_handler.brightness (F := Q) gray) (float_of_int 128) = false.
Proof. repeat split. Qed.

(** C4, evaluated where it fails: under [html-bg] the glyphs [<], [>], [&]
    and the double quote reach the markup unescaped, while [html-fg]
    escapes them. *)
Theorem html_bg_reserved_glyphs_unescaped :
  let black := {| color_handler.r := 0; color_handler.g := 0; color_handler.b := 0 |} in
  let bg char :=
    color_handler.format_character (F := spec_float)
      {| color_handler.mode := color_handler.HTML_BG |} char (Some black) in
  let fg char :=
    color_handler.format_character (F := spec_float)
      {| color_handler.mode := color_handler.HTML |} char (Some black) in
  let open_bg :=
    "<span style=" +:+ dquote +:+ "background:#000000;color:#ffffff" +:+ dquote +:+ ">" in
  let open_fg := "<span style=" +:+ dquote +:+ "color:#000000" +:+ dquote +:+ ">" in
  bg "<" = open_bg +:+ "<" +:+ "</span>" /\
  bg ">" = open_bg +:+ ">" +:+ "</span>" /\
  bg "&" = open_bg +:+ "&" +:+ "</span>" /\
  bg dquote = open_bg +:+ dquote +:+ "</span>" /\
  bg " " = open_bg +:+ "&nbsp;" +:+ "</span>" /\
  fg "<" = open_fg +:+ "&lt;" +:+ "</span>" /\
  fg ">" = open_fg +:+ "&gt;" +:+ "</span>" /\
  fg "&" = open_fg +:+ "&amp;" +:+ "</span>" /\
  fg dquote = open_fg +:+ "&quot;" +:+ "</span>" /\
  fg " " = open_fg +:+ "&nbsp;" +:+ "</span>".
Proof. repeat split; vm_compute; reflexivity. Qed.

(** ** The preprocessing pipeline *)

Section preprocessing.
Import character_sets color_handler image_processor ascii_converter.
Context {F : Type} `{PyFloat F}.
Variable env : PixelSource F.

Lemma run_stages_app (s : ConversionSettings F) (l1 l2 : list design.stage)
    (p : ImageProcessor F) :
  design.run_stages env s (l1 ++ l2)%list p
  = (p' ← design.run_stages env s l1 p; design.run_stages env s l2 p').
Proof.
  revert p. induction l1 as [|st l1 IH]; intros p; [reflexivity|].
  simpl. destruct (design.run_stage env s st p) as [p'|e]; [apply IH | reflexivity].
Qed.

Lemma pipeline_split (s : ConversionSettings F) :
  design.pipeline s
  = (design.before_resize s ++ design.st_resize :: design.after_resize s)%list.
Proof.
  unfold design.pipeline, design.fixed_order, design.before_resize, design.after_resize.
  change [design.st_denoise; design.st_contrast; design.st_brightness;
          design.st_auto_enhance; design.st_sharpen; design.st_resize;
          design.st_edge_detection; design.st_grayscale]
    with ([design.st_denoise; design.st_contrast; design.st_brightness;
           design.st_auto_enhance; design.st_sharpen]
          ++ design.st_resize :: [design.st_edge_detection; design.st_grayscale])%list.
  rewrite List.filter_app. reflexivity.
Qed.

(** An operation other than the resize returns, and changes neither the
    original image, nor the path, nor the size. *)
Lemma run_stage_frame (s : ConversionSettings F) (st : design.stage)
    (p : ImageProcessor F) :
  st <> design.st_resize ->
  exists p', design.run_stage env s st p = Ok p'
    /\ original_image p' = original_image p
    /\ image_processor.image_path p' = image_processor.image_path p
    /\ image_size (processed_image p') = image_size (processed_image p).
Proof.
  intros Hst. destruct st; try congruence; simpl;
    unfold image_processor.denoise, image_processor.edge_detection;
    try destruct (HAS_OPENCV env); eexists; (split; [reflexivity|]);
    repeat split.
Qed.

Lemma run_stages_frame (s : ConversionSettings F) (sts : list design.stage)
    (p : ImageProcessor F) :
  design.st_resize ∉ sts ->
  exists p', design.run_stages env s sts p = Ok p'
    /\ original_image p' = original_image p
    /\ image_processor.image_path p' = image_processor.image_path p
    /\ image_size (processed_image p') = image_size (processed_image p).
Proof.
  revert p. induction sts as [|st sts IH]; intros p Hnot.
  - exists p. repeat split.
  - apply not_elem_of_cons in Hnot as [Hst Hnot].
    destruct (run_stage_frame s st p) as (p1 & Hp1 & Ho1 & Hi1 & Hs1); [congruence|].
    destruct (IH p1 Hnot) as (p2 & Hp2 & Ho2 & Hi2 & Hs2).
    exists p2. simpl. rewrite Hp1. cbn [mbind result_bind].
    repeat split; congruence.
Qed.

Lemma resize_free_before (s : ConversionSettings F) : design.st_resize ∉ design.before_resize s.
Proof.
  unfold design.before_resize. intros Hin. apply list_elem_of_In, List.filter_In in Hin as [Hin _].
  simpl in Hin. intuition congruence.
Qed.

Lemma resize_free_after (s : ConversionSettings F) : design.st_resize ∉ design.after_resize s.
Proof.
  unfold design.after_resize. intros Hin. apply list_elem_of_In, List.filter_In in Hin as [Hin _].
  simpl in Hin. intuition congruence.
Qed.

(** The statement [_apply_preprocessing] runs the enabled operations in
    the fixed order. *)
Lemma apply_preprocessing_stages (w : world F) (l : ref)
    (s : ConversionSettings F) (p : ImageProcessor F) :
  settings (this w) = Some l ->
  heap w !! l = Some s ->
  processor (this w) = Some p ->
  match design.run_stages env s (design.pipeline s) p with
  | Ok p' => _apply_preprocessing env w = (set_processor w p', Ok tt)
  | Raise e => snd (_apply_preprocessing env w) = Raise e
  end.
Proof.
  intros Hl Hs Hp.
  unfold _apply_preprocessing, bind, read_settings. rewrite Hl, Hs.
  unfold design.pipeline, design.fixed_order, design.enabled, design.neutral.
  cbn [List.filter].
  destruct (denoise s), (feqb (contrast s) (float_lit 10 1)),
    (feqb (brightness s) (float_lit 10 1)), (auto_enhance s),
    (feqb (sharpen s) (float_lit 10 1));
    cbn [negb when List.filter design.run_stages design.run_stage mbind result_bind];
    unfold call_processor, ret; cbn [this processor set_processor]; rewrite ?Hp;
    cbn [this processor set_processor];
    (match goal with
     | |- context [resize ?q ?a ?b ?c ?d] => destruct (resize q a b c d) as [p1|e]
     end; [|reflexivity]);
    destruct (edge_detection s), (use_emoji s);
    cbn [negb andb List.filter design.run_stages design.run_stage mbind result_bind
         this processor set_processor heap];
    reflexivity.
Qed.

End preprocessing.

(** ** The resize step *)

Section resize_step.
Import character_sets color_handler image_processor ascii_converter.
Context {F : Type} `{PyFloat F}.
Variable env : PixelSource F.

(** What the resize operation does to a processor whose image has size
    [(ow, oh)]. *)
Lemma run_resize (s : ConversionSettings F) (p : ImageProcessor F) (ow oh h : Z) :
  image_size (processed_image p) = (ow, oh) ->
  design.requested_height s ow oh = Ok h ->
  design.run_stage env s design.st_resize p
  = Ok (with_processed p
          (PIL_resize_LANCZOS (Z.max 1 (width s), Z.max 1 h) (processed_image p))).
Proof.
  intros Hsz Hh. unfold design.run_stage, resize, design.requested_height in *.
  rewrite Hsz. destruct (height s) as [h0|] eqn:Eh.
  - rewrite bool_decide_eq_false_2 by discriminate.
    injection Hh as ->. reflexivity.
  - rewrite bool_decide_eq_true_2 by reflexivity.
    destruct (int_truediv oh ow) as [a|e]; [|discriminate].
    cbn [mbind result_bind] in *. rewrite Hh. reflexivity.
Qed.

Lemma run_resize_raise (s : ConversionSettings F) (p : ImageProcessor F)
    (ow oh : Z) (e : exn) :
  image_size (processed_image p) = (ow, oh) ->
  design.requested_height s ow oh = Raise e ->
  design.run_stage env s design.st_resize p = Raise e.
Proof.
  intros Hsz Hh. unfold design.run_stage, resize, design.requested_height in *.
  rewrite Hsz. destruct (height s) as [h0|] eqn:Eh; [discriminate|].
  rewrite bool_decide_eq_true_2 by reflexivity.
  destruct (int_truediv oh ow) as [a|e']; cbn [mbind result_bind] in *.
  - rewrite Hh. reflexivity.
  - injection Hh as ->. reflexivity.
Qed.

(** The pipeline on a processor whose image has size [(ow, oh)]: it
    returns when the height computation does, the working image then has
    the clamped target size, and the original image is untouched. *)
Lemma run_pipeline (s : ConversionSettings F) (p : ImageProcessor F) (ow oh h : Z) :
  image_size (processed_image p) = (ow, oh) ->
  design.requested_height s ow oh = Ok h ->
  exists p', design.run_stages env s (design.pipeline s) p = Ok p'
    /\ original_image p' = original_image p
    /\ image_processor.image_path p' = image_processor.image_path p
    /\ image_size (processed_image p') = (Z.max 1 (width s), Z.max 1 h).
Proof.
  intros Hsz Hh. rewrite pipeline_split, run_stages_app.
  destruct (run_stages_frame env s (design.before_resize s) p (resize_free_before s))
    as (p1 & Hp1 & Ho1 & Hi1 & Hs1).
  rewrite Hp1. cbn [mbind result_bind design.run_stages].
  rewrite Hsz in Hs1.
  rewrite (run_resize s p1 ow oh h Hs1 Hh). cbn [mbind result_bind].
  set (p2 := with_processed p1 _).
  destruct (run_stages_frame env s (design.after_resize s) p2 (resize_free_after s))
    as (p3 & Hp3 & Ho3 & Hi3 & Hs3).
  exists p3. split; [exact Hp3|]. repeat split.
  - rewrite Ho3. exact Ho1.
  - rewrite Hi3. exact Hi1.
  - rewrite Hs3. reflexivity.
Qed.

Lemma apply_preprocessing_resized (w : world F) (l : ref)
    (s : ConversionSettings F) (p : ImageProcessor F) (ow oh h : Z) :
  settings (this w) = Some l ->
  heap w !! l = Some s ->
  processor (this w) = Some p ->
  image_size (processed_image p) = (ow, oh) ->
  design.requested_height s ow oh = Ok h ->
  exists p', _apply_preprocessing env w = (set_processor w p', Ok tt)
    /\ original_image p' = original_image p
    /\ image_processor.image_path p' = image_processor.image_path p
    /\ image_size (processed_image p') = (Z.max 1 (width s), Z.max 1 h).
Proof.
  intros Hl Hs Hp Hsz Hh.
  destruct (run_pipeline s p ow oh h Hsz Hh) as (p' & Hrun & Hrest).
  exists p'. split; [|exact Hrest].
  pose proof (apply_preprocessing_stages env w l s p Hl Hs Hp) as Hst.
  rewrite Hrun in Hst. exact Hst.
Qed.

End resize_step.

Section pipeline_shape.
Import character_sets color_handler image_processor ascii_converter.
Context {F : Type} `{PyFloat F}.

Lemma filter_sublist {A} (f : A -> bool) (l : list A) : sublist (List.filter f l) l.
Proof.
  induction l as [|a l IH]; simpl; [constructor|].
  destruct (f a); [apply sublist_skip | apply sublist_cons]; exact IH.
Qed.

Lemma pipeline_enabled (s : ConversionSettings F) (st : design.stage) :
  st ∈ design.pipeline s <-> design.enabled s st = true.
Proof.
  unfold design.pipeline. rewrite list_elem_of_In, List.filter_In. split.
  - intros [_ Hen]. exact Hen.
  - intros Hen. split; [|exact Hen].
    destruct st; simpl; tauto.
Qed.

End pipeline_shape.

(** C8. Preprocessing runs the enabled operations in the fixed order
    denoise, contrast, brightness, auto-enhance, sharpen, resize, then edge
    detection or grayscale conversion: an operation is skipped when its
    flag is false or its factor is 1.0, the resize always runs, and in
    emoji mode neither edge detection nor grayscale conversion runs, while
    outside it exactly one of them does. *)
Theorem preprocessing_fixed_order :
  forall (F : Type) (HF : PyFloat F) (env : image_processor.PixelSource F)
         (w : ascii_converter.world F) (l : ascii_converter.ref)
         (s : ascii_converter.ConversionSettings F)
         (p : image_processor.ImageProcessor F),
    ascii_converter.settings (ascii_converter.this w) = Some l ->
    ascii_converter.heap w !! l = Some s ->
    ascii_converter.processor (ascii_converter.this w) = Some p ->
    (match design.run_stages env s (design.pipeline s) p with
     | Ok p' =>
         ascii_converter._apply_preprocessing env w
         = (ascii_converter.set_processor w p', Ok tt)
     | Raise e => snd (ascii_converter._apply_preprocessing env w) = Raise e
     end) /\
    sublist (design.pipeline s) design.fixed_order /\
    (forall st, st ∈ design.pipeline s <-> design.enabled s st = true) /\
    (design.st_resize ∈ design.pipeline s) /\
    (ascii_converter.use_emoji s = true ->
       (design.st_edge_detection ∉ design.pipeline s) /\
       (design.st_grayscale ∉ design.pipeline s)) /\
    (ascii_converter.use_emoji s = false ->
       (ascii_converter.edge_detection s = true /\
        (design.st_edge_detection ∈ design.pipeline s) /\
        (design.st_grayscale ∉ design.pipeline s)) \/
       (ascii_converter.edge_detection s = false /\
        (design.st_grayscale ∈ design.pipeline s) /\
        (design.st_edge_detection ∉ design.pipeline s))).
Proof.
  intros F HF env w l s p Hl Hs Hp.
  split; [apply (apply_preprocessing_stages env w l s p Hl Hs Hp)|].
  split; [apply filter_sublist|].
  split; [apply pipeline_enabled|].
  split; [apply pipeline_enabled; reflexivity|].
  split.
  - intros Hemo. rewrite !pipeline_enabled. simpl. rewrite Hemo.
    rewrite !andb_false_r. split; discriminate.
  - intros Hemo. rewrite !pipeline_enabled. simpl. rewrite Hemo.
    destruct (ascii_converter.edge_detection s); simpl.
    + left. repeat split; discriminate.
    + right. repeat split; discriminate.
Qed.

Lemma preprocessing_fixed_order_witness :
  let s := ascii_converter.ConversionSettings_default (F := spec_float) in
  let w := examples.ready_world (examples.png 8 8) s in
  design.pipeline s
    = [design.st_denoise; design.st_contrast; design.st_resize; design.st_grayscale]
  /\ sublist (design.pipeline s) design.fixed_order
  /\ exists p',
       ascii_converter._apply_preprocessing examples.flat_gray w
       = (ascii_converter.set_processor w p', Ok tt).
Proof.
  intros s w.
  pose proof (preprocessing_fixed_order spec_float binary64 examples.flat_gray w
                examples.the_settings s (examples.fresh_processor (examples.png 8 8))
                eq_refl eq_refl eq_refl)
    as (Hrun & Hsub & _).
  split; [reflexivity|]. split; [exact Hsub|].
  destruct (design.run_stages examples.flat_gray s (design.pipeline s)
              (examples.fresh_processor (examples.png 8 8))) as [p'|e] eqn:Er.
  - exists p'. exact Hrun.
  - exfalso. vm_compute in Er. discriminate Er.
Defined.

(** C2 as amended. With an image of size [(ow, oh)] in the processor, the
    resize step gives the working image the width [max(1, W)] and the
    height [max(1, h)], where [h] is the explicit height when one is set
    and otherwise [int(W * (oh / ow) * a)], the product truncated toward
    zero by [int], with [a = 1.0] in emoji mode and [a = 0.5] in glyph
    mode. *)
Theorem resize_step_truncated_height :
  forall (F : Type) (HF : PyFloat F) (env : image_processor.PixelSource F)
         (w : ascii_converter.world F) (l : ascii_converter.ref)
         (s : ascii_converter.ConversionSettings F)
         (p : image_processor.ImageProcessor F) (ow oh h : Z),
    ascii_converter.settings (ascii_converter.this w) = Some l ->
    ascii_converter.heap w !! l = Some s ->
    ascii_converter.processor (ascii_converter.this w) = Some p ->
    image_processor.image_size (image_processor.processed_image p) = (ow, oh) ->
    design.requested_height s ow oh = Ok h ->
    (exists p',
        ascii_converter._apply_preprocessing env w
        = (ascii_converter.set_processor w p', Ok tt) /\
        image_processor.size p'
        = (Z.max 1 (ascii_converter.width s), Z.max 1 h)) /\
    (forall h0, ascii_converter.height s = Some h0 -> h = h0) /\
    (ascii_converter.height s = None ->
       exists image_aspect,
         int_truediv oh ow = Ok image_aspect /\
         int_of_float
           (fmul (fmul (float_of_int (ascii_converter.width s)) image_aspect)
                 (if ascii_converter.use_emoji s
                  then float_lit 10 1 else float_lit 5 1))
         = Ok h).
Proof.
  intros F HF env w l s p ow oh h Hl Hs Hp Hsz Hh. split.
  - destruct (apply_preprocessing_resized env w l s p ow oh h Hl Hs Hp Hsz Hh)
      as (p' & Hrun & _ & _ & Hsize).
    exists p'. split; [exact Hrun | exact Hsize].
  - unfold design.requested_height in Hh. split.
    + intros h0 Eh. rewrite Eh in Hh. congruence.
    + intros Eh. rewrite Eh in Hh.
      destruct (int_truediv oh ow) as [a|e]; [|discriminate Hh].
      exists a. split; [reflexivity | exact Hh].
Qed.

(** The design's sample: width 100 on a 200 x 100 source in glyph mode
    gives height 25. *)
Lemma resize_step_truncated_height_witness :
  let s := ascii_converter.ConversionSettings_default (F := spec_float) in
  let w := examples.ready_world (examples.png 200 100) s in
  exists p',
    ascii_converter._apply_preprocessing examples.flat_gray w
    = (ascii_converter.set_processor w p', Ok tt) /\
    image_processor.size p' = (100, 25).
Proof.
  intros s w.
  destruct (resize_step_truncated_height spec_float binary64 examples.flat_gray w
              examples.the_settings s (examples.fresh_processor (examples.png 200 100))
              200 100 25 eq_refl eq_refl eq_refl eq_refl
              ltac:(vm_compute; reflexivity))
    as [(p' & Hrun & Hsize) _].
  exists p'. split; [exact Hrun | exact Hsize].
Defined.

(** C2 as stated fails: width 7 on a 2 x 1 source in glyph mode gives
    height 1, where rounding 1.75 half-up would give 2. *)
Lemma resize_height_not_rounded_half_up :
  let s := examples.settings_of_width (F := spec_float) 7 in
  let w := examples.ready_world (examples.png 2 1) s in
  ascii_converter.height s = None /\
  ascii_converter.use_emoji s = false /\
  Z.max 1 (design.derived_height 7 2 1 false) = 2 /\
  exists p',
    ascii_converter._apply_preprocessing examples.flat_gray w
    = (ascii_converter.set_processor w p', Ok tt) /\
    image_processor.size p' = (7, 1) /\
    snd (image_processor.size p') <> Z.max 1 (design.derived_height 7 2 1 false).
Proof.
  intros s w. split; [reflexivity|]. split; [reflexivity|]. split; [reflexivity|].
  eexists. split; [vm_compute; reflexivity|].
  split; [reflexivity | vm_compute; discriminate].
Qed.

(** [int] truncates toward zero: downward on positive values, upward on
    negative ones. *)
Lemma exact_int_truncates (x : Q) :
  int_of_float x = Ok (if Qle_bool 0 x then Qfloor x else Qceiling x).
Proof.
  cbn [int_of_float exact_float]. f_equal.
  destruct (Qle_bool 0 x) eqn:E.
  - apply Q_trunc_floor, Qle_bool_iff, E.
  - destruct x as [n d]. unfold Qle_bool in E. simpl in E.
    unfold Q_trunc, Qceiling, Qfloor. simpl.
    assert (Hn : n < 0) by lia.
    rewrite <- (Z.opp_involutive n) at 1.
    rewrite Z.quot_opp_l by lia.
    rewrite Z.quot_div_nonneg by lia. reflexivity.
Qed.

(** Where double precision and exact arithmetic part: width 98 on a
    49 x 1 source in emoji mode.  [1/49] rounds below its value, the
    product is the double below 2, and [int] gives 1; exactly it is 2. *)
Lemma binary64_resize_below_exact :
  (image_aspect ← int_truediv (F := spec_float) 1 49;
   int_of_float (fmul (fmul (float_of_int 98) image_aspect) (float_lit 10 1)))
  = Ok 1 /\
  (image_aspect ← int_truediv (F := Q) 1 49;
   int_of_float (fmul (fmul (float_of_int 98) image_aspect) (float_lit 10 1)))
  = Ok 2.
Proof. split; vm_compute; reflexivity. Qed.

(** ** The color matrix *)

Section color_matrix.
Import character_sets color_handler image_processor ascii_converter.
Context {F : Type} `{PyFloat F}.
Variable env : PixelSource F.

(** No operation of the pipeline touches the original image. *)
Lemma run_stage_original (s : ConversionSettings F) (st : design.stage)
    (p p' : ImageProcessor F) :
  design.run_stage env s st p = Ok p' -> original_image p' = original_image p.
Proof.
  destruct st; simpl;
    unfold image_processor.denoise, image_processor.edge_detection, resize;
    try destruct (HAS_OPENCV env); try (intros [= <-]; reflexivity).
  all: destruct (image_size (processed_image p)) as [ow oh].
  all: destruct (bool_decide (height s = None)).
  all: try (destruct (height s); cbn [mbind result_bind mret result_ret];
            intros [= <-]; reflexivity).
  all: destruct (int_truediv oh ow) as [a|e]; cbn [mbind result_bind]; [|discriminate].
  all: destruct (int_of_float _) as [h|e]; cbn [mbind result_bind mret result_ret];
    [|discriminate].
  all: intros [= <-]; reflexivity.
Qed.

Lemma run_stages_original (s : ConversionSettings F) (sts : list design.stage)
    (p p' : ImageProcessor F) :
  design.run_stages env s sts p = Ok p' -> original_image p' = original_image p.
Proof.
  revert p. induction sts as [|st sts IH]; intros p; simpl.
  - intros [= <-]. reflexivity.
  - destruct (design.run_stage env s st p) as [p1|e] eqn:E1;
      cbn [mbind result_bind]; [|discriminate].
    intros Hrest. rewrite (IH p1 Hrest). apply (run_stage_original s st p p1 E1).
Qed.

Lemma range_lookup (n y : Z) : 0 <= y < n -> range n !! Z.to_nat y = Some y.
Proof.
  intros Hy. unfold range. rewrite list_lookup_fmap.
  rewrite lookup_seq_lt by lia. simpl. f_equal. lia.
Qed.

Lemma shape_np_array {A} (px : image F -> Z -> Z -> A) (i : image F) :
  shape (np_array px i)
  = (Z.of_nat (Z.to_nat (snd (image_size i))),
     if 0 <? snd (image_size i) then Z.of_nat (Z.to_nat (fst (image_size i))) else 0).
Proof.
  unfold shape, np_array. destruct (image_size i) as [wd ht]. cbn [fst snd].
  rewrite length_map, length_range. f_equal.
  destruct (0 <? ht) eqn:E.
  - unfold range at 2. destruct (Z.to_nat ht) as [|k] eqn:Ek; [lia|].
    simpl. rewrite length_map, length_range. reflexivity.
  - unfold range at 2. replace (Z.to_nat ht) with 0%nat by lia. reflexivity.
Qed.

(** The color matrix has the shape of the intensity matrix. *)
Lemma color_matrix_shape (p : ImageProcessor F) :
  shape (get_color_matrix env p) = shape (get_pixel_matrix env p).
Proof.
  unfold get_color_matrix, get_pixel_matrix.
  destruct (negb (is_mode_L (image_mode (processed_image p))));
    rewrite !shape_np_array; reflexivity.
Qed.

Lemma uint8_value_range (v : uint8) : 0 <= uint8_value v <= 255.
Proof.
  unfold uint8_value. pose proof (Byte.to_N_bounded v). lia.
Qed.

End color_matrix.

(** C9. The color matrix is produced exactly when a color mode is set or
    the color-driven-emoji flag is; it is the original image, as decoded
    and untouched by the preprocessing, resampled to the size of the
    working image, so that it has the shape of the intensity matrix, and
    its channel values lie in [[0,255]]. *)
Theorem color_matrix_resampled_from_original :
  forall (F : Type) (HF : PyFloat F) (env : image_processor.PixelSource F)
         (w w' : ascii_converter.world F) (l : ascii_converter.ref)
         (s : ascii_converter.ConversionSettings F)
         (p : image_processor.ImageProcessor F),
    ascii_converter.settings (ascii_converter.this w) = Some l ->
    ascii_converter.heap w !! l = Some s ->
    image_processor.ImageProcessor_init
      (ascii_converter.image_path (ascii_converter.this w)) = Ok p ->
    ascii_converter.processor (ascii_converter.this w) = Some p ->
    ascii_converter._apply_preprocessing env w = (w', Ok tt) ->
    exists p',
      ascii_converter.processor (ascii_converter.this w') = Some p' /\
      image_processor.original_image p'
      = image_processor.PIL_convert image_processor.mode_RGB
          (image_processor.PIL_open
             (ascii_converter.image_path (ascii_converter.this w))) /\
      (is_Some (ascii_converter.color_matrix_for env s p') <->
       ascii_converter.color_mode s <> color_handler.NONE
       \/ ascii_converter.color_emoji s = true) /\
      forall cm,
        ascii_converter.color_matrix_for env s p' = Some cm ->
        cm = image_processor.np_array (image_processor.color_at env)
               (image_processor.PIL_resize_LANCZOS
                  (image_processor.image_size (image_processor.processed_image p'))
                  (image_processor.PIL_convert image_processor.mode_RGB
                     (image_processor.original_image p'))) /\
        image_processor.shape cm
        = image_processor.shape (image_processor.get_pixel_matrix env p') /\
        forall y x r g b,
          image_processor.at_yx cm y x = Ok (r, g, b) ->
          0 <= image_processor.uint8_value r <= 255 /\
          0 <= image_processor.uint8_value g <= 255 /\
          0 <= image_processor.uint8_value b <= 255.
Proof.
  intros F HF env w w' l s p Hl Hs Hinit Hp Hrun.
  pose proof (apply_preprocessing_stages env w l s p Hl Hs Hp) as Hst.
  destruct (design.run_stages env s (design.pipeline s) p) as [p'|e] eqn:Er.
  2:{ rewrite Hrun in Hst. discriminate Hst. }
  rewrite Hrun in Hst. injection Hst as ->.
  exists p'. split; [reflexivity|]. split.
  { rewrite (run_stages_original env s _ p p' Er).
    unfold image_processor.ImageProcessor_init in Hinit.
    destruct (image_processor._validate_image _); [|discriminate Hinit].
    cbn [mbind result_bind mret result_ret] in Hinit.
    injection Hinit as <-. reflexivity. }
  unfold ascii_converter.color_matrix_for. split.
  { destruct (ascii_converter.color_mode s), (ascii_converter.color_emoji s); simpl;
      split; intros Hx;
      try (eexists; reflexivity);
      try (destruct Hx as [? Hx]; discriminate Hx);
      try (left; discriminate); try (right; reflexivity);
      destruct Hx as [Hx|Hx]; congruence. }
  intros cm Hcm.
  destruct (negb _ || _); [|discriminate Hcm].
  injection Hcm as <-. split; [reflexivity|].
  split; [apply color_matrix_shape|].
  intros y x r g b _. repeat split; apply uint8_value_range.
Qed.

Lemma color_matrix_resampled_from_original_witness :
  let s := ascii_converter.setattr
             (examples.settings_of_width (F := spec_float) 4)
             (ascii_converter.kw_color_mode (ascii_converter.member color_handler.ANSI)) in
  let w := examples.ready_world (examples.png 8 8) s in
  let w' := fst (ascii_converter._apply_preprocessing examples.flat_gray w) in
  exists p' cm,
    ascii_converter.processor (ascii_converter.this w') = Some p' /\
    ascii_converter.color_matrix_for examples.flat_gray s p' = Some cm /\
    image_processor.shape cm
    = image_processor.shape (image_processor.get_pixel_matrix examples.flat_gray p').
Proof.
  intros s w w'.
  assert (Ew : ascii_converter._apply_preprocessing examples.flat_gray w = (w', Ok tt))
    by (vm_compute; reflexivity).
  assert (H1 : ascii_converter.settings (ascii_converter.this w)
               = Some examples.the_settings) by reflexivity.
  assert (H2 : ascii_converter.heap w !! examples.the_settings = Some s) by reflexivity.
  assert (H3 : image_processor.ImageProcessor_init (F := spec_float)
                 (ascii_converter.image_path (ascii_converter.this w))
               = Ok (examples.fresh_processor (examples.png 8 8))) by reflexivity.
  assert (H4 : ascii_converter.processor (ascii_converter.this w)
               = Some (examples.fresh_processor (examples.png 8 8))) by reflexivity.
  assert (Hne : ascii_converter.color_mode s <> color_handler.NONE) by discriminate.
  destruct (color_matrix_resampled_from_original spec_float binary64
              examples.flat_gray w w' examples.the_settings s
              (examples.fresh_processor (examples.png 8 8)) H1 H2 H3 H4 Ew)
    as (p' & Hp' & _ & Hsome & Hcm).
  destruct (proj2 Hsome (or_introl Hne)) as [cm Ecm].
  exists p', cm. split; [exact Hp'|]. split; [exact Ecm|].
  destruct (Hcm cm Ecm) as (_ & Hshape & _). exact Hshape.
Defined.

(** ** The settings the caller holds *)

Section heap_frame.
Import character_sets color_handler image_processor ascii_converter.
Context {F : Type} `{PyFloat F}.
Variable env : PixelSource F.

Lemma heap_preserving_bind {A B} (m : stmt (F := F) A) (k : A -> stmt (F := F) B) :
  heap_preserving m -> (forall a, heap_preserving (k a)) ->
  heap_preserving (bind m k).
Proof.
  intros Hm Hk w. unfold bind. specialize (Hm w).
  destruct (m w) as [w1 [a|e]]; simpl in *; [|exact Hm].
  rewrite (Hk a w1). exact Hm.
Qed.

Lemma heap_preserving_ret {A} (a : A) : heap_preserving (ret (F := F) a).
Proof. intros w. reflexivity. Qed.

Lemma heap_preserving_lift {A} (r : result A) : heap_preserving (lift (F := F) r).
Proof. intros w. reflexivity. Qed.

Lemma heap_preserving_when (c : bool) (m : stmt (F := F) unit) :
  heap_preserving m -> heap_preserving (when c m).
Proof. intros Hm. destruct c; [exact Hm | apply heap_preserving_ret]. Qed.

Lemma heap_preserving_read_settings : heap_preserving (read_settings (F := F)).
Proof.
  intros w. unfold read_settings.
  destruct (settings (this w)) as [l|]; [|reflexivity].
  destruct (heap w !! l); reflexivity.
Qed.

Lemma heap_preserving_read_processor : heap_preserving (read_processor (F := F)).
Proof. intros w. unfold read_processor. destruct (processor (this w)); reflexivity. Qed.

Lemma heap_preserving_call_processor
    (method : ImageProcessor F -> result (ImageProcessor F)) :
  heap_preserving (call_processor method).
Proof.
  intros w. unfold call_processor.
  destruct (processor (this w)) as [p|]; [|reflexivity].
  destruct (method p); reflexivity.
Qed.

Lemma heap_preserving_apply_preprocessing : heap_preserving (_apply_preprocessing env).
Proof.
  unfold _apply_preprocessing.
  apply heap_preserving_bind; [apply heap_preserving_read_settings|]. intros s.
  repeat (apply heap_preserving_bind;
          [first [apply heap_preserving_when, heap_preserving_call_processor
                 | apply heap_preserving_call_processor] | intros _]).
  destruct (edge_detection s && negb (use_emoji s));
    [apply heap_preserving_call_processor|].
  destruct (negb (use_emoji s));
    [apply heap_preserving_call_processor | apply heap_preserving_ret].
Qed.

Lemma heap_preserving_generate_ascii : heap_preserving (_generate_ascii env).
Proof.
  unfold _generate_ascii.
  apply heap_preserving_bind; [apply heap_preserving_read_settings|]. intros s.
  apply heap_preserving_bind; [apply heap_preserving_read_processor|]. intros p.
  destruct (shape (get_pixel_matrix env p)). apply heap_preserving_lift.
Qed.

(** What [convert] does after the overrides writes no settings object. *)
Lemma heap_preserving_convert_tail (l : ref) :
  heap_preserving
    (bind (assign_settings l) (fun _ =>
     bind (fun w => (w, Ok (ascii_converter.image_path (this w)))) (fun path =>
     bind (lift (ImageProcessor_init path)) (fun p =>
     bind (assign_processor p) (fun _ =>
     bind (_apply_preprocessing env) (fun _ =>
     bind (_generate_ascii env) (fun ascii_lines =>
     bind read_settings (fun settings =>
     bind read_processor (fun p =>
       ret {| ASCIIArt.art :=
                wrap_output {| mode := color_mode settings |}
                  (String.concat newline ascii_lines) (use_emoji settings);
              ASCIIArt.width := fst (size p);
              ASCIIArt.height := snd (size p);
              ASCIIArt.colored := negb (ColorMode_eqb (color_mode settings) NONE);
              ASCIIArt.is_emoji := use_emoji settings;
              ASCIIArt.settings := l |}))))))))).
Proof.
  apply heap_preserving_bind; [intros w; reflexivity|]. intros _.
  apply heap_preserving_bind; [intros w; reflexivity|]. intros path.
  apply heap_preserving_bind; [apply heap_preserving_lift|]. intros p.
  apply heap_preserving_bind; [intros w; reflexivity|]. intros _.
  apply heap_preserving_bind; [apply heap_preserving_apply_preprocessing|]. intros _.
  apply heap_preserving_bind; [apply heap_preserving_generate_ascii|]. intros lines.
  apply heap_preserving_bind; [apply heap_preserving_read_settings|]. intros s.
  apply heap_preserving_bind; [apply heap_preserving_read_processor|]. intros p'.
  apply heap_preserving_ret.
Qed.


(** [setattr] writes the one field its key names. *)
Lemma setattr_other_fields (s : ConversionSettings F) (kw : kwarg F) :
  ((forall v, kw <> kw_width v) -> width (setattr s kw) = width s) /\
  ((forall v, kw <> kw_height v) -> height (setattr s kw) = height s) /\
  ((forall v, kw <> kw_charset (member v)) -> charset (setattr s kw) = charset s) /\
  ((forall v, kw <> kw_color_mode (member v)) ->
     color_mode (setattr s kw) = color_mode s) /\
  ((forall v, kw <> kw_invert v) -> invert (setattr s kw) = invert s) /\
  ((forall v, kw <> kw_contrast v) -> contrast (setattr s kw) = contrast s) /\
  ((forall v, kw <> kw_brightness v) ->
     ascii_converter.brightness (setattr s kw) = ascii_converter.brightness s) /\
  ((forall v, kw <> kw_edge_detection v) ->
     edge_detection (setattr s kw) = edge_detection s) /\
  ((forall v, kw <> kw_denoise v) -> denoise (setattr s kw) = denoise s) /\
  ((forall v, kw <> kw_use_emoji v) ->
     ascii_converter.use_emoji (setattr s kw) = ascii_converter.use_emoji s) /\
  ((forall v, kw <> kw_emoji_set (member v)) -> emoji_set (setattr s kw) = emoji_set s) /\
  ((forall v, kw <> kw_color_emoji v) -> color_emoji (setattr s kw) = color_emoji s) /\
  ((forall v, kw <> kw_dithering v) -> dithering (setattr s kw) = dithering s) /\
  ((forall v, kw <> kw_sharpen v) -> sharpen (setattr s kw) = sharpen s) /\
  ((forall v, kw <> kw_auto_enhance v) -> auto_enhance (setattr s kw) = auto_enhance s).
Proof.
  destruct s; destruct kw as [| | [|] | [|] | | | | | | | [|] | | | | |];
    cbn; repeat split; intros Hne; try reflexivity;
    exfalso; eapply Hne; reflexivity.
Qed.

End heap_frame.





(** ** The conversion returns *)

Section totality.
Import character_sets color_handler image_processor ascii_converter pixel_domain.

Lemma for_each_ok {A B} (f : A -> result B) (xs : list A) :
  (forall x, x ∈ xs -> exists y, f x = Ok y) ->
  exists ys, for_each f xs = Ok ys /\ length ys = length xs.
Proof.
  induction xs as [|x xs IH]; intros Hf.
  - exists []. split; reflexivity.
  - destruct (Hf x) as [y Hy]; [left|].
    destruct IH as (ys & Hys & Hlen); [intros x' Hx'; apply Hf; right; exact Hx'|].
    exists (y :: ys). simpl. rewrite Hy. cbn [mbind result_bind]. rewrite Hys.
    split; [reflexivity | simpl; congruence].
Qed.

Lemma py_getitem_lookup {A} (l : list A) (i : Z) (a : A) :
  0 <= i -> l !! Z.to_nat i = Some a -> py_getitem l i = Ok a.
Proof.
  intros Hi Hl. destruct (py_getitem_in_range l i) as (a' & Ha' & Hget).
  - apply lookup_lt_Some in Hl. lia.
  - congruence.
Qed.

Lemma at_yx_np_array {F A} (px : image F -> Z -> Z -> A) (i : image F)
    (wd ht y x : Z) :
  image_size i = (wd, ht) -> 0 <= y < ht -> 0 <= x < wd ->
  at_yx (np_array px i) y x = Ok (px i y x).
Proof.
  intros Hsz Hy Hx. unfold at_yx, np_array. rewrite Hsz.
  rewrite (py_getitem_lookup _ y (map (fun x => px i y x) (range wd))); [|lia|].
  - cbn [mbind result_bind]. apply py_getitem_lookup; [lia|].
    rewrite list_lookup_fmap, (range_lookup wd x Hx). reflexivity.
  - rewrite list_lookup_fmap, (range_lookup ht y Hy). reflexivity.
Qed.

(** The mapper [_generate_ascii] builds is one of the repository's. *)
Lemma generated_mapper_in_source (c : CharacterSet) (e : EmojiSet) (u : bool) :
  CharacterMapper_init c (if u then Some e else None) u ∈ source_mappers.
Proof.
  apply list_elem_of_In. unfold source_mappers.
  destruct u; [destruct e | destruct c]; try destruct c; cbn; tauto.
Qed.

(** Exact arithmetic is total on the pixel domain. *)
Lemma pixel_total_exact : pixel_total Q.
Proof.
  intros m Hm.
  pose proof (source_mappers_wf m Hm) as Hwf.
  pose proof (source_mappers_nonempty m Hm) as Hn.
  split; [|split].
  - intros v.
    destruct (get_character_design_index_aux m (float_of_int (uint8_value v)) Hwf Hn)
      as (ch & _ & Hch).
    exists ch. exact Hch.
  - intros v.
    destruct (get_character_design_index_aux m
                (fsub (float_of_int 255) (float_of_int (uint8_value v))) Hwf Hn)
      as (ch & _ & Hch).
    exists ch. exact Hch.
  - intros r g b.
    destruct (exact_mean (uint8_value r + uint8_value g + uint8_value b))
      as (x & Hx & H30 & H225).
    destruct (dominant_color_decision _ _ _ x Hx H30 H225) as (k & Hk & _).
    exists (color_emojis k). unfold get_colored_emoji. rewrite Hk. reflexivity.
Qed.

(** So is double precision. *)
Lemma pixel_total_binary64 : pixel_total spec_float.
Proof.
  intros m Hm.
  pose proof (source_mappers_wf m Hm) as Hwf.
  pose proof (source_mappers_nonempty m Hm) as Hn.
  split; [|split].
  - intros v. pose proof (uint8_value_range v) as Hv.
    unfold get_character.
    rewrite (binary64_index_on_pixels m (uint8_value v) Hm Hv).
    cbn [mbind result_bind].
    destruct (py_getitem_in_range (characters m)
                (design.index (num_chars m) (inject_Z (uint8_value v))))
      as (ch & _ & Hch).
    { pose proof (design_index_range (num_chars m) (inject_Z (uint8_value v)) Hn).
      rewrite <- Hwf. lia. }
    exists ch. exact Hch.
  - intros v. pose proof (uint8_value_range v) as Hv.
    unfold get_inverted_character, get_character.
    rewrite (binary64_inverted_index_on_pixels m (uint8_value v) Hm Hv).
    cbn [mbind result_bind].
    destruct (py_getitem_in_range (characters m)
                (design.index (num_chars m) (255 - inject_Z (uint8_value v))))
      as (ch & _ & Hch).
    { pose proof (design_index_range (num_chars m) (255 - inject_Z (uint8_value v)) Hn).
      rewrite <- Hwf. lia. }
    exists ch. exact Hch.
  - intros r g b.
    pose proof (uint8_value_range r). pose proof (uint8_value_range g).
    pose proof (uint8_value_range b).
    destruct (binary64_mean (uint8_value r + uint8_value g + uint8_value b))
      as (x & Hx & H30 & H225); [lia|].
    destruct (dominant_color_decision _ _ _ x Hx H30 H225) as (k & Hk & _).
    exists (color_emojis k). unfold get_colored_emoji. rewrite Hk. reflexivity.
Qed.

Section cells.
Context {F : Type} `{PyFloat F}.
Variable env : PixelSource F.
Hypothesis Htotal : pixel_total F.

Lemma format_cell_ok (s : ConversionSettings F)
    (cmo : option (ndarray (uint8 * uint8 * uint8)))
    (handler : ColorHandler) (y x : Z) (char : string) :
  (forall cm, cmo = Some cm -> exists c, at_yx cm y x = Ok c) ->
  exists str,
    match cmo, negb (ColorMode_eqb (color_mode s) NONE) with
    | Some cm, true =>
        '(r, g, b) ← at_yx cm y x;
        let color := {| r := uint8_value r; g := uint8_value g; b := uint8_value b |} in
        if ascii_converter.use_emoji s
        then mret (format_emoji handler char (Some color))
        else mret (format_character handler char (Some color))
    | _, _ => mret char
    end = Ok str.
Proof.
  intros Hcm.
  destruct cmo as [cm|]; [|eexists; reflexivity].
  destruct (negb (ColorMode_eqb (color_mode s) NONE)); [|eexists; reflexivity].
  destruct (Hcm cm eq_refl) as [[[r g] b] Hc]. rewrite Hc.
  cbn [mbind result_bind].
  destruct (ascii_converter.use_emoji s); eexists; reflexivity.
Qed.

Lemma generate_cell_ok (s : ConversionSettings F) (gm : ndarray uint8)
    (cmo : option (ndarray (uint8 * uint8 * uint8)))
    (mapper : CharacterMapper) (handler : ColorHandler) (y x : Z) :
  (exists v, at_yx gm y x = Ok v) ->
  (forall cm, cmo = Some cm -> exists c, at_yx cm y x = Ok c) ->
  mapper ∈ source_mappers ->
  exists str, generate_cell s gm cmo mapper handler y x = Ok str.
Proof.
  intros [v Hv] Hcm Hm. unfold generate_cell. rewrite Hv.
  cbn [mbind result_bind].
  destruct (Htotal mapper Hm) as (Hstd & Hinv & Hemo).
  destruct (Hinv v) as [ch1 Hch1]. destruct (Hstd v) as [ch2 Hch2].
  destruct (ascii_converter.use_emoji s && color_emoji s).
  - destruct cmo as [cm|].
    + destruct (Hcm cm eq_refl) as [[[r g] b] Hc]. rewrite Hc.
      cbn [mbind result_bind].
      destruct (Hemo r g b) as [ch Hch].
      rewrite Hch. cbn [mbind result_bind].
      destruct (negb (ColorMode_eqb (color_mode s) NONE)); [|eexists; reflexivity].
      cbn [mbind result_bind].
      destruct (ascii_converter.use_emoji s); eexists; reflexivity.
    + destruct (invert s).
      * rewrite Hch1. eexists; reflexivity.
      * rewrite Hch2. eexists; reflexivity.
  - destruct (invert s).
    + rewrite Hch1. cbn [mbind result_bind].
      apply (format_cell_ok s cmo handler y x ch1 Hcm).
    + rewrite Hch2. cbn [mbind result_bind].
      apply (format_cell_ok s cmo handler y x ch2 Hcm).
Qed.

(** [_generate_ascii] returns one line per row of the working image. *)
Lemma generate_ascii_ok (w : world F) (l : ref) (s : ConversionSettings F)
    (p : ImageProcessor F) (wd ht : Z) :
  settings (this w) = Some l ->
  heap w !! l = Some s ->
  processor (this w) = Some p ->
  image_size (processed_image p) = (wd, ht) ->
  1 <= wd -> 1 <= ht ->
  exists lines, _generate_ascii env w = (w, Ok lines)
                /\ Z.of_nat (length lines) = ht.
Proof.
  intros Hl Hs Hp Hsz Hwd Hht.
  unfold _generate_ascii, bind, read_settings, read_processor.
  rewrite Hl, Hs, Hp.
  set (gm := get_pixel_matrix env p).
  assert (Hgm : forall y x, 0 <= y < ht -> 0 <= x < wd ->
                exists v, at_yx gm y x = Ok v).
  { intros y x Hy Hx. unfold gm, get_pixel_matrix.
    destruct (negb (is_mode_L (image_mode (processed_image p))));
      eexists; apply (at_yx_np_array _ _ wd ht); try assumption; exact Hsz. }
  assert (Hshape : shape gm = (ht, wd)).
  { unfold gm, get_pixel_matrix.
    destruct (negb (is_mode_L (image_mode (processed_image p))));
      rewrite shape_np_array; cbn [image_size]; rewrite Hsz; cbn [fst snd];
      (replace (0 <? ht) with true by (symmetry; apply Z.ltb_lt; lia));
      f_equal; lia. }
  rewrite Hshape.
  assert (Hcm : forall y x, 0 <= y < ht -> 0 <= x < wd ->
                forall cm, color_matrix_for env s p = Some cm ->
                exists c, at_yx cm y x = Ok c).
  { intros y x Hy Hx cm Hsome. unfold color_matrix_for in Hsome.
    destruct (negb _ || _); [|discriminate Hsome]. injection Hsome as <-.
    unfold get_color_matrix. eexists.
    apply (at_yx_np_array _ _ wd ht); try assumption; exact Hsz. }
  pose proof (generated_mapper_in_source (charset s) (emoji_set s)
                (ascii_converter.use_emoji s)) as Hm.
  unfold lift.
  match goal with
  | |- exists lines, (w, for_each ?f (range ht)) = _ /\ _ =>
      destruct (for_each_ok f (range ht)) as (lines & Hlines & Hlen)
  end.
  { intros y Hy. apply range_inv in Hy.
    match goal with
    | |- exists y0, (?m ≫= _) = Ok y0 =>
        assert (Hrow : exists cs, m = Ok cs)
    end.
    { match goal with
      | |- exists cs, for_each ?g (range wd) = Ok cs =>
          destruct (for_each_ok g (range wd)) as (cs & Hcs & _)
      end.
      - intros x Hx. apply range_inv in Hx.
        apply generate_cell_ok; [apply Hgm | apply Hcm | exact Hm]; assumption.
      - exists cs. exact Hcs. }
    destruct Hrow as [cs Hcs]. rewrite Hcs. cbn [mbind result_bind mret result_ret].
    eexists. reflexivity. }
  exists lines. split; [rewrite Hlines; reflexivity|].
  rewrite Hlen, length_range. lia.
Qed.

End cells.
End totality.

Section convert_total.
Import character_sets color_handler image_processor ascii_converter pixel_domain.

Lemma bind_ok {F A B} (m : stmt (F := F) A) (k : A -> stmt (F := F) B)
    (w w' : world F) (a : A) :
  m w = (w', Ok a) -> bind m k w = k a w'.
Proof. intros Hm. unfold bind. rewrite Hm. reflexivity. Qed.


(** With an explicit height there is nothing to compute. *)
Lemma requested_height_explicit {F} `{PyFloat F} (s : ConversionSettings F)
    (ow oh h : Z) :
  height s = Some h -> design.requested_height s ow oh = Ok h.
Proof. intros Hh. unfold design.requested_height. rewrite Hh. reflexivity. Qed.

Section any_arithmetic.
Context {F : Type} `{PyFloat F}.
Variable env : PixelSource F.
Hypothesis Htotal : pixel_total F.

(** [convert(settings)] returns for a supported image file once the
    height computation of the resize does; the artifact has the clamped
    size, and refers to the caller's settings. *)
Lemma convert_ok (w : world F) (l : ref) (s : ConversionSettings F)
    (ow oh h : Z) :
  heap w !! l = Some s ->
  _validate_image (ascii_converter.image_path (this w)) = Ok tt ->
  file_size (ascii_converter.image_path (this w)) = (ow, oh) ->
  design.requested_height s ow oh = Ok h ->
  exists w' a,
    convert env (Some l) [] w = (w', Ok a)
    /\ ASCIIArt.width a = Z.max 1 (width s)
    /\ ASCIIArt.height a = Z.max 1 h
    /\ ASCIIArt.settings a = l
    /\ ASCIIArt.colored a = negb (ColorMode_eqb (color_mode s) NONE)
    /\ ASCIIArt.is_emoji a = ascii_converter.use_emoji s.
Proof.
  intros Hs Hvalid Hsize Hh.
  set (path := ascii_converter.image_path (this w)) in *.
  set (p0 := examples.fresh_processor (F := F) path).
  assert (Hinit : ImageProcessor_init (F := F) path = Ok p0).
  { unfold ImageProcessor_init. rewrite Hvalid. reflexivity. }
  set (w1 := {| heap := alter (fun s0 => fold_left setattr [] s0) l (heap w);
                this := {| ascii_converter.image_path := path;
                           processor := Some p0;
                           settings := Some l |} |}).
  assert (Hs1 : heap w1 !! l = Some s).
  { unfold w1. cbn [heap]. rewrite lookup_alter_eq, Hs. reflexivity. }
  destruct (apply_preprocessing_resized env w1 l s p0 ow oh h
              eq_refl Hs1 eq_refl Hsize Hh)
    as (p' & Hpre & _ & _ & Hsz').
  set (w2 := set_processor w1 p') in *.
  destruct (generate_ascii_ok env Htotal w2 l s p' (Z.max 1 (width s)) (Z.max 1 h)
              eq_refl Hs1 eq_refl Hsz' ltac:(lia) ltac:(lia))
    as (lines & Hgen & _).
  eexists w2, _. split.
  - unfold convert.
    rewrite (bind_ok _ _ w w l) by reflexivity.
    rewrite (bind_ok _ _ w w []) by reflexivity.
    rewrite (bind_ok _ _ w _ tt) by reflexivity.
    rewrite (bind_ok _ _ _ _ tt) by reflexivity.
    rewrite (bind_ok _ _ _ _ path) by reflexivity.
    rewrite (bind_ok _ _ _ _ p0) by (unfold lift; rewrite Hinit; reflexivity).
    rewrite (bind_ok _ _ _ w1 tt) by reflexivity.
    rewrite (bind_ok _ _ w1 w2 tt) by exact Hpre.
    rewrite (bind_ok _ _ w2 w2 lines) by exact Hgen.
    rewrite (bind_ok _ _ w2 w2 s).
    2:{ unfold read_settings. change (settings (this w2)) with (Some l).
        cbv iota. change (heap w2) with (heap w1). rewrite Hs1. reflexivity. }
    rewrite (bind_ok _ _ w2 w2 p') by reflexivity.
    reflexivity.
  - cbn [ASCIIArt.width ASCIIArt.height ASCIIArt.settings ASCIIArt.colored
         ASCIIArt.is_emoji].
    unfold size. rewrite Hsz'. cbn [fst snd].
    repeat split; reflexivity.
Qed.

End any_arithmetic.

(** In double precision, with an explicit height, [convert] returns for
    every supported image file, whatever the pixels. *)
Lemma convert_binary64_explicit_height (env : PixelSource spec_float)
    (w : world spec_float) (l : ref) (s : ConversionSettings spec_float) (h : Z) :
  heap w !! l = Some s ->
  _validate_image (ascii_converter.image_path (this w)) = Ok tt ->
  height s = Some h ->
  exists w' a,
    convert env (Some l) [] w = (w', Ok a)
    /\ ASCIIArt.width a = Z.max 1 (width s)
    /\ ASCIIArt.height a = Z.max 1 h.
Proof.
  intros Hs Hvalid Hh.
  destruct (file_size (ascii_converter.image_path (this w))) as [ow oh] eqn:Hsize.
  destruct (convert_ok env pixel_total_binary64 w l s ow oh h Hs Hvalid Hsize
              (requested_height_explicit s ow oh h Hh))
    as (w' & a & Hrun & Hwd & Hht & _).
  exists w', a. split; [exact Hrun|]. split; [exact Hwd | exact Hht].
Qed.

End convert_total.

(** ** Non-positive widths *)




(** ** Double precision against exact arithmetic *)

(** [int] of a finite double is its value truncated toward zero. *)
Lemma binary64_int_truncates (s : bool) (m : positive) (e : Z) :
  int_of_float (S754_finite s m e) = Ok (Q_trunc (B64.value (S754_finite s m e))).
Proof.
  cbn [int_of_float binary64 B64.trunc B64.value]. f_equal.
  destruct e as [|p|p].
  - rewrite Z.shiftl_mul_pow2 by lia.
    destruct s; unfold Q_trunc; cbn [Qnum Qden Qopp inject_Z];
      rewrite Z.quot_1_r; reflexivity.
  - rewrite Z.shiftl_mul_pow2 by lia.
    destruct s; unfold Q_trunc; cbn [Qnum Qden Qopp inject_Z];
      rewrite Z.quot_1_r; reflexivity.
  - rewrite Z.shiftr_div_pow2 by lia.
    assert (Hpow : Zpos (2 ^ p) = 2 ^ Zpos p) by (rewrite Pos2Z.inj_pow; reflexivity).
    destruct s; unfold Q_trunc; cbn [Qnum Qden Qopp].
    + change (- Zpos m) with (- (Zpos m)). rewrite Z.quot_opp_l by lia.
      rewrite Z.quot_div_nonneg by lia. rewrite Hpow. reflexivity.
    + rewrite Z.quot_div_nonneg by lia. rewrite Hpow. reflexivity.
Qed.

(** For an integer intensity the value [get_character] truncates stays
    at least [1/510] away from every integer: the [2 v (n-1) + 255] that
    would have to be a multiple of 510 is odd.  A rounding error below
    [1/510] cannot change the index. *)
Lemma index_margin (n v k : Z) :
  (inject_Z v / 255 * inject_Z (n - 1) + (1 # 2) == inject_Z (2 * v * (n - 1) + 255) / 510)%Q
  /\ 2 * v * (n - 1) + 255 <> 510 * k.
Proof.
  split; [|lia].
  unfold Qeq, Qdiv, Qmult, Qplus, Qinv, inject_Z. simpl. lia.
Qed.

(** Off the pixel domain the two arithmetics can part: for the double
    just below 127.5 and a table of two glyphs, [x / 255.0 + 0.5] rounds
    up to 1.0 and the code selects index 1, where the exact value rounds
    half-up to 0. *)
Lemma binary64_index_below_half :
  let m := {| character_sets.use_emoji := false;
              character_sets.characters := ["#"; "."];
              character_sets.is_emoji := false;
              character_sets.num_chars := 2 |} in
  let x := S754_finite false 8972014882652159 (-46) in
  (B64.value x < 255 # 2)%Q /\
  character_sets.get_index (F := spec_float) m x = Ok 1 /\
  character_sets.get_index (F := Q) m (B64.value x) = Ok 0.
Proof. repeat split. Qed.

Section fresh_settings.
Import character_sets color_handler image_processor ascii_converter.
Context {F : Type} `{PyFloat F}.
Variable env : PixelSource F.

(** [convert] called without a settings object builds a new record
    and writes no record the program already holds. *)
Lemma convert_new_settings (w : world F) (kwargs : list (kwarg F)) (l : ref) :
  is_Some (heap w !! l) ->
  heap (fst (convert env None kwargs w)) !! l = heap w !! l.
Proof.
  intros Hl.
  assert (Hne : fresh (dom (heap w)) <> l).
  { intros <-. apply elem_of_dom in Hl. exact (is_fresh (dom (heap w)) Hl). }
  unfold convert. unfold bind at 1. cbn [settings_or_new].
  unfold bind at 1. unfold lift at 1.
  destruct (for_each resolve_name kwargs) as [resolved|e].
  - unfold bind at 1. cbn [override].
    rewrite (heap_preserving_convert_tail env (fresh (dom (heap w)))).
    cbn [heap fst]. rewrite lookup_alter_ne by exact Hne.
    apply lookup_insert_ne. exact Hne.
  - cbn [heap fst]. apply lookup_insert_ne. exact Hne.
Qed.

End fresh_settings.

(** * Further properties of the code *)

(** ** Names of tables and of color modes *)

Section name_lookup.
Import character_sets color_handler.

Lemma not_elem_of_cons_inv {A} (x y : A) (l : list A) :
  x ∉ y :: l -> x <> y /\ x ∉ l.
Proof. intros Hn. split; intros Hx; apply Hn; [subst; left | right; exact Hx]. Qed.

End name_lookup.

(** X1. [get_charset_by_name] against [list_available_charsets]: the i-th
    listed name, in any letter case, selects the i-th character set, so
    every set can be selected by a listed name; every other ASCII name
    selects DETAILED. *)
Theorem charset_names_resolve :
  forall name : string, is_ascii name = true ->
    (forall (i : nat) (n : string),
        names.list_available_charsets !! i = Some n -> lower name = n ->
        [character_sets.STANDARD; character_sets.DETAILED; character_sets.SIMPLE;
         character_sets.BLOCKS; character_sets.NUMBERS; character_sets.LETTERS] !! i
        = Some (character_sets.get_charset_by_name name))
    /\ (lower name ∉ names.list_available_charsets ->
        character_sets.get_charset_by_name name = character_sets.DETAILED).
Proof.
  intros name _. split.
  - intros i n Hi Hn. unfold character_sets.get_charset_by_name. cbv zeta.
    rewrite Hn.
    do 6 (destruct i as [|i]; [injection Hi as <-; reflexivity|]).
    discriminate Hi.
  - intros Hnot. unfold character_sets.get_charset_by_name. cbv zeta.
    unfold names.list_available_charsets in Hnot.
    repeat (apply not_elem_of_cons_inv in Hnot as [Hne Hnot];
            apply String.eqb_neq in Hne; rewrite Hne; clear Hne).
    reflexivity.
Qed.

Lemma charset_names_resolve_witness :
  [character_sets.STANDARD; character_sets.DETAILED; character_sets.SIMPLE;
   character_sets.BLOCKS; character_sets.NUMBERS; character_sets.LETTERS] !! 3%nat
  = Some (character_sets.get_charset_by_name "Blocks")
  /\ character_sets.get_charset_by_name "gothic" = character_sets.DETAILED.
Proof.
  assert (Ha : is_ascii "Blocks" = true) by reflexivity.
  assert (Hb : is_ascii "gothic" = true) by reflexivity.
  split.
  - apply (proj1 (charset_names_resolve "Blocks" Ha) 3%nat "blocks"); reflexivity.
  - apply (proj2 (charset_names_resolve "gothic" Hb)).
    vm_compute. intros Hin.
    repeat (apply elem_of_cons in Hin as [Hin|Hin]; [discriminate Hin|]).
    apply elem_of_nil in Hin. exact Hin.
Defined.

(** X2. [get_emoji_set_by_name] against [list_available_emoji_sets]: the
    i-th listed name, in any letter case, selects the i-th emoji set;
    every other ASCII name selects BRIGHTNESS. *)
Theorem emoji_set_names_resolve :
  forall name : string, is_ascii name = true ->
    (forall (i : nat) (n : string),
        names.list_available_emoji_sets !! i = Some n -> lower name = n ->
        [character_sets.BRIGHTNESS; character_sets.GRAYSCALE; character_sets.HEARTS;
         character_sets.SQUARES; character_sets.NATURE; character_sets.SPACE;
         character_sets.OCEAN; character_sets.FOOD; character_sets.FACES;
         character_sets.WEATHER; character_sets.FIRE; character_sets.GEOMETRIC] !! i
        = Some (character_sets.get_emoji_set_by_name name))
    /\ (lower name ∉ names.list_available_emoji_sets ->
        character_sets.get_emoji_set_by_name name = character_sets.BRIGHTNESS).
Proof.
  intros name _. split.
  - intros i n Hi Hn. unfold character_sets.get_emoji_set_by_name. cbv zeta.
    rewrite Hn.
    do 12 (destruct i as [|i]; [injection Hi as <-; reflexivity|]).
    discriminate Hi.
  - intros Hnot. unfold character_sets.get_emoji_set_by_name. cbv zeta.
    unfold names.list_available_emoji_sets in Hnot.
    repeat (apply not_elem_of_cons_inv in Hnot as [Hne Hnot];
            apply String.eqb_neq in Hne; rewrite Hne; clear Hne).
    reflexivity.
Qed.

Lemma emoji_set_names_resolve_witness :
  [character_sets.BRIGHTNESS; character_sets.GRAYSCALE; character_sets.HEARTS;
   character_sets.SQUARES; character_sets.NATURE; character_sets.SPACE;
   character_sets.OCEAN; character_sets.FOOD; character_sets.FACES;
   character_sets.WEATHER; character_sets.FIRE; character_sets.GEOMETRIC] !! 6%nat
  = Some (character_sets.get_emoji_set_by_name "OCEAN")
  /\ character_sets.get_emoji_set_by_name "planets" = character_sets.BRIGHTNESS.
Proof.
  assert (Ha : is_ascii "OCEAN" = true) by reflexivity.
  assert (Hb : is_ascii "planets" = true) by reflexivity.
  split.
  - apply (proj1 (emoji_set_names_resolve "OCEAN" Ha) 6%nat "ocean"); reflexivity.
  - apply (proj2 (emoji_set_names_resolve "planets" Hb)).
    vm_compute. intros Hin.
    repeat (apply elem_of_cons in Hin as [Hin|Hin]; [discriminate Hin|]).
    apply elem_of_nil in Hin. exact Hin.
Defined.

(** X3. [ColorMode(value)] is the inverse of [.value]: a string selects a
    mode exactly when it is that mode's value, letter case included, and
    every other string raises ValueError. *)
Theorem color_mode_of_value_round_trip :
  (forall m : color_handler.ColorMode,
      color_handler.ColorMode_of_value (color_handler.ColorMode_value m) = Ok m)
  /\ (forall (v : string) (r : result color_handler.ColorMode),
        color_handler.ColorMode_of_value v = r ->
        match r with
        | Ok m => v = color_handler.ColorMode_value m
        | Raise e => e = ValueError /\ forall m, v <> color_handler.ColorMode_value m
        end).
Proof.
  split.
  - intros []; reflexivity.
  - intros v r <-. unfold color_handler.ColorMode_of_value.
    destruct (String.eqb v "none") eqn:E1; [apply String.eqb_eq in E1; exact E1|].
    destruct (String.eqb v "ansi") eqn:E2; [apply String.eqb_eq in E2; exact E2|].
    destruct (String.eqb v "ansi_bg") eqn:E3; [apply String.eqb_eq in E3; exact E3|].
    destruct (String.eqb v "html") eqn:E4; [apply String.eqb_eq in E4; exact E4|].
    destruct (String.eqb v "html_bg") eqn:E5; [apply String.eqb_eq in E5; exact E5|].
    split; [reflexivity|].
    apply String.eqb_neq in E1, E2, E3, E4, E5.
    intros []; assumption.
Qed.

Lemma color_mode_of_value_round_trip_witness :
  "html_bg" = color_handler.ColorMode_value color_handler.HTML_BG
  /\ (ValueError = ValueError
      /\ forall m, "ANSI" <> color_handler.ColorMode_value m).
Proof.
  split.
  - exact (proj2 color_mode_of_value_round_trip "html_bg" (Ok color_handler.HTML_BG)
             eq_refl).
  - exact (proj2 color_mode_of_value_round_trip "ANSI" (Raise ValueError) eq_refl).
Defined.

(** ** Colors *)

Section color_tools.
Import color_handler colors.

Lemma floordiv_ok (a b : Z) : b <> 0 -> floordiv a b = Ok (a / b).
Proof.
  intros Hb. unfold floordiv. destruct (b =? 0) eqn:E; [lia | reflexivity].
Qed.

Lemma floordiv_zero (a : Z) : floordiv a 0 = Raise ZeroDivisionError.
Proof. reflexivity. Qed.

(** the step of [quantize_color] for a sensible number of levels *)
Lemma quantize_step_pos (levels : Z) : 1 <= levels <= 256 -> 1 <= 256 / levels <= 256.
Proof.
  intros Hl. split.
  - assert (0 < 256 / levels) by (apply Z.div_str_pos; lia). lia.
  - apply Z.div_le_upper_bound; nia.
Qed.

Lemma quantize_color_value (color : RGB) (levels : Z) :
  256 / levels <> 0 -> levels <> 0 ->
  quantize_color color levels
  = Ok {| r := r color / (256 / levels) * (256 / levels);
          g := g color / (256 / levels) * (256 / levels);
          b := b color / (256 / levels) * (256 / levels) |}.
Proof.
  intros Hs Hl. unfold quantize_color.
  rewrite (floordiv_ok 256 levels Hl). cbn [mbind result_bind].
  rewrite !(floordiv_ok _ _ Hs). reflexivity.
Qed.

(** one channel: the largest multiple of the step that is not above it *)
Lemma quantize_channel (c step : Z) :
  0 <= c <= 255 -> 1 <= step ->
  let q := c / step * step in
  0 <= q <= 255 /\ q <= c < q + step /\ (step | q) /\ q / step * step = q.
Proof.
  intros Hc Hs q. unfold q.
  pose proof (Z.mul_div_le c step ltac:(lia)) as Hle.
  pose proof (Z.mod_pos_bound c step ltac:(lia)) as Hmod.
  pose proof (Z.div_mod c step ltac:(lia)) as Hdm.
  pose proof (Z.div_pos c step ltac:(lia) ltac:(lia)) as Hpos.
  split; [nia|]. split; [nia|]. split.
  - exists (c / step). reflexivity.
  - rewrite Z.div_mul by lia. reflexivity.
Qed.

Lemma is_ascii_app (s t : string) :
  is_ascii (s +:+ t) = is_ascii s && is_ascii t.
Proof.
  unfold is_ascii. induction s as [|c s IH]; [reflexivity|].
  simpl. rewrite IH. rewrite andb_assoc. reflexivity.
Qed.

Lemma is_ascii_hashes (n : nat) :
  is_ascii (string_of_list_ascii (repeat "#"%char n)) = true.
Proof. induction n as [|n IH]; [reflexivity | exact IH]. Qed.

Lemma lstrip_hashes (n : nat) (c : ascii) (s : string) :
  Ascii.eqb c "#" = false ->
  lstrip "#" (string_of_list_ascii (repeat "#"%char n) +:+ String c s) = String c s.
Proof.
  intros Hc. induction n as [|n IH].
  - simpl. rewrite Hc. reflexivity.
  - simpl. exact IH.
Qed.

Lemma hex_pair_ok_all : forallb hex_pair_ok (range 256) = true.
Proof. vm_compute. reflexivity. Qed.

(** the two hexadecimal digits of a channel *)
Lemma format_02x_channel (v : Z) :
  0 <= v <= 255 ->
  exists c1 c2,
    format_02x v = String c1 (String c2 EmptyString)
    /\ is_ascii (format_02x v) = true
    /\ Ascii.eqb c1 "#" = false
    /\ int_base16 (String c1 (String c2 EmptyString)) = Ok v.
Proof.
  intros Hv.
  pose proof hex_pair_ok_all as Hall.
  rewrite forallb_forall in Hall.
  assert (Hin : In v (range 256)).
  { apply list_elem_of_In. apply range_spec. lia. }
  specialize (Hall v Hin). unfold hex_pair_ok in Hall.
  destruct (format_02x v) as [|c1 [|c2 [|c3 s]]] eqn:Hf; try discriminate Hall.
  apply andb_prop in Hall as [Hall Hint].
  apply andb_prop in Hall as [Hasc Hhash].
  exists c1, c2. split; [reflexivity|]. split; [exact Hasc|].
  split; [apply negb_true_iff; exact Hhash|].
  destruct (int_base16 (String c1 (String c2 EmptyString))) as [n|e];
    [|discriminate Hint].
  apply Z.eqb_eq in Hint. subst n. reflexivity.
Qed.

(** [int(text, 16)] raises nothing but ValueError *)
Lemma int_base16_raises (s : string) (e : exn) :
  int_base16 s = Raise e -> e = ValueError.
Proof.
  unfold int_base16.
  destruct (match skip_spaces s with
            | String "+" s' => (false, s')
            | String "-" s' => (true, s')
            | _ => (false, skip_spaces s)
            end) as [negative s1].
  match goal with
  | |- match ?t with EmptyString => _ | String _ _ => _ end = _ -> _ => destruct t as [|c s2]
  end; [intros [= <-]; reflexivity|].
  destruct (hex_value c); [|intros [= <-]; reflexivity].
  destruct (hex_digits false 0 (String c s2)) as [[n rest]|];
    [|intros [= <-]; reflexivity].
  destruct (skip_spaces rest); [discriminate|intros [= <-]; reflexivity].
Qed.

Lemma brightness_exact (c : RGB) :
  (brightness (F := Q) c
   == (299 # 1000) * inject_Z (r c) + (587 # 1000) * inject_Z (g c)
      + (114 # 1000) * inject_Z (b c))%Q.
Proof. reflexivity. Qed.

Lemma gray_kept_all : forallb gray_kept (range 256) = true.
Proof. vm_compute. reflexivity. Qed.

End color_tools.

(** X4. [quantize_color] with 1 to 256 levels, on a color with channels in
    [[0, 255]]: it returns; each channel becomes the largest multiple of
    [step = 256 // levels] not above it, so it drops by less than [step]
    and stays in [[0, 255]]; quantizing the result again changes nothing. *)
Theorem quantize_color_floor :
  forall (color : color_handler.RGB) (levels : Z),
    colors.in_gamut color -> 1 <= levels <= 256 ->
    let step := 256 / levels in
    exists q : color_handler.RGB,
      colors.quantize_color color levels = Ok q
      /\ colors.in_gamut q
      /\ (color_handler.r q <= color_handler.r color < color_handler.r q + step
          /\ (step | color_handler.r q))
      /\ (color_handler.g q <= color_handler.g color < color_handler.g q + step
          /\ (step | color_handler.g q))
      /\ (color_handler.b q <= color_handler.b color < color_handler.b q + step
          /\ (step | color_handler.b q))
      /\ colors.quantize_color q levels = Ok q.
Proof.
  intros color levels (Hr & Hg & Hb) Hl step.
  pose proof (quantize_step_pos levels Hl) as Hs. fold step in Hs.
  assert (Hs0 : step <> 0) by lia. assert (Hl0 : levels <> 0) by lia.
  destruct (quantize_channel (color_handler.r color) step Hr ltac:(lia))
    as (Hr1 & Hr2 & Hr3 & Hr4).
  destruct (quantize_channel (color_handler.g color) step Hg ltac:(lia))
    as (Hg1 & Hg2 & Hg3 & Hg4).
  destruct (quantize_channel (color_handler.b color) step Hb ltac:(lia))
    as (Hb1 & Hb2 & Hb3 & Hb4).
  eexists. split; [apply (quantize_color_value color levels Hs0 Hl0)|].
  fold step. unfold colors.in_gamut.
  cbn [color_handler.r color_handler.g color_handler.b].
  split; [repeat split; lia|].
  split; [split; assumption|]. split; [split; assumption|].
  split; [split; assumption|].
  rewrite (quantize_color_value _ levels Hs0 Hl0). fold step.
  cbn [color_handler.r color_handler.g color_handler.b].
  rewrite Hr4, Hg4, Hb4. reflexivity.
Qed.

Lemma quantize_color_floor_witness :
  exists q : color_handler.RGB,
    colors.quantize_color
      {| color_handler.r := 200; color_handler.g := 100; color_handler.b := 31 |} 8
    = Ok q
    /\ colors.in_gamut q
    /\ (color_handler.r q <= 200 < color_handler.r q + 32 /\ (32 | color_handler.r q))
    /\ (color_handler.g q <= 100 < color_handler.g q + 32 /\ (32 | color_handler.g q))
    /\ (color_handler.b q <= 31 < color_handler.b q + 32 /\ (32 | color_handler.b q))
    /\ colors.quantize_color q 8 = Ok q.
Proof.
  assert (Hg : colors.in_gamut
                 {| color_handler.r := 200; color_handler.g := 100;
                    color_handler.b := 31 |})
    by (unfold colors.in_gamut; cbn; lia).
  assert (Hl : 1 <= 8 <= 256) by lia.
  exact (quantize_color_floor _ 8 Hg Hl).
Defined.

(** X5. [quantize_color] raises ZeroDivisionError exactly when [levels] is
    0 or above 256 (the step [256 // levels] is then 0), whatever the
    color; for every other number of levels it returns. *)
Theorem quantize_color_zero_division :
  forall (color : color_handler.RGB) (levels : Z),
    (levels = 0 \/ 256 < levels
     -> colors.quantize_color color levels = Raise ZeroDivisionError)
    /\ (levels <> 0 -> levels <= 256
        -> exists q, colors.quantize_color color levels = Ok q).
Proof.
  intros color levels. split.
  - intros [-> | Hl]; [reflexivity|].
    unfold colors.quantize_color.
    rewrite (floordiv_ok 256 levels) by lia. cbn [mbind result_bind].
    rewrite Z.div_small by lia. reflexivity.
  - intros Hl0 Hl. eexists. apply quantize_color_value; [|exact Hl0].
    destruct (Z_lt_le_dec levels 0) as [Hneg|Hpos].
    + pose proof (Z.div_mod 256 levels Hl0) as Hdm.
      pose proof (Z.mod_neg_bound 256 levels Hneg) as Hmod.
      nia.
    + pose proof (quantize_step_pos levels ltac:(lia)). lia.
Qed.

Lemma quantize_color_zero_division_witness :
  let c := {| color_handler.r := 200; color_handler.g := 100; color_handler.b := 31 |} in
  colors.quantize_color c 300 = Raise ZeroDivisionError
  /\ exists q, colors.quantize_color c (-3) = Ok q.
Proof.
  intros c.
  assert (H1 : 300 = 0 \/ 256 < 300) by (right; lia).
  assert (H2 : -3 <> 0) by lia.
  assert (H3 : -3 <= 256) by lia.
  split.
  - exact (proj1 (quantize_color_zero_division c 300) H1).
  - exact (proj2 (quantize_color_zero_division c (-3)) H2 H3).
Defined.

(** X6. [RGB.get_complementary] is its own inverse, and it keeps the
    channels in [[0, 255]] exactly when they were there. *)
Theorem get_complementary_involution :
  forall c : color_handler.RGB,
    colors.get_complementary (colors.get_complementary c) = c
    /\ (colors.in_gamut c <-> colors.in_gamut (colors.get_complementary c)).
Proof.
  intros [r g b]. unfold colors.get_complementary, colors.in_gamut.
  cbn [color_handler.r color_handler.g color_handler.b]. split.
  - f_equal; lia.
  - lia.
Qed.

(** X7. [RGB.from_hex] reads back what [RGB.to_html] writes, for every
    color with channels in [[0, 255]]; the leading [#] may be missing or
    repeated, and whatever follows the six digits is ignored. *)
Theorem from_hex_reads_to_html :
  forall (c : color_handler.RGB) (n : nat) (rest : string),
    colors.in_gamut c -> is_ascii rest = true ->
    colors.from_hex (color_handler.to_html c) = Some (Ok c)
    /\ colors.from_hex
         (string_of_list_ascii (repeat "#"%char n)
          +:+ format_02x (color_handler.r c) +:+ format_02x (color_handler.g c)
          +:+ format_02x (color_handler.b c) +:+ rest)
       = Some (Ok c).
Proof.
  intros [r g b] n rest (Hr & Hg & Hb) Hrest.
  cbn [color_handler.r color_handler.g color_handler.b] in *.
  destruct (format_02x_channel r Hr) as (r1 & r2 & Hfr & Har & Hhr & Hir).
  destruct (format_02x_channel g Hg) as (g1 & g2 & Hfg & Hag & _ & Hig).
  destruct (format_02x_channel b Hb) as (b1 & b2 & Hfb & Hab & _ & Hib).
  assert (Hgen : forall (k : nat) (t : string), is_ascii t = true ->
            colors.from_hex
              (string_of_list_ascii (repeat "#"%char k)
               +:+ format_02x r +:+ format_02x g +:+ format_02x b +:+ t)
            = Some (Ok {| color_handler.r := r; color_handler.g := g;
                          color_handler.b := b |})).
  { intros k t Ht. unfold colors.from_hex.
    rewrite !is_ascii_app, is_ascii_hashes, Har, Hag, Hab, Ht.
    cbn [andb]. cbv zeta.
    rewrite Hfr, Hfg, Hfb.
    assert (E : String r1 (String r2 EmptyString) +:+
                String g1 (String g2 EmptyString) +:+
                String b1 (String b2 EmptyString) +:+ t
                = String r1 (String r2 (String g1 (String g2
                    (String b1 (String b2 t))))))
      by reflexivity.
    rewrite E, (lstrip_hashes k r1 _ Hhr).
    assert (E1 : py_slice (String r1 (String r2 (String g1 (String g2
                             (String b1 (String b2 t)))))) 0 2
                 = String r1 (String r2 EmptyString)) by reflexivity.
    assert (E2 : py_slice (String r1 (String r2 (String g1 (String g2
                             (String b1 (String b2 t)))))) 2 4
                 = String g1 (String g2 EmptyString)) by reflexivity.
    assert (E3 : py_slice (String r1 (String r2 (String g1 (String g2
                             (String b1 (String b2 t)))))) 4 6
                 = String b1 (String b2 EmptyString))
      by (destruct t; reflexivity).
    rewrite E1, E2, E3.
    rewrite Hir, Hig, Hib. reflexivity. }
  split.
  - specialize (Hgen 1%nat EmptyString eq_refl).
    unfold color_handler.to_html.
    cbn [color_handler.r color_handler.g color_handler.b].
    rewrite <- Hgen. f_equal.
    rewrite Hfr, Hfg, Hfb. reflexivity.
  - apply Hgen. exact Hrest.
Qed.

Lemma from_hex_reads_to_html_witness :
  let c := {| color_handler.r := 255; color_handler.g := 128; color_handler.b := 64 |} in
  colors.from_hex (color_handler.to_html c) = Some (Ok c)
  /\ colors.from_hex
       (string_of_list_ascii (repeat "#"%char 0)
        +:+ format_02x (color_handler.r c) +:+ format_02x (color_handler.g c)
        +:+ format_02x (color_handler.b c) +:+ "; border: 0")
     = Some (Ok c).
Proof.
  intros c.
  assert (Hg : colors.in_gamut c) by (unfold colors.in_gamut; cbn; lia).
  assert (Ha : is_ascii "; border: 0" = true) by reflexivity.
  exact (from_hex_reads_to_html c 0 "; border: 0" Hg Ha).
Defined.

(** X8. [RGB.from_hex] needs at least five characters after the leading
    [#]: on a shorter ASCII text, the three-digit form [#fff] among them,
    it raises ValueError (the slice for the blue channel is empty). *)
Theorem from_hex_short_text :
  forall text : string,
    is_ascii text = true ->
    (String.length (lstrip "#" text) < 5)%nat ->
    colors.from_hex text = Some (Raise ValueError).
Proof.
  intros text Ha Hlen. unfold colors.from_hex. rewrite Ha. cbv zeta. f_equal.
  assert (Hb : py_slice (lstrip "#" text) 4 6 = EmptyString).
  { destruct (lstrip "#" text) as [|c1 [|c2 [|c3 [|c4 [|c5 s]]]]]; try reflexivity.
    cbn [String.length] in Hlen. lia. }
  rewrite Hb.
  destruct (int_base16 (py_slice (lstrip "#" text) 0 2)) as [r|e] eqn:Hr.
  - cbn [mbind result_bind].
    destruct (int_base16 (py_slice (lstrip "#" text) 2 4)) as [g|e] eqn:Hg.
    + reflexivity.
    + apply int_base16_raises in Hg. subst e. reflexivity.
  - apply int_base16_raises in Hr. subst e. reflexivity.
Qed.

Lemma from_hex_short_text_witness :
  colors.from_hex "#fff" = Some (Raise ValueError).
Proof.
  assert (Ha : is_ascii "#fff" = true) by reflexivity.
  assert (Hl : (String.length (lstrip "#" "#fff") < 5)%nat) by (vm_compute; lia).
  exact (from_hex_short_text "#fff" Ha Hl).
Defined.

(** X9. [RGB.get_grayscale].  Floats read exactly, the gray level of a
    color with channels in [[0, 255]] lies between its smallest and its
    largest channel, so a gray is kept as it is.  In double precision the
    gray of level [v] becomes [v] or [v - 1]: the weights 0.299, 0.587 and
    0.114 do not add up to 1 there, and level 128 becomes 127. *)
Theorem get_grayscale_levels :
  (forall c : color_handler.RGB, colors.in_gamut c ->
     exists y : Z,
       colors.get_grayscale (F := Q) c
       = Ok {| color_handler.r := y; color_handler.g := y; color_handler.b := y |}
       /\ Z.min (color_handler.r c) (Z.min (color_handler.g c) (color_handler.b c)) <= y
       /\ y <= Z.max (color_handler.r c) (Z.max (color_handler.g c) (color_handler.b c)))
  /\ (forall v : Z, 0 <= v <= 255 ->
        exists y : Z,
          colors.get_grayscale (F := spec_float)
            {| color_handler.r := v; color_handler.g := v; color_handler.b := v |}
          = Ok {| color_handler.r := y; color_handler.g := y; color_handler.b := y |}
          /\ v - 1 <= y <= v)
  /\ colors.get_grayscale (F := spec_float)
       {| color_handler.r := 128; color_handler.g := 128; color_handler.b := 128 |}
     = Ok {| color_handler.r := 127; color_handler.g := 127; color_handler.b := 127 |}.
Proof.
  split; [|split].
  - intros c (Hr & Hg & Hb).
    unfold colors.get_grayscale.
    cbn [int_of_float exact_float mbind result_bind mret result_ret].
    exists (Q_trunc (color_handler.brightness (F := Q) c)). split; [reflexivity|].
    pose proof (brightness_exact c) as Hbr.
    set (x := color_handler.brightness (F := Q) c) in *.
    set (lo := Z.min (color_handler.r c) (Z.min (color_handler.g c) (color_handler.b c))).
    set (hi := Z.max (color_handler.r c) (Z.max (color_handler.g c) (color_handler.b c))).
    assert (Hlo : (inject_Z lo <= x)%Q).
    { assert (H1 : (inject_Z lo <= inject_Z (color_handler.r c))%Q)
        by (rewrite <- Zle_Qle; unfold lo; lia).
      assert (H2 : (inject_Z lo <= inject_Z (color_handler.g c))%Q)
        by (rewrite <- Zle_Qle; unfold lo; lia).
      assert (H3 : (inject_Z lo <= inject_Z (color_handler.b c))%Q)
        by (rewrite <- Zle_Qle; unfold lo; lia).
      rewrite Hbr. lra. }
    assert (Hhi : (x <= inject_Z hi)%Q).
    { assert (H1 : (inject_Z (color_handler.r c) <= inject_Z hi)%Q)
        by (rewrite <- Zle_Qle; unfold hi; lia).
      assert (H2 : (inject_Z (color_handler.g c) <= inject_Z hi)%Q)
        by (rewrite <- Zle_Qle; unfold hi; lia).
      assert (H3 : (inject_Z (color_handler.b c) <= inject_Z hi)%Q)
        by (rewrite <- Zle_Qle; unfold hi; lia).
      rewrite Hbr. lra. }
    assert (H0 : (0 <= x)%Q).
    { apply Qle_trans with (inject_Z lo); [|exact Hlo].
      change 0%Q with (inject_Z 0). rewrite <- Zle_Qle. unfold lo. lia. }
    rewrite (Q_trunc_floor x H0). split.
    + rewrite <- (Qfloor_Z lo). apply Qfloor_resp_le. exact Hlo.
    + rewrite <- (Qfloor_Z hi). apply Qfloor_resp_le. exact Hhi.
  - intros v Hv.
    pose proof gray_kept_all as Hall. rewrite forallb_forall in Hall.
    assert (Hin : In v (range 256)) by (apply list_elem_of_In, range_spec; lia).
    specialize (Hall v Hin). unfold colors.gray_kept in Hall.
    destruct (colors.get_grayscale (F := spec_float) _) as [[r g b]|e];
      [|discriminate Hall].
    cbn [color_handler.r color_handler.g color_handler.b] in Hall.
    apply andb_prop in Hall as [Hall Hb]. apply andb_prop in Hall as [Hr Hg].
    apply Z.eqb_eq in Hb, Hg. subst g b.
    exists r. split; [reflexivity|].
    apply orb_prop in Hr as [Hr|Hr]; apply Z.eqb_eq in Hr; lia.
  - vm_compute. reflexivity.
Qed.

Lemma get_grayscale_levels_witness :
  (exists y : Z,
     colors.get_grayscale (F := Q)
       {| color_handler.r := 10; color_handler.g := 200; color_handler.b := 90 |}
     = Ok {| color_handler.r := y; color_handler.g := y; color_handler.b := y |}
     /\ Z.min 10 (Z.min 200 90) <= y /\ y <= Z.max 10 (Z.max 200 90))
  /\ (exists y : Z,
        colors.get_grayscale (F := spec_float)
          {| color_handler.r := 200; color_handler.g := 200; color_handler.b := 200 |}
        = Ok {| color_handler.r := y; color_handler.g := y; color_handler.b := y |}
        /\ 200 - 1 <= y <= 200).
Proof.
  assert (Hg : colors.in_gamut
                 {| color_handler.r := 10; color_handler.g := 200;
                    color_handler.b := 90 |})
    by (unfold colors.in_gamut; cbn; lia).
  assert (Hv : 0 <= 200 <= 255) by lia.
  split.
  - exact (proj1 get_grayscale_levels _ Hg).
  - exact (proj1 (proj2 get_grayscale_levels) 200 Hv).
Defined.

(** ** The glyph selections *)

Section glyph_ramp.
Import character_sets pixel_domain.

Lemma clamp_mono (x y : Q) :
  (x <= y)%Q -> (design.clamp x 0 255 <= design.clamp y 0 255)%Q.
Proof.
  intros Hxy. unfold design.clamp.
  destruct (Qle_bool x 0) eqn:Ex0; destruct (Qle_bool y 0) eqn:Ey0;
    destruct (Qle_bool 255 x) eqn:Ex1; destruct (Qle_bool 255 y) eqn:Ey1;
    repeat match goal with
           | H : Qle_bool _ _ = true |- _ => apply Qle_bool_iff in H
           | H : Qle_bool ?a ?b = false |- _ =>
               assert (~ (a <= b)%Q) by (rewrite <- Qle_bool_iff; congruence); clear H
           end; lra.
Qed.

(** In exact arithmetic the index never decreases with the brightness. *)
Lemma design_index_mono (n : Z) (x y : Q) :
  1 <= n -> (x <= y)%Q -> design.index n x <= design.index n y.
Proof.
  intros Hn Hxy. unfold design.index, design.round_half_up.
  assert (Hm : (0 <= inject_Z (n - 1))%Q).
  { change 0%Q with (inject_Z 0). rewrite <- Zle_Qle. lia. }
  pose proof (clamp_mono x y Hxy) as Hc.
  assert (Hd : (design.clamp x 0 255 / 255 <= design.clamp y 0 255 / 255)%Q).
  { unfold Qdiv. apply Qmult_le_compat_r; [exact Hc | discriminate]. }
  assert (Hs : (design.clamp x 0 255 / 255 * inject_Z (n - 1) + (1 # 2)
                <= design.clamp y 0 255 / 255 * inject_Z (n - 1) + (1 # 2))%Q).
  { apply Qplus_le_l. apply Qmult_le_compat_r; assumption. }
  apply Qfloor_resp_le in Hs. lia.
Qed.

Lemma get_index_num_chars {F} `{PyFloat F} (m m' : CharacterMapper) (x : F) :
  num_chars m = num_chars m' -> get_index m x = get_index m' x.
Proof. intros E. unfold get_index. rewrite E. reflexivity. Qed.

(** Whatever the arguments of [CharacterMapper.__init__], the table is one
    of the eighteen. *)
Lemma init_in_source (c : CharacterSet) (e : option EmojiSet) (u : bool) :
  exists m', m' ∈ source_mappers
             /\ num_chars m' = num_chars (CharacterMapper_init c e u)
             /\ characters m' = characters (CharacterMapper_init c e u).
Proof.
  destruct u, e as [e|].
  - exists (CharacterMapper_init DETAILED (Some e) true). split.
    + apply (generated_mapper_in_source DETAILED e true).
    + split; reflexivity.
  - exists (CharacterMapper_init c None false). split.
    + apply (generated_mapper_in_source c BRIGHTNESS false).
    + split; reflexivity.
  - exists (CharacterMapper_init c None false). split.
    + apply (generated_mapper_in_source c BRIGHTNESS false).
    + split; reflexivity.
  - exists (CharacterMapper_init c None false). split.
    + apply (generated_mapper_in_source c BRIGHTNESS false).
    + split; reflexivity.
Qed.

Lemma ramp_onto_all : forallb ramp.onto source_mappers = true.
Proof. vm_compute. reflexivity. Qed.

Lemma ramp_onto_source (m : CharacterMapper) (i : Z) :
  m ∈ source_mappers -> 0 <= i < num_chars m ->
  exists v, 0 <= v <= 255 /\ design.index (num_chars m) (inject_Z v) = i.
Proof.
  intros Hm Hi.
  pose proof ramp_onto_all as Hall. rewrite forallb_forall in Hall.
  apply list_elem_of_In in Hm. specialize (Hall m Hm).
  unfold ramp.onto in Hall. rewrite forallb_forall in Hall.
  assert (Hin : In i (range (num_chars m))) by (apply list_elem_of_In, range_spec; lia).
  specialize (Hall i Hin). apply existsb_exists in Hall as (v & Hv & Hvi).
  apply list_elem_of_In, range_inv in Hv. apply Z.eqb_eq in Hvi.
  exists v. split; [lia | exact Hvi].
Qed.

(** the squares [get_colored_emoji] can return *)
Lemma colored_emoji_square {F} `{PyFloat F} (self : CharacterMapper) (r g b : Z)
    (ch : glyph) :
  get_colored_emoji self r g b = Ok ch ->
  ch ∈ map color_emojis [red; orange; yellow; green; blue; purple; black; white]
  /\ ch <> color_emojis brown.
Proof.
  unfold get_colored_emoji, dominant_color.
  destruct (int_truediv (r + g + b) 3) as [x|e]; [|discriminate].
  cbn [mbind result_bind mret result_ret].
  repeat match goal with
         | |- context [if ?c then _ else _] => destruct c
         end;
    cbn [mbind result_bind mret result_ret];
    intros [= <-];
    (split; [apply list_elem_of_In; cbn; tauto | discriminate]).
Qed.

End glyph_ramp.

(** X10. The glyph ramp in double precision, for every mapper
    [CharacterMapper.__init__] can build: over the pixel intensities
    0..255 the table position [get_character] reads never decreases with
    the intensity, and every position of the table is read for some
    intensity, so that no glyph of a table is dead. *)
Theorem glyph_ramp_monotone_onto :
  forall (c : character_sets.CharacterSet) (e : option character_sets.EmojiSet)
         (u : bool),
    let m := character_sets.CharacterMapper_init c e u in
    (forall v v' : Z, 0 <= v -> v <= v' -> v' <= 255 ->
       exists i i' : Z,
         character_sets.get_index (F := spec_float) m (float_of_int v) = Ok i
         /\ character_sets.get_index (F := spec_float) m (float_of_int v') = Ok i'
         /\ 0 <= i /\ i <= i' /\ i' < character_sets.num_chars m)
    /\ (forall i : Z, 0 <= i < character_sets.num_chars m ->
          exists v : Z,
            0 <= v <= 255
            /\ character_sets.get_index (F := spec_float) m (float_of_int v) = Ok i).
Proof.
  intros c e u m.
  destruct (init_in_source c e u) as (m' & Hm' & Hn & _). fold m in Hn.
  pose proof (source_mappers_nonempty m' Hm') as Hpos.
  split.
  - intros v v' H0 Hvv H255.
    exists (design.index (character_sets.num_chars m') (inject_Z v)),
           (design.index (character_sets.num_chars m') (inject_Z v')).
    rewrite !(get_index_num_chars m m' _ (eq_sym Hn)).
    rewrite !binary64_index_on_pixels by (exact Hm' || lia).
    split; [reflexivity|]. split; [reflexivity|].
    pose proof (design_index_range (character_sets.num_chars m') (inject_Z v) Hpos).
    pose proof (design_index_range (character_sets.num_chars m') (inject_Z v') Hpos).
    assert (Hq : (inject_Z v <= inject_Z v')%Q) by (rewrite <- Zle_Qle; exact Hvv).
    pose proof (design_index_mono _ _ _ Hpos Hq).
    lia.
  - intros i Hi. rewrite <- Hn in Hi.
    destruct (ramp_onto_source m' i Hm' Hi) as (v & Hv & Hvi).
    exists v. split; [exact Hv|].
    rewrite (get_index_num_chars m m' _ (eq_sym Hn)).
    rewrite binary64_index_on_pixels by (exact Hm' || lia).
    rewrite Hvi. reflexivity.
Qed.

Lemma glyph_ramp_monotone_onto_witness :
  let m := character_sets.CharacterMapper_init character_sets.STANDARD None false in
  (exists i i' : Z,
     character_sets.get_index (F := spec_float) m (float_of_int 100) = Ok i
     /\ character_sets.get_index (F := spec_float) m (float_of_int 130) = Ok i'
     /\ 0 <= i /\ i <= i' /\ i' < character_sets.num_chars m)
  /\ (exists v : Z,
        0 <= v <= 255
        /\ character_sets.get_index (F := spec_float) m (float_of_int v) = Ok 7).
Proof.
  intros m.
  assert (H0 : 0 <= 100) by lia.
  assert (H1 : 100 <= 130) by lia.
  assert (H2 : 130 <= 255) by lia.
  assert (H3 : 0 <= 7 < character_sets.num_chars m) by (vm_compute; split; congruence).
  split.
  - exact (proj1 (glyph_ramp_monotone_onto character_sets.STANDARD None false)
             100 130 H0 H1 H2).
  - exact (proj2 (glyph_ramp_monotone_onto character_sets.STANDARD None false) 7 H3).
Defined.

(** X11. [get_colored_emoji] returns one of eight squares: red, orange,
    yellow, green, blue, purple, black or white.  The entry [brown] of its
    dictionary is never selected, whatever the channels and whatever the
    float arithmetic. *)
Theorem get_colored_emoji_never_brown :
  forall (F : Type) (HF : PyFloat F) (self : character_sets.CharacterMapper)
         (r g b : Z) (ch : glyph),
    character_sets.get_colored_emoji self r g b = Ok ch ->
    ch ∈ map character_sets.color_emojis
           [character_sets.red; character_sets.orange; character_sets.yellow;
            character_sets.green; character_sets.blue; character_sets.purple;
            character_sets.black; character_sets.white]
    /\ ch <> character_sets.color_emojis character_sets.brown.
Proof.
  intros F HF self r g b ch. apply colored_emoji_square.
Qed.

Lemma get_colored_emoji_never_brown_witness :
  "🟧" ∈ map character_sets.color_emojis
          [character_sets.red; character_sets.orange; character_sets.yellow;
           character_sets.green; character_sets.blue; character_sets.purple;
           character_sets.black; character_sets.white]
  /\ "🟧" <> character_sets.color_emojis character_sets.brown.
Proof.
  assert (H : character_sets.get_colored_emoji (F := spec_float)
                (character_sets.CharacterMapper_init character_sets.DETAILED None false)
                150 120 40 = Ok "🟧") by (vm_compute; reflexivity).
  exact (get_colored_emoji_never_brown spec_float binary64 _ 150 120 40 "🟧" H).
Defined.

(** ** File names *)

Section sanitize.
Import utils.

(** what [sanitize_filename] makes of one character *)
Lemma sanitize_char (c : ascii) :
  fold_left (fun ch old => if Ascii.eqb ch old then "_"%char else ch) invalid_chars c
  = if existsb (Ascii.eqb c) invalid_chars then "_"%char else c.
Proof. destruct c as [[] [] [] [] [] [] [] []]; reflexivity. Qed.

Lemma sanitized_char_valid (c : ascii) :
  existsb (Ascii.eqb (if existsb (Ascii.eqb c) invalid_chars then "_"%char else c))
          invalid_chars = false.
Proof. destruct c as [[] [] [] [] [] [] [] []]; reflexivity. Qed.

Lemma replace_cons (old c : ascii) (s : string) :
  replace old "_" (String c s)
  = String (if Ascii.eqb c old then "_"%char else c) (replace old "_" s).
Proof. cbn [replace]. destruct (Ascii.eqb c old); reflexivity. Qed.

Lemma replace_all_cons (l : list ascii) (c : ascii) (s : string) :
  fold_left (fun filename char => replace char "_" filename) l (String c s)
  = String (fold_left (fun ch old => if Ascii.eqb ch old then "_"%char else ch) l c)
           (fold_left (fun filename char => replace char "_" filename) l s).
Proof.
  revert c s. induction l as [|old l IH]; intros c s; [reflexivity|].
  cbn [fold_left]. rewrite replace_cons. apply IH.
Qed.

Lemma replace_all_nil (l : list ascii) :
  fold_left (fun filename char => replace char "_" filename) l EmptyString = EmptyString.
Proof. induction l as [|old l IH]; [reflexivity | exact IH]. Qed.

Lemma sanitize_filename_nil : sanitize_filename EmptyString = EmptyString.
Proof. apply replace_all_nil. Qed.

(** [sanitize_filename], character by character *)
Lemma sanitize_filename_cons (c : ascii) (s : string) :
  sanitize_filename (String c s)
  = String (if existsb (Ascii.eqb c) invalid_chars then "_"%char else c)
           (sanitize_filename s).
Proof.
  unfold sanitize_filename. rewrite replace_all_cons, sanitize_char. reflexivity.
Qed.

End sanitize.

(** X12. [sanitize_filename] replaces each of the nine characters
    [< > : quote / \ | ? *] by an underscore, in place: the name keeps its
    length, every other character stays where it was, no such character is
    left, and sanitizing twice is sanitizing once. *)
Theorem sanitize_filename_replaces_in_place :
  forall filename : string,
    String.length (utils.sanitize_filename filename) = String.length filename
    /\ (forall (i : nat) (c : ascii),
          String.get i filename = Some c ->
          String.get i (utils.sanitize_filename filename)
          = Some (if existsb (Ascii.eqb c) utils.invalid_chars then "_"%char else c))
    /\ (forall (i : nat) (c : ascii),
          String.get i (utils.sanitize_filename filename) = Some c ->
          existsb (Ascii.eqb c) utils.invalid_chars = false)
    /\ utils.sanitize_filename (utils.sanitize_filename filename)
       = utils.sanitize_filename filename.
Proof.
  induction filename as [|c s (IHlen & IHget & IHvalid & IHidem)].
  - rewrite sanitize_filename_nil. repeat split; try reflexivity.
    + intros i c Hc. destruct i; discriminate Hc.
    + intros i c Hc. destruct i; discriminate Hc.
  - rewrite sanitize_filename_cons. split; [|split; [|split]].
    + cbn [String.length]. rewrite IHlen. reflexivity.
    + intros [|i] c' Hc'; cbn [String.get] in *.
      * injection Hc' as <-. reflexivity.
      * apply IHget. exact Hc'.
    + intros [|i] c' Hc'; cbn [String.get] in *.
      * injection Hc' as <-. apply sanitized_char_valid.
      * apply (IHvalid i). exact Hc'.
    + rewrite sanitize_filename_cons, IHidem. f_equal.
      pose proof (sanitized_char_valid c) as Hv.
      destruct (existsb (Ascii.eqb c) utils.invalid_chars) eqn:E.
      * reflexivity.
      * rewrite E. reflexivity.
Qed.

Lemma sanitize_filename_replaces_in_place_witness :
  String.get 3 (utils.sanitize_filename "cat:dog?.png")
  = Some (if existsb (Ascii.eqb ":"%char) utils.invalid_chars then "_"%char else ":"%char)
  /\ existsb (Ascii.eqb "_"%char) utils.invalid_chars = false.
Proof.
  assert (H1 : String.get 3 "cat:dog?.png" = Some ":"%char) by reflexivity.
  assert (H2 : String.get 7 (utils.sanitize_filename "cat:dog?.png") = Some "_"%char)
    by reflexivity.
  split.
  - exact (proj1 (proj2 (sanitize_filename_replaces_in_place "cat:dog?.png")) 3%nat _ H1).
  - exact (proj1 (proj2 (proj2 (sanitize_filename_replaces_in_place "cat:dog?.png")))
             7%nat _ H2).
Defined.

(** ** Fitting the terminal *)

Section optimal_width.
Import utils.




End optimal_width.

(** X13. [calculate_optimal_width], in any float arithmetic: a width it
    returns is at least 1, and is at most the maximal width (the given
    one, or else the terminal's columns less 2) unless that is below 1. *)
Theorem calculate_optimal_width_bounds :
  forall (F : Type) (HF : PyFloat F) (terminal : option (Z * Z))
         (image_width image_height : Z) (max_width max_height : option Z) (w : Z),
    utils.calculate_optimal_width terminal image_width image_height max_width max_height
    = Ok w ->
    let limit := match max_width with
                 | Some m => m
                 | None => fst (utils.get_terminal_size terminal) - 2
                 end in
    1 <= w /\ w <= Z.max 1 limit.
Proof.
  intros F HF terminal iw ih mw mh w. unfold utils.calculate_optimal_width.
  cbv zeta.
  destruct (int_truediv ih iw) as [q|e]; [|discriminate].
  cbn [mbind result_bind].
  destruct (int_of_float _) as [h|e]; [|discriminate].
  cbn [mbind result_bind].
  match goal with
  | |- context [if ?c then _ else _] => destruct c
  end.
  - destruct (utils.int_div_float _ _) as [x|e]; [|discriminate].
    cbn [mbind result_bind].
    destruct (int_of_float x) as [w'|e]; [|discriminate].
    cbn [mbind result_bind mret result_ret]. intros [= <-]. lia.
  - cbn [mbind result_bind mret result_ret]. intros [= <-]. lia.
Qed.

Lemma calculate_optimal_width_bounds_witness :
  1 <= 48 /\ 48 <= Z.max 1 (fst (utils.get_terminal_size None) - 2).
Proof.
  assert (H : utils.calculate_optimal_width (F := spec_float) None 640 480 None None
              = Ok 48) by (vm_compute; reflexivity).
  exact (calculate_optimal_width_bounds spec_float binary64 None 640 480 None None 48 H).
Defined.



(** ** The phases of a conversion *)

Section convert_phases.
Import character_sets color_handler image_processor ascii_converter phases.
Context {F : Type} `{PyFloat F}.
Variable env : PixelSource F.

(** [convert] on the caller's settings object, phase by phase. *)
Lemma convert_phases (w : world F) (l : ref) (kwargs : list (kwarg F)) :
  convert env (Some l) kwargs w
  = match for_each resolve_name kwargs with
    | Ok resolved => process env l (configured w l resolved)
    | Raise e => (w, Raise e)
    end.
Proof.
  unfold convert. unfold bind at 1. cbn [settings_or_new].
  unfold bind at 1. unfold lift at 1.
  destruct (for_each resolve_name kwargs) as [resolved|e]; reflexivity.
Qed.

(** [convert] without a settings object, phase by phase. *)
Lemma convert_phases_new (w : world F) (kwargs : list (kwarg F)) :
  let l := fresh (dom (heap w)) in
  let w0 := {| heap := <[l := ConversionSettings_default]> (heap w); this := this w |} in
  convert env None kwargs w
  = match for_each resolve_name kwargs with
    | Ok resolved => process env l (configured w0 l resolved)
    | Raise e => (w0, Raise e)
    end.
Proof.
  intros l w0. unfold convert. unfold bind at 1. cbn [settings_or_new].
  unfold bind at 1. unfold lift at 1. fold l. fold w0.
  destruct (for_each resolve_name kwargs) as [resolved|e]; reflexivity.
Qed.

Lemma process_init_ok (w : world F) (l : ref) (p : ImageProcessor F) :
  ImageProcessor_init (ascii_converter.image_path (this w)) = Ok p ->
  process env l w = render env l (set_processor w p).
Proof.
  intros Hp. unfold process, bind at 1. unfold bind at 1. unfold lift.
  rewrite Hp. reflexivity.
Qed.

Lemma process_init_raise (w : world F) (l : ref) (e : exn) :
  ImageProcessor_init (F := F) (ascii_converter.image_path (this w)) = Raise e ->
  process env l w = (w, Raise e).
Proof.
  intros Hp. unfold process, bind at 1. unfold bind at 1. unfold lift.
  rewrite Hp. reflexivity.
Qed.

Lemma init_validated (path : image_file) :
  _validate_image path = Ok tt ->
  ImageProcessor_init (F := F) path = Ok (examples.fresh_processor path).
Proof. intros Hv. unfold ImageProcessor_init. rewrite Hv. reflexivity. Qed.

Lemma init_rejected (path : image_file) (e : exn) :
  _validate_image path = Raise e -> ImageProcessor_init (F := F) path = Raise e.
Proof. intros Hv. unfold ImageProcessor_init. rewrite Hv. reflexivity. Qed.

(** *** What the phases leave alone *)

Lemma keeps_path_bind {A B} (m : stmt (F := F) A) (k : A -> stmt (F := F) B) :
  keeps_path m -> (forall a, keeps_path (k a)) -> keeps_path (bind m k).
Proof.
  intros Hm Hk w. unfold bind. specialize (Hm w).
  destruct (m w) as [w1 [a|e]]; simpl in *; [|exact Hm].
  rewrite (Hk a w1). exact Hm.
Qed.

Lemma keeps_path_ret {A} (a : A) : keeps_path (ret (F := F) a).
Proof. intros w. reflexivity. Qed.

Lemma keeps_path_lift {A} (r : result A) : keeps_path (lift (F := F) r).
Proof. intros w. reflexivity. Qed.

Lemma keeps_path_when (c : bool) (m : stmt (F := F) unit) :
  keeps_path m -> keeps_path (when c m).
Proof. intros Hm. destruct c; [exact Hm | apply keeps_path_ret]. Qed.

Lemma keeps_path_read_settings : keeps_path (read_settings (F := F)).
Proof.
  intros w. unfold read_settings.
  destruct (settings (this w)) as [l|]; [|reflexivity].
  destruct (heap w !! l); reflexivity.
Qed.

Lemma keeps_path_read_processor : keeps_path (read_processor (F := F)).
Proof. intros w. unfold read_processor. destruct (processor (this w)); reflexivity. Qed.

Lemma keeps_path_call_processor
    (method : ImageProcessor F -> result (ImageProcessor F)) :
  keeps_path (call_processor method).
Proof.
  intros w. unfold call_processor.
  destruct (processor (this w)) as [p|]; [|reflexivity].
  destruct (method p); reflexivity.
Qed.

Lemma keeps_path_apply_preprocessing : keeps_path (_apply_preprocessing env).
Proof.
  unfold _apply_preprocessing.
  apply keeps_path_bind; [apply keeps_path_read_settings|]. intros s.
  repeat (apply keeps_path_bind;
          [first [apply keeps_path_when, keeps_path_call_processor
                 | apply keeps_path_call_processor] | intros _]).
  destruct (edge_detection s && negb (use_emoji s));
    [apply keeps_path_call_processor|].
  destruct (negb (use_emoji s));
    [apply keeps_path_call_processor | apply keeps_path_ret].
Qed.

Lemma keeps_path_generate_ascii : keeps_path (_generate_ascii env).
Proof.
  unfold _generate_ascii.
  apply keeps_path_bind; [apply keeps_path_read_settings|]. intros s.
  apply keeps_path_bind; [apply keeps_path_read_processor|]. intros p.
  destruct (shape (get_pixel_matrix env p)). apply keeps_path_lift.
Qed.

Lemma keeps_path_render (l : ref) : keeps_path (render env l).
Proof.
  unfold render.
  apply keeps_path_bind; [apply keeps_path_apply_preprocessing|]. intros _.
  apply keeps_path_bind; [apply keeps_path_generate_ascii|]. intros lines.
  apply keeps_path_bind; [apply keeps_path_read_settings|]. intros s.
  apply keeps_path_bind; [apply keeps_path_read_processor|]. intros p'.
  apply keeps_path_ret.
Qed.

Lemma heap_preserving_render (l : ref) : heap_preserving (render env l).
Proof.
  unfold render.
  apply heap_preserving_bind; [apply heap_preserving_apply_preprocessing|]. intros _.
  apply heap_preserving_bind; [apply heap_preserving_generate_ascii|]. intros lines.
  apply heap_preserving_bind; [apply heap_preserving_read_settings|]. intros s.
  apply heap_preserving_bind; [apply heap_preserving_read_processor|]. intros p'.
  apply heap_preserving_ret.
Qed.

Lemma heap_preserving_process (l : ref) : heap_preserving (process env l).
Proof.
  unfold process.
  apply heap_preserving_bind; [intros w; reflexivity|]. intros path.
  apply heap_preserving_bind; [apply heap_preserving_lift|]. intros p.
  apply heap_preserving_bind; [intros w; reflexivity|]. intros _.
  apply heap_preserving_render.
Qed.

(** *** Overrides written twice *)

(** Two records that a write of [kw] makes equal stay so under any other
    write before it. *)
Lemma setattr_absorbs (s s' : ConversionSettings F) (kw kw' : kwarg F) :
  setattr s kw = setattr s' kw ->
  setattr (setattr s kw') kw = setattr (setattr s' kw') kw.
Proof.
  destruct s, s';
    destruct kw as [| | [|] | [|] | | | | | | | [|] | | | | |];
    destruct kw' as [| | [|] | [|] | | | | | | | [|] | | | | |];
    cbn; intros E; injection E; intros; subst; reflexivity.
Qed.

Lemma setattr_twice (s : ConversionSettings F) (kw : kwarg F) :
  setattr (setattr s kw) kw = setattr s kw.
Proof.
  destruct s; destruct kw as [| | [|] | [|] | | | | | | | [|] | | | | |]; reflexivity.
Qed.

Lemma fold_setattr_absorbs (kws : list (kwarg F)) (s s' : ConversionSettings F)
    (kw : kwarg F) :
  setattr s kw = setattr s' kw ->
  setattr (fold_left setattr kws s) kw = setattr (fold_left setattr kws s') kw.
Proof.
  revert s s'. induction kws as [|kw' kws IH]; intros s s' E; [exact E|].
  cbn [fold_left]. apply IH. apply setattr_absorbs. exact E.
Qed.

(** Writing the same overrides a second time changes nothing. *)
Lemma fold_setattr_twice (kws : list (kwarg F)) (s : ConversionSettings F) :
  fold_left setattr kws (fold_left setattr kws s) = fold_left setattr kws s.
Proof.
  revert s. induction kws as [|kw kws IH] using rev_ind; intros s; [reflexivity|].
  rewrite !fold_left_app. cbn [fold_left].
  rewrite <- (IH s) at 2.
  apply fold_setattr_absorbs. apply setattr_twice.
Qed.

Lemma alter_overrides_twice (kws : list (kwarg F)) (l : ref)
    (h : gmap ref (ConversionSettings F)) :
  alter (fun s => fold_left setattr kws s) l
    (alter (fun s => fold_left setattr kws s) l h)
  = alter (fun s => fold_left setattr kws s) l h.
Proof.
  apply map_eq. intros l'. destruct (decide (l' = l)) as [->|Hne].
  - rewrite !lookup_alter_eq. destruct (h !! l) as [s|]; [|reflexivity].
    cbn. rewrite fold_setattr_twice. reflexivity.
  - rewrite !lookup_alter_ne by congruence. reflexivity.
Qed.

End convert_phases.

(** X15. [convert] is repeatable: a second call with the same settings
    object and the same keyword arguments, on the converter and the
    settings the first call left, returns the same result (the same
    artifact, or the same exception) and leaves the same state.  No
    assumption on the image file, the settings or the float arithmetic. *)
Theorem convert_twice_same_result :
  forall (F : Type) (HF : PyFloat F) (env : image_processor.PixelSource F)
         (w : ascii_converter.world F) (l : ascii_converter.ref)
         (kwargs : list (ascii_converter.kwarg F)),
    ascii_converter.convert env (Some l) kwargs
      (fst (ascii_converter.convert env (Some l) kwargs w))
    = ascii_converter.convert env (Some l) kwargs w.
Proof.
  intros F HF env w l kwargs.
  rewrite !convert_phases.
  destruct (for_each ascii_converter.resolve_name kwargs) as [resolved|e];
    [|reflexivity].
  set (W := phases.configured w l resolved).
  destruct (image_processor.ImageProcessor_init (F := F)
              (ascii_converter.image_path (ascii_converter.this W))) as [p|e] eqn:Hinit.
  - rewrite (process_init_ok env W l p Hinit).
    set (Wf := fst (phases.render env l (ascii_converter.set_processor W p))).
    assert (Hheap : ascii_converter.heap Wf = ascii_converter.heap W)
      by exact (heap_preserving_render env l (ascii_converter.set_processor W p)).
    assert (Hpath : ascii_converter.image_path (ascii_converter.this Wf)
                    = ascii_converter.image_path (ascii_converter.this W))
      by exact (keeps_path_render env l (ascii_converter.set_processor W p)).
    rewrite (process_init_ok env (phases.configured Wf l resolved) l p).
    + f_equal. unfold ascii_converter.set_processor, phases.configured.
      cbn [ascii_converter.heap ascii_converter.this ascii_converter.image_path
           ascii_converter.settings ascii_converter.processor].
      rewrite Hheap, Hpath. unfold W, phases.configured.
      cbn [ascii_converter.heap ascii_converter.this ascii_converter.image_path
           ascii_converter.settings ascii_converter.processor].
      rewrite alter_overrides_twice. reflexivity.
    + cbn [phases.configured ascii_converter.this ascii_converter.image_path].
      rewrite Hpath. exact Hinit.
  - rewrite (process_init_raise env W l e Hinit). cbn [fst].
    assert (E : phases.configured W l resolved = W).
    { unfold W, phases.configured.
      cbn [ascii_converter.heap ascii_converter.this ascii_converter.image_path
           ascii_converter.settings ascii_converter.processor].
      rewrite alter_overrides_twice. reflexivity. }
    rewrite E. apply (process_init_raise env W l e Hinit).
Qed.

(** ** The text of an artifact *)

Section rendering.
Import character_sets color_handler image_processor ascii_converter phases.

Lemma for_each_Forall2 {A B} (f : A -> result B) (xs : list A) (ys : list B) :
  for_each f xs = Ok ys -> Forall2 (fun x y => f x = Ok y) xs ys.
Proof.
  revert ys. induction xs as [|x xs IH]; intros ys Hys.
  - injection Hys as <-. constructor.
  - cbn [for_each] in Hys. destruct (f x) as [y|e] eqn:Hy; [|discriminate].
    cbn [mbind result_bind] in Hys.
    destruct (for_each f xs) as [ys'|e]; [|discriminate].
    injection Hys as <-. constructor; [exact Hy | apply IH; reflexivity].
Qed.

Lemma for_each_ext {A B} (f g : A -> result B) (xs : list A) :
  (forall x, x ∈ xs -> f x = g x) -> for_each f xs = for_each g xs.
Proof.
  induction xs as [|x xs IH]; intros Hfg; [reflexivity|].
  cbn [for_each]. rewrite (Hfg x) by left.
  rewrite IH; [reflexivity|]. intros x' Hx'. apply Hfg. right. exact Hx'.
Qed.

Lemma py_getitem_elem {A} (l : list A) (i : Z) (a : A) :
  py_getitem l i = Ok a -> a ∈ l.
Proof.
  unfold py_getitem. destruct (_ || _); [discriminate|].
  destruct (l !! _) as [a'|] eqn:E; [|discriminate].
  intros [= <-]. eapply list_elem_of_lookup_2. exact E.
Qed.

(** rows built one by one from a list of row numbers *)
Lemma Forall2_rows {A} (P : list glyph -> Prop) (ys : list A) (lines : list string) :
  Forall2 (fun _ line => exists row, line = String.concat EmptyString row /\ P row)
          ys lines ->
  exists rows, lines = map (String.concat EmptyString) rows
               /\ length rows = length ys /\ Forall P rows.
Proof.
  induction 1 as [|y line ys lines (row & -> & Hrow) _ (rows & -> & Hlen & Hall)].
  - exists []. repeat split. constructor.
  - exists (row :: rows). repeat split.
    + cbn [length]. rewrite Hlen. reflexivity.
    + constructor; assumption.
Qed.

Section any_arithmetic.
Context {F : Type} `{PyFloat F}.
Variable env : PixelSource F.

(** [_generate_ascii] on a working image of known size *)
Lemma generate_ascii_rows (w : world F) (l : ref) (s : ConversionSettings F)
    (p : ImageProcessor F) (wd ht : Z) :
  settings (this w) = Some l ->
  heap w !! l = Some s ->
  processor (this w) = Some p ->
  image_size (processed_image p) = (wd, ht) ->
  1 <= wd -> 1 <= ht ->
  _generate_ascii env w = (w, rows_of env s p wd ht).
Proof.
  intros Hl Hs Hp Hsz Hwd Hht.
  unfold _generate_ascii, bind, read_settings, read_processor.
  rewrite Hl, Hs, Hp.
  assert (Hshape : shape (get_pixel_matrix env p) = (ht, wd)).
  { unfold get_pixel_matrix.
    destruct (negb (is_mode_L (image_mode (processed_image p))));
      rewrite shape_np_array; cbn [image_size]; rewrite Hsz; cbn [fst snd];
      (replace (0 <? ht) with true by (symmetry; apply Z.ltb_lt; lia));
      f_equal; lia. }
  rewrite Hshape. reflexivity.
Qed.

(** The mapper's table, whichever selection reads it. *)
Lemma get_character_elem (m : CharacterMapper) (x : F) (ch : glyph) :
  get_character m x = Ok ch -> ch ∈ characters m.
Proof.
  unfold get_character. destruct (get_index m x) as [i|e]; [|discriminate].
  cbn [mbind result_bind]. apply py_getitem_elem.
Qed.

(** A cell of an uncolored conversion holds a glyph of the palette. *)
Lemma generate_cell_plain (s : ConversionSettings F) (gm : ndarray uint8)
    (cmo : option (ndarray (uint8 * uint8 * uint8))) (handler : ColorHandler)
    (y x : Z) (str : string) :
  color_mode s = NONE ->
  (color_emoji s = true -> is_Some cmo) ->
  generate_cell s gm cmo
    (CharacterMapper_init (charset s)
       (if ascii_converter.use_emoji s then Some (emoji_set s) else None)
       (ascii_converter.use_emoji s))
    handler y x = Ok str ->
  str ∈ shortcuts.palette s.
Proof.
  intros Hmode Hcm. unfold generate_cell, shortcuts.palette.
  destruct (at_yx gm y x) as [v|e]; [|discriminate].
  cbn [mbind result_bind]. rewrite Hmode.
  change (negb (ColorMode_eqb NONE NONE)) with false.
  destruct (ascii_converter.use_emoji s && color_emoji s) eqn:E.
  - apply andb_prop in E as [_ Ece]. destruct (Hcm Ece) as [cm ->].
    destruct (at_yx cm y x) as [[[r g] b]|e]; [|discriminate].
    cbn [mbind result_bind].
    destruct (get_colored_emoji _ _ _ _) as [ch|e] eqn:Hch; [|discriminate].
    cbn [mbind result_bind mret result_ret]. intros [= <-].
    apply (colored_emoji_square _ _ _ _ _ Hch).
  - assert (Hsel : forall ch : glyph,
              (if invert s
               then get_inverted_character
                      (CharacterMapper_init (charset s)
                         (if ascii_converter.use_emoji s then Some (emoji_set s) else None)
                         (ascii_converter.use_emoji s))
                      (float_of_int (uint8_value v))
               else get_character
                      (CharacterMapper_init (charset s)
                         (if ascii_converter.use_emoji s then Some (emoji_set s) else None)
                         (ascii_converter.use_emoji s))
                      (float_of_int (uint8_value v))) = Ok ch ->
              ch ∈ characters
                     (CharacterMapper_init (charset s)
                        (if ascii_converter.use_emoji s then Some (emoji_set s) else None)
                        (ascii_converter.use_emoji s))).
    { intros ch. destruct (invert s); apply get_character_elem. }
    destruct cmo as [cm|].
    + destruct (if invert s then _ else _) as [ch|e] eqn:Hch; [|discriminate].
      cbn [mbind result_bind mret result_ret]. intros [= <-]. apply Hsel. reflexivity.
    + destruct (if invert s then _ else _) as [ch|e] eqn:Hch; [|discriminate].
      cbn [mbind result_bind mret result_ret]. intros [= <-]. apply Hsel. reflexivity.
Qed.

(** The rows of an uncolored conversion form a grid over the palette. *)
Lemma rows_of_grid (s : ConversionSettings F) (p : ImageProcessor F)
    (wd ht : Z) (lines : list string) :
  color_mode s = NONE -> 0 <= wd -> 0 <= ht ->
  rows_of env s p wd ht = Ok lines ->
  exists rows : list (list glyph),
    lines = map (String.concat EmptyString) rows
    /\ Z.of_nat (length rows) = ht
    /\ Forall (fun row => Z.of_nat (length row) = wd
                          /\ Forall (fun g => g ∈ shortcuts.palette s) row) rows.
Proof.
  intros Hmode Hwd Hht Hrows. unfold rows_of in Hrows.
  apply for_each_Forall2 in Hrows.
  destruct (Forall2_rows
              (fun row => Z.of_nat (length row) = wd
                          /\ Forall (fun g => g ∈ shortcuts.palette s) row)
              (range ht) lines) as (rows & Hlines & Hlen & Hall).
  - eapply Forall2_impl; [exact Hrows|]. intros y line Hline. cbv beta in Hline.
    destruct (for_each _ (range wd)) as [cs|e] eqn:Hcs; [|discriminate].
    cbn [mbind result_bind mret result_ret] in Hline.
    rewrite Hmode in Hline. change (is_html NONE) with false in Hline.
    injection Hline as <-. exists cs. split; [reflexivity|].
    apply for_each_Forall2 in Hcs. split.
    + apply Forall2_length in Hcs. unfold glyph. rewrite <- Hcs, length_range. lia.
    + eapply Forall2_Forall_r; [exact Hcs|].
      apply Forall_forall. intros x _ c Hc.
      eapply generate_cell_plain; [exact Hmode | | exact Hc].
      intros Hce. unfold color_matrix_for. rewrite Hce, orb_true_r.
      eexists; reflexivity.
  - exists rows. split; [exact Hlines|]. split; [|exact Hall].
    unfold glyph in *. rewrite Hlen, length_range. lia.
Qed.

Hypothesis Htotal : pixel_domain.pixel_total F.

(** The rendering phase on a processor whose image has size [(ow, oh)],
    once the height computation of the resize returns. *)
Lemma render_run (w : world F) (l : ref) (s : ConversionSettings F)
    (p : ImageProcessor F) (ow oh h : Z) :
  settings (this w) = Some l ->
  heap w !! l = Some s ->
  processor (this w) = Some p ->
  image_size (processed_image p) = (ow, oh) ->
  design.requested_height s ow oh = Ok h ->
  exists p' lines,
    design.run_stages env s (design.pipeline s) p = Ok p'
    /\ original_image p' = original_image p
    /\ image_size (processed_image p') = (Z.max 1 (width s), Z.max 1 h)
    /\ rows_of env s p' (Z.max 1 (width s)) (Z.max 1 h) = Ok lines
    /\ render env l w
       = (set_processor w p',
          Ok {| ASCIIArt.art :=
                  wrap_output {| mode := color_mode s |}
                    (String.concat newline lines) (ascii_converter.use_emoji s);
                ASCIIArt.width := Z.max 1 (width s);
                ASCIIArt.height := Z.max 1 h;
                ASCIIArt.colored := negb (ColorMode_eqb (color_mode s) NONE);
                ASCIIArt.is_emoji := ascii_converter.use_emoji s;
                ASCIIArt.settings := l |}).
Proof.
  intros Hl Hs Hp Hsz Hh.
  destruct (run_pipeline env s p ow oh h Hsz Hh) as (p' & Hrun & Horig & _ & Hsz').
  pose proof (apply_preprocessing_stages env w l s p Hl Hs Hp) as Hpre.
  rewrite Hrun in Hpre.
  set (w2 := set_processor w p') in *.
  assert (Hl2 : settings (this w2) = Some l) by exact Hl.
  assert (Hs2 : heap w2 !! l = Some s) by exact Hs.
  assert (Hp2 : processor (this w2) = Some p') by reflexivity.
  destruct (generate_ascii_ok env Htotal w2 l s p' (Z.max 1 (width s)) (Z.max 1 h)
              Hl2 Hs2 Hp2 Hsz' ltac:(lia) ltac:(lia))
    as (lines & Hgen & _).
  pose proof (generate_ascii_rows w2 l s p' _ _ Hl2 Hs2 Hp2 Hsz' ltac:(lia) ltac:(lia))
    as Hrows.
  rewrite Hgen in Hrows. injection Hrows as Hrows.
  exists p', lines. split; [exact Hrun|]. split; [exact Horig|].
  split; [exact Hsz'|]. split; [symmetry; exact Hrows|].
  unfold render.
  rewrite (bind_ok _ _ w w2 tt) by exact Hpre.
  rewrite (bind_ok _ _ w2 w2 lines) by exact Hgen.
  rewrite (bind_ok _ _ w2 w2 s).
  2:{ unfold read_settings. rewrite Hl2, Hs2. reflexivity. }
  rewrite (bind_ok _ _ w2 w2 p') by reflexivity.
  unfold ret, size. rewrite Hsz'. reflexivity.
Qed.

End any_arithmetic.
End rendering.

Section conversion_runs.
Import character_sets color_handler image_processor ascii_converter phases.
Context {F : Type} `{PyFloat F}.
Variable env : PixelSource F.

Lemma configured_lookup (w : world F) (l : ref) (resolved : list (kwarg F)) :
  heap (configured w l resolved) !! l
  = fold_left setattr resolved <$> (heap w !! l).
Proof. unfold configured. cbn [heap]. rewrite lookup_alter_eq. reflexivity. Qed.

Hypothesis Htotal : pixel_domain.pixel_total F.

(** The processing phase for a supported image file of size [(ow, oh)],
    once the height computation of the resize returns. *)
Lemma process_run (w : world F) (l : ref) (s : ConversionSettings F) (ow oh h : Z) :
  settings (this w) = Some l ->
  heap w !! l = Some s ->
  _validate_image (ascii_converter.image_path (this w)) = Ok tt ->
  file_size (ascii_converter.image_path (this w)) = (ow, oh) ->
  design.requested_height s ow oh = Ok h ->
  exists p' lines,
    design.run_stages env s (design.pipeline s)
      (examples.fresh_processor (ascii_converter.image_path (this w))) = Ok p'
    /\ original_image p'
       = PIL_convert mode_RGB (PIL_open (ascii_converter.image_path (this w)))
    /\ image_size (processed_image p') = (Z.max 1 (width s), Z.max 1 h)
    /\ rows_of env s p' (Z.max 1 (width s)) (Z.max 1 h) = Ok lines
    /\ process env l w
       = (set_processor w p',
          Ok {| ASCIIArt.art :=
                  wrap_output {| mode := color_mode s |}
                    (String.concat newline lines) (ascii_converter.use_emoji s);
                ASCIIArt.width := Z.max 1 (width s);
                ASCIIArt.height := Z.max 1 h;
                ASCIIArt.colored := negb (ColorMode_eqb (color_mode s) NONE);
                ASCIIArt.is_emoji := ascii_converter.use_emoji s;
                ASCIIArt.settings := l |}).
Proof.
  intros Hl Hs Hvalid Hsize Hh.
  set (path := ascii_converter.image_path (this w)) in *.
  set (p0 := examples.fresh_processor (F := F) path).
  rewrite (process_init_ok env w l p0 (init_validated path Hvalid)).
  destruct (render_run env Htotal (set_processor w p0) l s p0 ow oh h
              Hl Hs eq_refl Hsize Hh)
    as (p' & lines & Hrun & Horig & Hsz & Hrows & Hrender).
  exists p', lines. split; [exact Hrun|]. split; [exact Horig|].
  split; [exact Hsz|]. split; [exact Hrows|].
  rewrite Hrender. reflexivity.
Qed.

End conversion_runs.

(** X16. The text of an uncolored conversion is a grid: for a supported
    image file, settings (after the overrides) with color mode NONE, and a
    float arithmetic that is total on the pixel domain, [convert] returns
    an artifact whose text is exactly [height] lines of exactly [width]
    glyphs, every glyph taken from the selected table (or from the eight
    color squares when the color classification is on), and whose [width]
    and [height] are the clamped ones. *)
Theorem convert_plain_text_is_grid :
  forall (F : Type) (HF : PyFloat F) (env : image_processor.PixelSource F)
         (w : ascii_converter.world F) (l : ascii_converter.ref)
         (s0 : ascii_converter.ConversionSettings F)
         (kwargs resolved : list (ascii_converter.kwarg F)) (ow oh h : Z),
    pixel_domain.pixel_total F ->
    ascii_converter.heap w !! l = Some s0 ->
    for_each ascii_converter.resolve_name kwargs = Ok resolved ->
    let s := fold_left ascii_converter.setattr resolved s0 in
    ascii_converter.color_mode s = color_handler.NONE ->
    image_processor._validate_image
      (ascii_converter.image_path (ascii_converter.this w)) = Ok tt ->
    image_processor.file_size
      (ascii_converter.image_path (ascii_converter.this w)) = (ow, oh) ->
    design.requested_height s ow oh = Ok h ->
    exists w' a,
      ascii_converter.convert env (Some l) kwargs w = (w', Ok a)
      /\ ascii_converter.ASCIIArt.width a = Z.max 1 (ascii_converter.width s)
      /\ ascii_converter.ASCIIArt.height a = Z.max 1 h
      /\ ascii_converter.ASCIIArt.colored a = false
      /\ shortcuts.is_grid (shortcuts.palette s)
           (ascii_converter.ASCIIArt.width a) (ascii_converter.ASCIIArt.height a)
           (ascii_converter.ASCIIArt.art a).
Proof.
  intros F HF env w l s0 kwargs resolved ow oh h Htotal Hs0 Hres s Hmode
         Hvalid Hsize Hh.
  rewrite convert_phases, Hres.
  set (W := phases.configured w l resolved).
  assert (HsW : ascii_converter.heap W !! l = Some s).
  { unfold W. rewrite configured_lookup, Hs0. reflexivity. }
  destruct (process_run env Htotal W l s ow oh h eq_refl HsW Hvalid Hsize Hh)
    as (p' & lines & _ & _ & _ & Hrows & Hrun).
  eexists _, _. split; [exact Hrun|].
  cbn [ascii_converter.ASCIIArt.width ascii_converter.ASCIIArt.height
       ascii_converter.ASCIIArt.colored ascii_converter.ASCIIArt.art].
  split; [reflexivity|]. split; [reflexivity|].
  split; [rewrite Hmode; reflexivity|].
  destruct (rows_of_grid env s p' (Z.max 1 (ascii_converter.width s)) (Z.max 1 h)
              lines Hmode ltac:(lia) ltac:(lia) Hrows)
    as (rows & Hlines & Hlen & Hall).
  exists rows. rewrite Hmode.
  change (color_handler.wrap_output {| color_handler.mode := color_handler.NONE |}
            (String.concat newline lines) (ascii_converter.use_emoji s))
    with (String.concat newline lines).
  rewrite Hlines. split; [reflexivity|]. split; [exact Hlen | exact Hall].
Qed.

Lemma convert_plain_text_is_grid_witness :
  let s := examples.settings_of_width (F := spec_float) 4 in
  let w := examples.caller_world (examples.png 8 8) s in
  exists w' a,
    ascii_converter.convert examples.flat_gray (Some examples.the_settings) [] w
    = (w', Ok a)
    /\ ascii_converter.ASCIIArt.width a = Z.max 1 (ascii_converter.width s)
    /\ ascii_converter.ASCIIArt.height a = Z.max 1 2
    /\ ascii_converter.ASCIIArt.colored a = false
    /\ shortcuts.is_grid (shortcuts.palette s)
         (ascii_converter.ASCIIArt.width a) (ascii_converter.ASCIIArt.height a)
         (ascii_converter.ASCIIArt.art a).
Proof.
  intros s w.
  assert (Hs : ascii_converter.heap w !! examples.the_settings = Some s) by reflexivity.
  assert (Hres : for_each (ascii_converter.resolve_name (F := spec_float)) [] = Ok [])
    by reflexivity.
  assert (Hmode : ascii_converter.color_mode (fold_left ascii_converter.setattr [] s)
                  = color_handler.NONE) by reflexivity.
  assert (Hvalid : image_processor._validate_image
                     (ascii_converter.image_path (ascii_converter.this w)) = Ok tt)
    by reflexivity.
  assert (Hsize : image_processor.file_size
                    (ascii_converter.image_path (ascii_converter.this w)) = (8, 8))
    by reflexivity.
  assert (Hh : design.requested_height (fold_left ascii_converter.setattr [] s) 8 8 = Ok 2)
    by (vm_compute; reflexivity).
  exact (convert_plain_text_is_grid spec_float binary64 examples.flat_gray w
           examples.the_settings s [] [] 8 8 2 pixel_total_binary64
           Hs Hres Hmode Hvalid Hsize Hh).
Defined.

(** ** Emoji under the terminal color modes *)

Section uncolored_variant.
Import character_sets color_handler image_processor ascii_converter phases.
Context {F : Type} `{PyFloat F}.
Variable env : PixelSource F.

(** the same settings with color mode NONE *)
Lemma uncolored_fields (s : ConversionSettings F) :
  let s' := setattr s (kw_color_mode (member NONE)) in
  color_mode s' = NONE
  /\ width s' = width s /\ height s' = height s /\ charset s' = charset s
  /\ invert s' = invert s /\ ascii_converter.use_emoji s' = ascii_converter.use_emoji s
  /\ emoji_set s' = emoji_set s /\ color_emoji s' = color_emoji s.
Proof. destruct s. cbn. repeat split. Qed.

Lemma uncolored_run_stages (s : ConversionSettings F) (sts : list design.stage)
    (p : ImageProcessor F) :
  design.run_stages env (setattr s (kw_color_mode (member NONE))) sts p
  = design.run_stages env s sts p.
Proof.
  revert p. induction sts as [|st sts IH]; intros p; [reflexivity|].
  cbn [design.run_stages].
  assert (E : design.run_stage env (setattr s (kw_color_mode (member NONE))) st p
              = design.run_stage env s st p) by (destruct s, st; reflexivity).
  rewrite E. destruct (design.run_stage env s st p); [apply IH | reflexivity].
Qed.

Lemma uncolored_pipeline (s : ConversionSettings F) :
  design.pipeline (setattr s (kw_color_mode (member NONE))) = design.pipeline s.
Proof. destruct s. reflexivity. Qed.

Lemma uncolored_requested_height (s : ConversionSettings F) (ow oh : Z) :
  design.requested_height (setattr s (kw_color_mode (member NONE))) ow oh
  = design.requested_height s ow oh.
Proof. destruct s. reflexivity. Qed.

(** An emoji cell under ANSI or ANSI_BG is the cell of the uncolored
    conversion. *)
Lemma generate_cell_emoji_ansi (s : ConversionSettings F) (gm : ndarray uint8)
    (cm : ndarray (uint8 * uint8 * uint8)) (mapper : CharacterMapper) (y x : Z) :
  ascii_converter.use_emoji s = true ->
  color_mode s = ANSI \/ color_mode s = ANSI_BG ->
  (exists c, at_yx cm y x = Ok c) ->
  generate_cell s gm (Some cm) mapper {| mode := color_mode s |} y x
  = generate_cell (setattr s (kw_color_mode (member NONE))) gm
      (if color_emoji s then Some cm else None) mapper {| mode := NONE |} y x.
Proof.
  intros Hemo Hmode [[[r g] b] Hc].
  destruct (uncolored_fields s) as (Hm' & _ & _ & _ & Hinv' & Hemo' & _ & Hce').
  unfold generate_cell. rewrite Hm', Hinv', Hemo', Hce', Hemo.
  destruct (at_yx gm y x) as [v|e]; [|reflexivity].
  cbn [mbind result_bind andb].
  change (negb (ColorMode_eqb NONE NONE)) with false.
  assert (Hneg : negb (ColorMode_eqb (color_mode s) NONE) = true)
    by (destruct Hmode as [-> | ->]; reflexivity).
  rewrite Hneg.
  assert (Hfmt : forall ch : string,
            format_emoji {| mode := color_mode s |} ch
              (Some {| r := uint8_value r; g := uint8_value g; b := uint8_value b |})
            = ch)
    by (intros ch; destruct Hmode as [-> | ->]; reflexivity).
  destruct (color_emoji s).
  - rewrite Hc. cbn [mbind result_bind].
    destruct (get_colored_emoji mapper _ _ _) as [ch|e]; [|reflexivity].
    cbn [mbind result_bind mret result_ret]. rewrite Hfmt. reflexivity.
  - destruct (if invert s then _ else _) as [ch|e]; [|reflexivity].
    cbn [mbind result_bind mret result_ret]. rewrite Hc.
    cbn [mbind result_bind mret result_ret]. rewrite Hfmt. reflexivity.
Qed.

(** So are the rows. *)
Lemma rows_of_emoji_ansi (s : ConversionSettings F) (p : ImageProcessor F)
    (wd ht : Z) :
  ascii_converter.use_emoji s = true ->
  color_mode s = ANSI \/ color_mode s = ANSI_BG ->
  image_size (processed_image p) = (wd, ht) ->
  rows_of env s p wd ht
  = rows_of env (setattr s (kw_color_mode (member NONE))) p wd ht.
Proof.
  intros Hemo Hmode Hsz.
  destruct (uncolored_fields s) as (Hm' & _ & _ & Hcs' & _ & Hemo' & Hes' & Hce').
  unfold rows_of. rewrite Hm', Hcs', Hemo', Hes'.
  assert (Hcm : color_matrix_for env s p = Some (get_color_matrix env p)).
  { unfold color_matrix_for. destruct Hmode as [-> | ->]; reflexivity. }
  assert (Hcm' : color_matrix_for env (setattr s (kw_color_mode (member NONE))) p
                 = if color_emoji s then Some (get_color_matrix env p) else None).
  { unfold color_matrix_for. rewrite Hm', Hce'. reflexivity. }
  rewrite Hcm, Hcm'.
  assert (Hhtml : is_html (color_mode s) = false)
    by (destruct Hmode as [-> | ->]; reflexivity).
  rewrite Hhtml. change (is_html NONE) with false. cbv iota.
  apply for_each_ext. intros y Hy. apply range_inv in Hy.
  match goal with
  | |- (for_each ?f ?xs ≫= _) = (for_each ?g _ ≫= _) =>
      rewrite (for_each_ext f g xs); [reflexivity|]
  end.
  intros x Hx. apply range_inv in Hx.
  apply generate_cell_emoji_ansi; [exact Hemo | exact Hmode |].
  eexists. unfold get_color_matrix.
  apply (at_yx_np_array _ _ wd ht); [exact Hsz | lia | lia].
Qed.

End uncolored_variant.

(** X17. Emoji output ignores the terminal color modes: for settings with
    [use_emoji] and color mode ANSI or ANSI_BG, [convert] returns the same
    text, of the same width and height, as the call that overrides the
    color mode with NONE; only the [colored] flag differs.  No escape
    sequence is written around an emoji. *)
Theorem emoji_text_ignores_ansi_modes :
  forall (F : Type) (HF : PyFloat F) (env : image_processor.PixelSource F)
         (w : ascii_converter.world F) (l : ascii_converter.ref)
         (s : ascii_converter.ConversionSettings F) (ow oh h : Z),
    pixel_domain.pixel_total F ->
    ascii_converter.heap w !! l = Some s ->
    ascii_converter.use_emoji s = true ->
    ascii_converter.color_mode s = color_handler.ANSI
    \/ ascii_converter.color_mode s = color_handler.ANSI_BG ->
    image_processor._validate_image
      (ascii_converter.image_path (ascii_converter.this w)) = Ok tt ->
    image_processor.file_size
      (ascii_converter.image_path (ascii_converter.this w)) = (ow, oh) ->
    design.requested_height s ow oh = Ok h ->
    exists w1 a1 w2 a2,
      ascii_converter.convert env (Some l) [] w = (w1, Ok a1)
      /\ ascii_converter.convert env (Some l)
           [ascii_converter.kw_color_mode (ascii_converter.member color_handler.NONE)] w
         = (w2, Ok a2)
      /\ ascii_converter.ASCIIArt.art a1 = ascii_converter.ASCIIArt.art a2
      /\ ascii_converter.ASCIIArt.width a1 = ascii_converter.ASCIIArt.width a2
      /\ ascii_converter.ASCIIArt.height a1 = ascii_converter.ASCIIArt.height a2
      /\ ascii_converter.ASCIIArt.colored a1 = true
      /\ ascii_converter.ASCIIArt.colored a2 = false.
Proof.
  intros F HF env w l s ow oh h Htotal Hs Hemo Hmode Hvalid Hsize Hh.
  set (kw := ascii_converter.kw_color_mode (F := F)
               (ascii_converter.member color_handler.NONE)).
  set (s' := ascii_converter.setattr s kw).
  destruct (uncolored_fields s) as (Hm' & Hw' & _ & _ & _ & Hemo' & _ & _).
  fold kw in Hm', Hw', Hemo'. fold s' in Hm', Hw', Hemo'.
  rewrite !convert_phases.
  change (for_each ascii_converter.resolve_name []) with (Ok (@nil (ascii_converter.kwarg F))).
  change (for_each ascii_converter.resolve_name [kw]) with (Ok [kw]).
  cbv iota.
  set (W1 := phases.configured w l []).
  set (W2 := phases.configured w l [kw]).
  assert (Hs1 : ascii_converter.heap W1 !! l = Some s).
  { unfold W1. rewrite configured_lookup, Hs. reflexivity. }
  assert (Hs2 : ascii_converter.heap W2 !! l = Some s').
  { unfold W2. rewrite configured_lookup, Hs. reflexivity. }
  destruct (process_run env Htotal W1 l s ow oh h eq_refl Hs1 Hvalid Hsize Hh)
    as (p1 & lines1 & Hp1 & _ & Hsz1 & Hrows1 & Hrun1).
  assert (Hh' : design.requested_height s' ow oh = Ok h).
  { unfold s', kw. rewrite uncolored_requested_height. exact Hh. }
  destruct (process_run env Htotal W2 l s' ow oh h eq_refl Hs2 Hvalid Hsize Hh')
    as (p2 & lines2 & Hp2 & _ & Hsz2 & Hrows2 & Hrun2).
  assert (Hp : p2 = p1).
  { unfold s', kw in Hp2. rewrite uncolored_pipeline, uncolored_run_stages in Hp2.
    change (ascii_converter.image_path (ascii_converter.this W2))
      with (ascii_converter.image_path (ascii_converter.this W1)) in Hp2.
    congruence. }
  subst p2.
  assert (Hlines : lines2 = lines1).
  { rewrite Hw' in Hrows2.
    rewrite (rows_of_emoji_ansi env s p1 _ _ Hemo Hmode Hsz1) in Hrows1.
    fold kw in Hrows1. fold s' in Hrows1. congruence. }
  subst lines2.
  eexists _, _, _, _. split; [exact Hrun1|]. split; [exact Hrun2|].
  cbn [ascii_converter.ASCIIArt.width ascii_converter.ASCIIArt.height
       ascii_converter.ASCIIArt.colored ascii_converter.ASCIIArt.art].
  rewrite Hm', Hw', Hemo'.
  split.
  - destruct Hmode as [-> | ->]; reflexivity.
  - split; [reflexivity|]. split; [reflexivity|].
    split; [destruct Hmode as [-> | ->]; reflexivity | reflexivity].
Qed.

Lemma emoji_text_ignores_ansi_modes_witness :
  let s := ascii_converter.setattr
             (ascii_converter.setattr
                (examples.settings_of_width (F := spec_float) 4)
                (ascii_converter.kw_use_emoji true))
             (ascii_converter.kw_color_mode (ascii_converter.member color_handler.ANSI)) in
  let w := examples.caller_world (examples.png 8 8) s in
  exists w1 a1 w2 a2,
    ascii_converter.convert examples.flat_gray (Some examples.the_settings) [] w
    = (w1, Ok a1)
    /\ ascii_converter.convert examples.flat_gray (Some examples.the_settings)
         [ascii_converter.kw_color_mode (ascii_converter.member color_handler.NONE)] w
       = (w2, Ok a2)
    /\ ascii_converter.ASCIIArt.art a1 = ascii_converter.ASCIIArt.art a2
    /\ ascii_converter.ASCIIArt.width a1 = ascii_converter.ASCIIArt.width a2
    /\ ascii_converter.ASCIIArt.height a1 = ascii_converter.ASCIIArt.height a2
    /\ ascii_converter.ASCIIArt.colored a1 = true
    /\ ascii_converter.ASCIIArt.colored a2 = false.
Proof.
  intros s w.
  assert (Hs : ascii_converter.heap w !! examples.the_settings = Some s) by reflexivity.
  assert (Hemo : ascii_converter.use_emoji s = true) by reflexivity.
  assert (Hmode : ascii_converter.color_mode s = color_handler.ANSI
                  \/ ascii_converter.color_mode s = color_handler.ANSI_BG)
    by (left; reflexivity).
  assert (Hvalid : image_processor._validate_image
                     (ascii_converter.image_path (ascii_converter.this w)) = Ok tt)
    by reflexivity.
  assert (Hsize : image_processor.file_size
                    (ascii_converter.image_path (ascii_converter.this w)) = (8, 8))
    by reflexivity.
  assert (Hh : design.requested_height s 8 8 = Ok 4) by (vm_compute; reflexivity).
  exact (emoji_text_ignores_ansi_modes spec_float binary64 examples.flat_gray w
           examples.the_settings s 8 8 4 pixel_total_binary64
           Hs Hemo Hmode Hvalid Hsize Hh).
Defined.

(** ** Failures, fresh settings, previews *)

Section conversion_edges.
Import character_sets color_handler image_processor ascii_converter phases.
Context {F : Type} `{PyFloat F}.
Variable env : PixelSource F.

(** A rejected image file stops [convert] after the overrides. *)
Lemma convert_rejected (w : world F) (l : ref) (kwargs resolved : list (kwarg F))
    (e : exn) :
  for_each resolve_name kwargs = Ok resolved ->
  _validate_image (ascii_converter.image_path (this w)) = Raise e ->
  convert env (Some l) kwargs w = (configured w l resolved, Raise e).
Proof.
  intros Hres Hval. rewrite convert_phases, Hres.
  apply process_init_raise. apply init_rejected. exact Hval.
Qed.

(** The artifact of the processing phase refers to the settings object
    it was given. *)
Lemma process_settings (w : world F) (l : ref) (a : ASCIIArt.t) :
  snd (process env l w) = Ok a -> ASCIIArt.settings a = l.
Proof.
  unfold process, bind at 1. unfold bind at 1. unfold lift.
  destruct (ImageProcessor_init _) as [p|e]; [|discriminate].
  unfold bind at 1. cbn [assign_processor].
  unfold render, bind.
  destruct (_apply_preprocessing env _) as [w1 [[]|e]]; [|discriminate].
  destruct (_generate_ascii env w1) as [w2 [lines|e]]; [|discriminate].
  destruct (read_settings w2) as [w3 [s|e]]; [|discriminate].
  destruct (read_processor w3) as [w4 [p'|e]]; [|discriminate].
  cbn [ret snd]. intros [= <-]. reflexivity.
Qed.

(** The operations of the pipeline change the working image only. *)
Lemma run_stage_working_image (s : ConversionSettings F) (st : design.stage)
    (p p' : ImageProcessor F) :
  design.run_stage env s st p = Ok p' -> p' = with_processed p (processed_image p').
Proof.
  destruct st; simpl;
    unfold image_processor.denoise, image_processor.edge_detection, resize;
    try destruct (HAS_OPENCV env); try (intros [= <-]; reflexivity).
  all: destruct (image_size (processed_image p)) as [ow oh].
  all: destruct (bool_decide (height s = None)).
  all: try (destruct (height s); cbn [mbind result_bind mret result_ret];
            intros [= <-]; reflexivity).
  all: destruct (int_truediv oh ow) as [a|e]; cbn [mbind result_bind]; [|discriminate].
  all: destruct (int_of_float _) as [h|e]; cbn [mbind result_bind mret result_ret];
    [|discriminate].
  all: intros [= <-]; reflexivity.
Qed.

Lemma run_stages_working_image (s : ConversionSettings F) (sts : list design.stage)
    (p p' : ImageProcessor F) :
  design.run_stages env s sts p = Ok p' -> p' = with_processed p (processed_image p').
Proof.
  revert p. induction sts as [|st sts IH]; intros p; simpl.
  - intros [= <-]. destruct p; reflexivity.
  - destruct (design.run_stage env s st p) as [p1|e] eqn:E1;
      cbn [mbind result_bind]; [|discriminate].
    intros Hrest. rewrite (IH p1 Hrest) at 1.
    rewrite (run_stage_working_image s st p p1 E1). reflexivity.
Qed.

End conversion_edges.

(** X18. The order of the failures of [convert(settings, ...)].  An
    invalid color-mode name raises first, and nothing has changed then.
    Otherwise a missing image file raises FileNotFoundError and an
    unsupported suffix ValueError, but only after the overrides were
    written into the caller's settings object and [self.settings] was
    assigned; [self.processor] is still the one of the previous call. *)
Theorem convert_failure_order :
  forall (F : Type) (HF : PyFloat F) (env : image_processor.PixelSource F)
         (w : ascii_converter.world F) (l : ascii_converter.ref)
         (s : ascii_converter.ConversionSettings F)
         (kwargs : list (ascii_converter.kwarg F)),
    ascii_converter.heap w !! l = Some s ->
    let path := ascii_converter.image_path (ascii_converter.this w) in
    let run := ascii_converter.convert env (Some l) kwargs w in
    let rejected (resolved : list (ascii_converter.kwarg F)) (e : exn) :=
      snd run = Raise e
      /\ ascii_converter.heap (fst run) !! l
         = Some (fold_left ascii_converter.setattr resolved s)
      /\ ascii_converter.settings (ascii_converter.this (fst run)) = Some l
      /\ ascii_converter.processor (ascii_converter.this (fst run))
         = ascii_converter.processor (ascii_converter.this w) in
    (forall e, for_each ascii_converter.resolve_name kwargs = Raise e ->
               e = ValueError /\ run = (w, Raise e))
    /\ (forall resolved,
          for_each ascii_converter.resolve_name kwargs = Ok resolved ->
          image_processor.file_exists path = false ->
          rejected resolved FileNotFoundError)
    /\ (forall resolved,
          for_each ascii_converter.resolve_name kwargs = Ok resolved ->
          image_processor.file_exists path = true ->
          existsb (String.eqb (lower (image_processor.file_suffix path)))
                  image_processor.SUPPORTED_FORMATS = false ->
          rejected resolved ValueError).
Proof.
  intros F HF env w l s kwargs Hs path run rejected.
  assert (Hrej : forall resolved e,
            for_each ascii_converter.resolve_name kwargs = Ok resolved ->
            image_processor._validate_image path = Raise e ->
            rejected resolved e).
  { intros resolved e Hres Hval. unfold rejected, run.
    rewrite (convert_rejected env w l kwargs resolved e Hres Hval).
    cbn [fst snd]. rewrite configured_lookup, Hs.
    repeat split. }
  split; [|split].
  - intros e He. split.
    + clear - He. induction kwargs as [|kw kwargs IH]; [discriminate He|].
      cbn [for_each] in He.
      destruct (ascii_converter.resolve_name kw) as [kw'|e'] eqn:Hkw.
      * cbn [mbind result_bind] in He.
        destruct (for_each ascii_converter.resolve_name kwargs) as [r|e''];
          [discriminate He|].
        injection He as <-. apply IH. reflexivity.
      * injection He as <-.
        destruct kw as [| | [|] | [|n] | | | | | | | [|] | | | | |];
          try discriminate Hkw.
        cbn [ascii_converter.resolve_name] in Hkw.
        unfold color_handler.ColorMode_of_value in Hkw.
        repeat match type of Hkw with
               | context [if ?c then _ else _] => destruct c
               end;
          try discriminate Hkw.
        injection Hkw as <-. reflexivity.
    + unfold run. rewrite convert_phases, He. reflexivity.
  - intros resolved Hres Hex. apply Hrej; [exact Hres|].
    unfold image_processor._validate_image. rewrite Hex. reflexivity.
  - intros resolved Hres Hex Hsuf. apply Hrej; [exact Hres|].
    unfold image_processor._validate_image. rewrite Hex, Hsuf. reflexivity.
Qed.

Lemma convert_failure_order_witness :
  let path := {| image_processor.file_exists := false;
                 image_processor.file_suffix := ".png";
                 image_processor.file_size := (8, 8) |} in
  let s := ascii_converter.ConversionSettings_default (F := spec_float) in
  let w := examples.caller_world path s in
  let run := ascii_converter.convert examples.flat_gray (Some examples.the_settings)
               [ascii_converter.kw_width 20] w in
  snd run = Raise FileNotFoundError
  /\ ascii_converter.heap (fst run) !! examples.the_settings
     = Some (fold_left ascii_converter.setattr [ascii_converter.kw_width 20] s)
  /\ ascii_converter.settings (ascii_converter.this (fst run))
     = Some examples.the_settings
  /\ ascii_converter.processor (ascii_converter.this (fst run))
     = ascii_converter.processor (ascii_converter.this w).
Proof.
  intros path s w run.
  assert (Hs : ascii_converter.heap w !! examples.the_settings = Some s) by reflexivity.
  assert (Hres : for_each (ascii_converter.resolve_name (F := spec_float))
                   [ascii_converter.kw_width 20] = Ok [ascii_converter.kw_width 20])
    by reflexivity.
  assert (Hex : image_processor.file_exists
                  (ascii_converter.image_path (ascii_converter.this w)) = false)
    by reflexivity.
  exact (proj1 (proj2 (convert_failure_order spec_float binary64 examples.flat_gray w
                         examples.the_settings s [ascii_converter.kw_width 20] Hs))
           [ascii_converter.kw_width 20] Hres Hex).
Defined.

(** X19. [convert] called without a settings object starts from the
    defaults every time: it allocates a new record, which after the call
    holds [ConversionSettings()] with the overrides written into it, the
    artifact refers to that record, and no record the program already
    holds is changed.  Overrides of earlier calls do not carry over. *)
Theorem convert_without_settings_starts_from_defaults :
  forall (F : Type) (HF : PyFloat F) (env : image_processor.PixelSource F)
         (w : ascii_converter.world F)
         (kwargs resolved : list (ascii_converter.kwarg F)),
    for_each ascii_converter.resolve_name kwargs = Ok resolved ->
    let l := fresh (dom (ascii_converter.heap w)) in
    let run := ascii_converter.convert env None kwargs w in
    ascii_converter.heap w !! l = None
    /\ ascii_converter.heap (fst run)
       = <[l := fold_left ascii_converter.setattr resolved
                   ascii_converter.ConversionSettings_default]>
           (ascii_converter.heap w)
    /\ (forall a, snd run = Ok a -> ascii_converter.ASCIIArt.settings a = l).
Proof.
  intros F HF env w kwargs resolved Hres l run.
  assert (Hrun : run = phases.process env l
                         (phases.configured
                            {| ascii_converter.heap :=
                                 <[l := ascii_converter.ConversionSettings_default]>
                                   (ascii_converter.heap w);
                               ascii_converter.this := ascii_converter.this w |}
                            l resolved)).
  { unfold run. rewrite convert_phases_new, Hres. reflexivity. }
  split; [|split].
  - apply not_elem_of_dom. apply is_fresh.
  - rewrite Hrun, (heap_preserving_process env l).
    unfold phases.configured. cbn [ascii_converter.heap].
    apply map_eq. intros l'. destruct (decide (l' = l)) as [->|Hne].
    + rewrite lookup_alter_eq, !lookup_insert_eq. reflexivity.
    + rewrite lookup_alter_ne, !lookup_insert_ne by congruence. reflexivity.
  - intros a Ha. rewrite Hrun in Ha. exact (process_settings env _ l a Ha).
Qed.

Lemma convert_without_settings_starts_from_defaults_witness :
  let s := examples.settings_of_width (F := spec_float) 7 in
  let w := examples.caller_world (examples.png 8 8) s in
  let l := fresh (dom (ascii_converter.heap w)) in
  let run := ascii_converter.convert examples.flat_gray None
               [ascii_converter.kw_invert true] w in
  ascii_converter.heap w !! l = None
  /\ ascii_converter.heap (fst run)
     = <[l := fold_left ascii_converter.setattr [ascii_converter.kw_invert true]
                 ascii_converter.ConversionSettings_default]>
         (ascii_converter.heap w)
  /\ (forall a, snd run = Ok a -> ascii_converter.ASCIIArt.settings a = l).
Proof.
  intros s w l run.
  assert (Hres : for_each (ascii_converter.resolve_name (F := spec_float))
                   [ascii_converter.kw_invert true] = Ok [ascii_converter.kw_invert true])
    by reflexivity.
  exact (convert_without_settings_starts_from_defaults spec_float binary64
           examples.flat_gray w [ascii_converter.kw_invert true]
           [ascii_converter.kw_invert true] Hres).
Defined.

(** X20. [ImageProcessor.reset] undoes the preprocessing: whatever
    operations of the pipeline ran, the processor after [reset] is the one
    [reset] gives before them, its working image again has the size of
    the original, and for a processor just built by [ImageProcessor(path)]
    it is that processor. *)
Theorem reset_undoes_preprocessing :
  forall (F : Type) (HF : PyFloat F) (env : image_processor.PixelSource F)
         (s : ascii_converter.ConversionSettings F) (sts : list design.stage)
         (p p' : image_processor.ImageProcessor F),
    design.run_stages env s sts p = Ok p' ->
    processor_state.reset p' = processor_state.reset p
    /\ image_processor.size (processor_state.reset p')
       = image_processor.image_size (image_processor.original_image p)
    /\ (forall path, image_processor.ImageProcessor_init path = Ok p ->
                     processor_state.reset p' = p).
Proof.
  intros F HF env s sts p p' Hrun.
  pose proof (run_stages_working_image env s sts p p' Hrun) as Hp'.
  assert (Hreset : processor_state.reset p' = processor_state.reset p)
    by (rewrite Hp'; reflexivity).
  split; [exact Hreset|]. split.
  - rewrite Hreset. reflexivity.
  - intros path Hinit. rewrite Hreset.
    unfold image_processor.ImageProcessor_init in Hinit.
    destruct (image_processor._validate_image path); [|discriminate Hinit].
    cbn [mbind result_bind mret result_ret] in Hinit. injection Hinit as <-.
    reflexivity.
Qed.

Lemma reset_undoes_preprocessing_witness :
  let p := examples.fresh_processor (F := spec_float) (examples.png 8 8) in
  let s := examples.settings_of_width (F := spec_float) 4 in
  exists p',
    design.run_stages examples.flat_gray s (design.pipeline s) p = Ok p'
    /\ image_processor.size p' = (4, 2)
    /\ processor_state.reset p' = processor_state.reset p
    /\ image_processor.size (processor_state.reset p') = (8, 8).
Proof.
  intros p s.
  destruct (design.run_stages examples.flat_gray s (design.pipeline s) p)
    as [p'|e] eqn:Hrun; [|vm_compute in Hrun; discriminate Hrun].
  exists p'. split; [reflexivity|].
  destruct (reset_undoes_preprocessing spec_float binary64 examples.flat_gray s
              (design.pipeline s) p p' Hrun) as (Hreset & Hsize & _).
  split; [|split; [exact Hreset | exact Hsize]].
  vm_compute in Hrun. injection Hrun as <-. reflexivity.
Defined.

Section one_call.
Import character_sets color_handler image_processor ascii_converter phases.
Context {F : Type} `{PyFloat F}.
Variable env : PixelSource F.
Hypothesis Htotal : pixel_domain.pixel_total F.

(** [convert] without a settings object, with keyword arguments that hold
    no names and leave the color mode NONE, on a supported image file. *)
Lemma convert_new_plain (w : world F) (kwargs : list (kwarg F)) (ow oh h : Z) :
  for_each resolve_name kwargs = Ok kwargs ->
  let s := fold_left setattr kwargs ConversionSettings_default in
  color_mode s = NONE ->
  _validate_image (ascii_converter.image_path (this w)) = Ok tt ->
  file_size (ascii_converter.image_path (this w)) = (ow, oh) ->
  design.requested_height s ow oh = Ok h ->
  exists w' a,
    convert env None kwargs w = (w', Ok a)
    /\ heap w' = <[fresh (dom (heap w)) := s]> (heap w)
    /\ shortcuts.is_grid (shortcuts.palette s) (Z.max 1 (width s)) (Z.max 1 h)
         (ASCIIArt.art a).
Proof.
  intros Hres s Hmode Hvalid Hsize Hh.
  rewrite convert_phases_new, Hres.
  set (l := fresh (dom (heap w))).
  set (W := configured {| heap := <[l := ConversionSettings_default]> (heap w);
                          this := this w |} l kwargs).
  assert (HsW : heap W !! l = Some s).
  { unfold W. rewrite configured_lookup. cbn [heap]. rewrite lookup_insert_eq.
    reflexivity. }
  destruct (process_run env Htotal W l s ow oh h eq_refl HsW Hvalid Hsize Hh)
    as (p' & lines & _ & _ & _ & Hrows & Hrun).
  eexists _, _. split; [exact Hrun|]. split.
  - cbn [set_processor heap]. unfold W, configured. cbn [heap].
    apply map_eq. intros l'. destruct (decide (l' = l)) as [->|Hne].
    + rewrite lookup_alter_eq, !lookup_insert_eq. reflexivity.
    + rewrite lookup_alter_ne, !lookup_insert_ne by congruence. reflexivity.
  - cbn [ASCIIArt.art].
    destruct (rows_of_grid env s p' (Z.max 1 (width s)) (Z.max 1 h)
                lines Hmode ltac:(lia) ltac:(lia) Hrows)
      as (rows & Hlines & Hlen & Hall).
    exists rows. rewrite Hmode.
    change (wrap_output {| mode := NONE |} (String.concat newline lines)
              (ascii_converter.use_emoji s))
      with (String.concat newline lines).
    rewrite Hlines. split; [reflexivity|]. split; [exact Hlen | exact Hall].
Qed.

End one_call.

(** X21. [ASCIIConverter.preview] ignores what earlier conversions set:
    for a supported image file it returns an uncolored grid of
    [max(1, width)] columns over the DETAILED table, the default one,
    whatever settings object and processor the converter holds from
    earlier calls, and it changes no settings object the program holds. *)
Theorem preview_is_default_grid :
  forall (F : Type) (HF : PyFloat F) (env : image_processor.PixelSource F)
         (w : ascii_converter.world F) (width ow oh h : Z),
    pixel_domain.pixel_total F ->
    image_processor._validate_image
      (ascii_converter.image_path (ascii_converter.this w)) = Ok tt ->
    image_processor.file_size
      (ascii_converter.image_path (ascii_converter.this w)) = (ow, oh) ->
    design.requested_height (examples.settings_of_width width) ow oh = Ok h ->
    exists w' text,
      shortcuts.preview env width w = (w', Ok text)
      /\ shortcuts.is_grid
           (character_sets.CharacterSet_value character_sets.DETAILED)
           (Z.max 1 width) (Z.max 1 h) text
      /\ (forall l, is_Some (ascii_converter.heap w !! l) ->
                    ascii_converter.heap w' !! l = ascii_converter.heap w !! l).
Proof.
  intros F HF env w width ow oh h Htotal Hvalid Hsize Hh.
  set (kwargs := [ascii_converter.kw_width (F := F) width;
                  ascii_converter.kw_color_mode (ascii_converter.member color_handler.NONE)]).
  destruct (convert_new_plain env Htotal w kwargs ow oh h eq_refl eq_refl Hvalid Hsize)
    as (w' & a & Hrun & Hheap & Hgrid).
  { rewrite <- Hh. apply (uncolored_requested_height (examples.settings_of_width width)). }
  exists w', (ascii_converter.ASCIIArt.art a). split; [|split].
  - unfold shortcuts.preview. fold kwargs.
    rewrite (bind_ok _ _ w w' a Hrun). reflexivity.
  - exact Hgrid.
  - intros l Hl. rewrite Hheap. apply lookup_insert_ne.
    intros <-. apply elem_of_dom in Hl.
    exact (is_fresh (dom (ascii_converter.heap w)) Hl).
Qed.

Lemma preview_is_default_grid_witness :
  let s := ascii_converter.setattr
             (ascii_converter.setattr
                (examples.settings_of_width (F := spec_float) 30)
                (ascii_converter.kw_charset (ascii_converter.member character_sets.BLOCKS)))
             (ascii_converter.kw_color_mode (ascii_converter.member color_handler.HTML)) in
  let w := examples.ready_world (examples.png 8 8) s in
  exists w' text,
    shortcuts.preview examples.flat_gray 4 w = (w', Ok text)
    /\ shortcuts.is_grid
         (character_sets.CharacterSet_value character_sets.DETAILED)
         (Z.max 1 4) (Z.max 1 2) text
    /\ (forall l, is_Some (ascii_converter.heap w !! l) ->
                  ascii_converter.heap w' !! l = ascii_converter.heap w !! l).
Proof.
  intros s w.
  assert (Hvalid : image_processor._validate_image
                     (ascii_converter.image_path (ascii_converter.this w)) = Ok tt)
    by reflexivity.
  assert (Hsize : image_processor.file_size
                    (ascii_converter.image_path (ascii_converter.this w)) = (8, 8))
    by reflexivity.
  assert (Hh : design.requested_height (examples.settings_of_width (F := spec_float) 4) 8 8
               = Ok 2) by (vm_compute; reflexivity).
  exact (preview_is_default_grid spec_float binary64 examples.flat_gray w 4 8 8 2
           pixel_total_binary64 Hvalid Hsize Hh).
Defined.

(** X22. The one-call conversions on a supported image file.
    [image_to_emoji] returns a grid of [max(1, width)] columns over the
    emoji set of the given name (BRIGHTNESS for a name that selects
    none), [image_to_ascii] one over the DETAILED table.  Floats read
    exactly, a square image gives [width] rows of emoji and
    [max(1, width // 2)] rows of characters, for [width >= 1]. *)
Theorem one_call_conversions_are_grids :
  (forall (F : Type) (HF : PyFloat F) (env : image_processor.PixelSource F)
          (path : image_processor.image_file) (width : Z) (name : string)
          (ow oh h : Z),
      pixel_domain.pixel_total F ->
      image_processor._validate_image path = Ok tt ->
      image_processor.file_size path = (ow, oh) ->
      design.requested_height
        (fold_left ascii_converter.setattr
           [ascii_converter.kw_use_emoji true;
            ascii_converter.kw_emoji_set
              (ascii_converter.member (character_sets.get_emoji_set_by_name name));
            ascii_converter.kw_width width]
           ascii_converter.ConversionSettings_default) ow oh = Ok h ->
      exists text,
        shortcuts.image_to_emoji env path width name = Ok text
        /\ shortcuts.is_grid
             (character_sets.EmojiSet_value (character_sets.get_emoji_set_by_name name))
             (Z.max 1 width) (Z.max 1 h) text)
  /\ (forall (F : Type) (HF : PyFloat F) (env : image_processor.PixelSource F)
             (path : image_processor.image_file) (width ow oh h : Z),
        pixel_domain.pixel_total F ->
        image_processor._validate_image path = Ok tt ->
        image_processor.file_size path = (ow, oh) ->
        design.requested_height (examples.settings_of_width width) ow oh = Ok h ->
        exists text,
          shortcuts.image_to_ascii env path width = Ok text
          /\ shortcuts.is_grid
               (character_sets.CharacterSet_value character_sets.DETAILED)
               (Z.max 1 width) (Z.max 1 h) text)
  /\ (forall (env : image_processor.PixelSource Q)
             (path : image_processor.image_file) (width side : Z) (name : string),
        image_processor._validate_image path = Ok tt ->
        image_processor.file_size path = (side, side) ->
        1 <= side -> 1 <= width ->
        (exists text,
           shortcuts.image_to_emoji env path width name = Ok text
           /\ shortcuts.is_grid
                (character_sets.EmojiSet_value
                   (character_sets.get_emoji_set_by_name name))
                width width text)
        /\ (exists text,
              shortcuts.image_to_ascii env path width = Ok text
              /\ shortcuts.is_grid
                   (character_sets.CharacterSet_value character_sets.DETAILED)
                   width (Z.max 1 (width / 2)) text)).
Proof.
  assert (Hemoji : forall (F : Type) (HF : PyFloat F)
            (env : image_processor.PixelSource F)
            (path : image_processor.image_file) (width : Z) (name : string)
            (ow oh h : Z),
      pixel_domain.pixel_total F ->
      image_processor._validate_image path = Ok tt ->
      image_processor.file_size path = (ow, oh) ->
      design.requested_height
        (fold_left ascii_converter.setattr
           [ascii_converter.kw_use_emoji true;
            ascii_converter.kw_emoji_set
              (ascii_converter.member (character_sets.get_emoji_set_by_name name));
            ascii_converter.kw_width width]
           ascii_converter.ConversionSettings_default) ow oh = Ok h ->
      exists text,
        shortcuts.image_to_emoji env path width name = Ok text
        /\ shortcuts.is_grid
             (character_sets.EmojiSet_value (character_sets.get_emoji_set_by_name name))
             (Z.max 1 width) (Z.max 1 h) text).
  { intros F HF env path width name ow oh h Htotal Hvalid Hsize Hh.
    destruct (convert_new_plain env Htotal (shortcuts.new_converter path)
                [ascii_converter.kw_use_emoji true;
                 ascii_converter.kw_emoji_set
                   (ascii_converter.member (character_sets.get_emoji_set_by_name name));
                 ascii_converter.kw_width width]
                ow oh h eq_refl eq_refl Hvalid Hsize Hh)
      as (w' & a & Hrun & _ & Hgrid).
    exists (ascii_converter.ASCIIArt.art a). split.
    - unfold shortcuts.image_to_emoji. rewrite Hrun. reflexivity.
    - exact Hgrid. }
  assert (Hascii : forall (F : Type) (HF : PyFloat F)
            (env : image_processor.PixelSource F)
            (path : image_processor.image_file) (width ow oh h : Z),
      pixel_domain.pixel_total F ->
      image_processor._validate_image path = Ok tt ->
      image_processor.file_size path = (ow, oh) ->
      design.requested_height (examples.settings_of_width width) ow oh = Ok h ->
      exists text,
        shortcuts.image_to_ascii env path width = Ok text
        /\ shortcuts.is_grid
             (character_sets.CharacterSet_value character_sets.DETAILED)
             (Z.max 1 width) (Z.max 1 h) text).
  { intros F HF env path width ow oh h Htotal Hvalid Hsize Hh.
    destruct (convert_new_plain env Htotal (shortcuts.new_converter path)
                [ascii_converter.kw_width width]
                ow oh h eq_refl eq_refl Hvalid Hsize Hh)
      as (w' & a & Hrun & _ & Hgrid).
    exists (ascii_converter.ASCIIArt.art a). split.
    - unfold shortcuts.image_to_ascii. rewrite Hrun. reflexivity.
    - exact Hgrid. }
  split; [exact Hemoji|]. split; [exact Hascii|].
  intros env path width side name Hvalid Hsize Hside Hwidth.
  assert (E : (inject_Z side / inject_Z side == 1)%Q).
  { unfold Qdiv. apply Qmult_inv_r. intros E0.
    assert (Hs : (0 < inject_Z side)%Q)
      by (change 0%Q with (inject_Z 0); rewrite <- Zlt_Qlt; lia).
    rewrite E0 in Hs. exact (Qlt_irrefl 0 Hs). }
  assert (Hq1 : (inject_Z width * (inject_Z side / inject_Z side) * Q_lit 10 1
                 == inject_Z width)%Q).
  { rewrite E. change (Q_lit 10 1) with (10 # 10)%Q. lra. }
  assert (Hq2 : (inject_Z width * (inject_Z side / inject_Z side) * Q_lit 5 1
                 == inject_Z width / 2)%Q).
  { rewrite E. change (Q_lit 5 1) with (5 # 10)%Q.
    unfold Qeq, Qdiv, Qmult, Qinv, inject_Z. simpl. lia. }
  assert (Hw0 : (0 <= inject_Z width)%Q).
  { change 0%Q with (inject_Z 0). rewrite <- Zle_Qle. lia. }
  split.
  - destruct (Hemoji Q exact_float env path width name side side width
                pixel_total_exact Hvalid Hsize) as (text & Hrun & Hgrid).
    + cbn. unfold Q_truediv. destruct (side =? 0) eqn:E0; [lia|].
      cbn [mbind result_bind]. f_equal.
      rewrite Q_trunc_floor by (rewrite Hq1; exact Hw0).
      rewrite Hq1. apply Qfloor_Z.
    + exists text. split; [exact Hrun|].
      replace (Z.max 1 width) with width in Hgrid by lia. exact Hgrid.
  - destruct (Hascii Q exact_float env path width side side (width / 2)
                pixel_total_exact Hvalid Hsize) as (text & Hrun & Hgrid).
    + cbn. unfold Q_truediv. destruct (side =? 0) eqn:E0; [lia|].
      cbn [mbind result_bind]. f_equal.
      assert (Hhalf : (0 <= inject_Z width / 2)%Q).
      { apply Qle_shift_div_l; [reflexivity|]. rewrite Qmult_0_l. exact Hw0. }
      rewrite Q_trunc_floor by (rewrite Hq2; exact Hhalf).
      rewrite Hq2. unfold Qfloor, Qdiv, Qmult, Qinv, inject_Z. cbn [Qnum Qden].
      rewrite Z.mul_1_r. reflexivity.
    + exists text. split; [exact Hrun|].
      replace (Z.max 1 width) with width in Hgrid by lia. exact Hgrid.
Qed.

Lemma one_call_conversions_are_grids_witness :
  (exists text,
     shortcuts.image_to_emoji (F := Q) examples.flat_gray (examples.png 8 8) 3 "hearts"
     = Ok text
     /\ shortcuts.is_grid
          (character_sets.EmojiSet_value (character_sets.get_emoji_set_by_name "hearts"))
          3 3 text)
  /\ (exists text,
        shortcuts.image_to_ascii (F := Q) examples.flat_gray (examples.png 8 8) 3 = Ok text
        /\ shortcuts.is_grid
             (character_sets.CharacterSet_value character_sets.DETAILED)
             3 (Z.max 1 (3 / 2)) text).
Proof.
  assert (Hvalid : image_processor._validate_image (examples.png 8 8) = Ok tt)
    by reflexivity.
  assert (Hsize : image_processor.file_size (examples.png 8 8) = (8, 8)) by reflexivity.
  assert (Hside : 1 <= 8) by lia.
  assert (Hwidth : 1 <= 3) by lia.
  exact (proj2 (proj2 one_call_conversions_are_grids) examples.flat_gray
           (examples.png 8 8) 3 8 "hearts" Hvalid Hsize Hside Hwidth).
Defined.

(** ** Inversion, and explicit heights *)

Section mirror.
Import character_sets pixel_domain.

Lemma ramp_mirrored_all : forallb ramp.mirrored source_mappers = true.
Proof. vm_compute. reflexivity. Qed.

Lemma ramp_mirrored_source (m : CharacterMapper) (v : Z) :
  m ∈ source_mappers -> 0 <= v <= 255 ->
  design.index (num_chars m) (255 - inject_Z v)
  = num_chars m - 1 - design.index (num_chars m) (inject_Z v).
Proof.
  intros Hm Hv.
  pose proof ramp_mirrored_all as Hall. rewrite forallb_forall in Hall.
  apply list_elem_of_In in Hm. specialize (Hall m Hm).
  unfold ramp.mirrored in Hall. rewrite forallb_forall in Hall.
  assert (Hin : In v intensities) by (apply list_elem_of_In, range_spec; lia).
  specialize (Hall v Hin). apply Z.eqb_eq in Hall. exact Hall.
Qed.

End mirror.

(** X23. Inversion mirrors the glyph ramp.  In double precision, for
    every mapper [CharacterMapper.__init__] can build and every pixel
    intensity [v] in 0..255: if [get_character] reads position [i] of the
    table for [v], then [get_inverted_character] reads position
    [num_chars - 1 - i], the same position counted from the other end. *)
Theorem inverted_character_mirrors_ramp :
  forall (c : character_sets.CharacterSet) (e : option character_sets.EmojiSet)
         (u : bool) (v : Z),
    0 <= v <= 255 ->
    let m := character_sets.CharacterMapper_init c e u in
    exists i : Z,
      0 <= i < character_sets.num_chars m
      /\ character_sets.get_character (F := spec_float) m (float_of_int v)
         = py_getitem (character_sets.characters m) i
      /\ character_sets.get_inverted_character (F := spec_float) m (float_of_int v)
         = py_getitem (character_sets.characters m) (character_sets.num_chars m - 1 - i).
Proof.
  intros c e u v Hv m.
  destruct (init_in_source c e u) as (m' & Hm' & Hn & _). fold m in Hn.
  pose proof (source_mappers_nonempty m' Hm') as Hpos.
  exists (design.index (character_sets.num_chars m') (inject_Z v)).
  pose proof (design_index_range (character_sets.num_chars m') (inject_Z v) Hpos) as Hr.
  split; [rewrite <- Hn; lia|].
  unfold character_sets.get_inverted_character, character_sets.get_character.
  rewrite !(get_index_num_chars m m' _ (eq_sym Hn)).
  rewrite (binary64_index_on_pixels m' v Hm' Hv).
  rewrite (binary64_inverted_index_on_pixels m' v Hm' Hv).
  cbn [mbind result_bind].
  rewrite (ramp_mirrored_source m' v Hm' Hv), Hn.
  split; reflexivity.
Qed.

Lemma inverted_character_mirrors_ramp_witness :
  let m := character_sets.CharacterMapper_init character_sets.SIMPLE None false in
  exists i : Z,
    0 <= i < character_sets.num_chars m
    /\ character_sets.get_character (F := spec_float) m (float_of_int 40)
       = py_getitem (character_sets.characters m) i
    /\ character_sets.get_inverted_character (F := spec_float) m (float_of_int 40)
       = py_getitem (character_sets.characters m) (character_sets.num_chars m - 1 - i).
Proof.
  assert (Hv : 0 <= 40 <= 255) by lia.
  exact (inverted_character_mirrors_ramp character_sets.SIMPLE None false 40 Hv).
Defined.

(** X24. With an explicit height nothing can go wrong in double
    precision: for every supported image file, whatever its size and its
    pixels, and every settings object with [height] set, [convert]
    returns an artifact of [max(1, width)] columns and [max(1, height)]
    rows; the aspect ratio of the image is not computed. *)
Theorem convert_explicit_height_returns :
  forall (env : image_processor.PixelSource spec_float)
         (w : ascii_converter.world spec_float) (l : ascii_converter.ref)
         (s : ascii_converter.ConversionSettings spec_float) (h : Z),
    ascii_converter.heap w !! l = Some s ->
    image_processor._validate_image
      (ascii_converter.image_path (ascii_converter.this w)) = Ok tt ->
    ascii_converter.height s = Some h ->
    exists w' a,
      ascii_converter.convert env (Some l) [] w = (w', Ok a)
      /\ ascii_converter.ASCIIArt.width a = Z.max 1 (ascii_converter.width s)
      /\ ascii_converter.ASCIIArt.height a = Z.max 1 h.
Proof.
  intros env w l s h Hs Hvalid Hh.
  exact (convert_binary64_explicit_height env w l s h Hs Hvalid Hh).
Qed.

Lemma convert_explicit_height_returns_witness :
  let s := ascii_converter.setattr
             (examples.settings_of_width (F := spec_float) 5)
             (ascii_converter.kw_height (Some 0)) in
  let w := examples.caller_world (examples.png 0 0) s in
  exists w' a,
    ascii_converter.convert examples.flat_gray (Some examples.the_settings) [] w
    = (w', Ok a)
    /\ ascii_converter.ASCIIArt.width a = Z.max 1 (ascii_converter.width s)
    /\ ascii_converter.ASCIIArt.height a = Z.max 1 0.
Proof.
  intros s w.
  assert (Hs : ascii_converter.heap w !! examples.the_settings = Some s) by reflexivity.
  assert (Hvalid : image_processor._validate_image
                     (ascii_converter.image_path (ascii_converter.this w)) = Ok tt)
    by reflexivity.
  assert (Hh : ascii_converter.height s = Some 0) by reflexivity.
  exact (convert_explicit_height_returns examples.flat_gray w examples.the_settings
           s 0 Hs Hvalid Hh).
Defined.

(** ** Options without effect *)

Section indistinguishable_settings.
Import character_sets color_handler image_processor ascii_converter phases.
Context {F : Type} `{PyFloat F}.
Variable env : PixelSource F.

Lemma bind_raise {A B} (m : stmt (F := F) A) (k : A -> stmt (F := F) B)
    (w : world F) (e : exn) :
  snd (m w) = Raise e -> snd (bind m k w) = Raise e.
Proof.
  unfold bind. destruct (m w) as [w' [a|e']]; cbn [snd]; [discriminate|].
  intros [= ->]. reflexivity.
Qed.

(** [_generate_ascii] on a working image of any size *)
Lemma generate_ascii_shape (w : world F) (l : ref) (s : ConversionSettings F)
    (p : ImageProcessor F) :
  settings (this w) = Some l ->
  heap w !! l = Some s ->
  processor (this w) = Some p ->
  _generate_ascii env w
  = (w, rows_of env s p (snd (shape (get_pixel_matrix env p)))
                        (fst (shape (get_pixel_matrix env p)))).
Proof.
  intros Hl Hs Hp.
  unfold _generate_ascii, bind, read_settings, read_processor.
  rewrite Hl, Hs, Hp.
  destruct (shape (get_pixel_matrix env p)) as [ht wd]. reflexivity.
Qed.

Lemma run_stages_ext (s1 s2 : ConversionSettings F) :
  (forall st q, design.run_stage env s1 st q = design.run_stage env s2 st q) ->
  forall sts q, design.run_stages env s1 sts q = design.run_stages env s2 sts q.
Proof.
  intros Hst sts. induction sts as [|st sts IH]; intros q; [reflexivity|].
  cbn [design.run_stages]. rewrite Hst.
  destruct (design.run_stage env s2 st q); [apply IH | reflexivity].
Qed.

(** Two settings objects that run the same pipeline, build the same rows
    and agree on the color mode and on the emoji flag give the same
    artifact. *)
Lemma render_congruence (w1 w2 : world F) (l : ref) (s1 s2 : ConversionSettings F)
    (p : ImageProcessor F) :
  this w1 = this w2 ->
  settings (this w1) = Some l ->
  processor (this w1) = Some p ->
  heap w1 !! l = Some s1 ->
  heap w2 !! l = Some s2 ->
  (forall q, design.run_stages env s1 (design.pipeline s1) q
             = design.run_stages env s2 (design.pipeline s2) q) ->
  (forall q wd ht, rows_of env s1 q wd ht = rows_of env s2 q wd ht) ->
  color_mode s1 = color_mode s2 ->
  ascii_converter.use_emoji s1 = ascii_converter.use_emoji s2 ->
  snd (render env l w1) = snd (render env l w2).
Proof.
  intros Hthis Hl1 Hp1 Hs1 Hs2 Hpipe Hrows Hmode Hemo.
  assert (Hl2 : settings (this w2) = Some l) by (rewrite <- Hthis; exact Hl1).
  assert (Hp2 : processor (this w2) = Some p) by (rewrite <- Hthis; exact Hp1).
  pose proof (apply_preprocessing_stages env w1 l s1 p Hl1 Hs1 Hp1) as Hpre1.
  pose proof (apply_preprocessing_stages env w2 l s2 p Hl2 Hs2 Hp2) as Hpre2.
  rewrite <- (Hpipe p) in Hpre2.
  unfold render.
  destruct (design.run_stages env s1 (design.pipeline s1) p) as [p'|e].
  - rewrite (bind_ok _ _ w1 _ tt Hpre1), (bind_ok _ _ w2 _ tt Hpre2).
    set (v1 := set_processor w1 p'). set (v2 := set_processor w2 p').
    pose proof (generate_ascii_shape v1 l s1 p' Hl1 Hs1 eq_refl) as Hgen1.
    pose proof (generate_ascii_shape v2 l s2 p' Hl2 Hs2 eq_refl) as Hgen2.
    rewrite <- Hrows in Hgen2.
    destruct (rows_of env s1 p' _ _) as [lines|e].
    + rewrite (bind_ok _ _ v1 v1 lines Hgen1), (bind_ok _ _ v2 v2 lines Hgen2).
      rewrite (bind_ok _ _ v1 v1 s1).
      2:{ unfold read_settings. change (settings (this v1)) with (settings (this w1)).
          rewrite Hl1. change (heap v1) with (heap w1). rewrite Hs1. reflexivity. }
      rewrite (bind_ok _ _ v2 v2 s2).
      2:{ unfold read_settings. change (settings (this v2)) with (settings (this w2)).
          rewrite Hl2. change (heap v2) with (heap w2). rewrite Hs2. reflexivity. }
      rewrite (bind_ok _ _ v1 v1 p') by reflexivity.
      rewrite (bind_ok _ _ v2 v2 p') by reflexivity.
      unfold ret. cbn [snd]. rewrite Hmode, Hemo. reflexivity.
    + rewrite (bind_raise (_generate_ascii env) _ v1 e) by (rewrite Hgen1; reflexivity).
      rewrite (bind_raise (_generate_ascii env) _ v2 e) by (rewrite Hgen2; reflexivity).
      reflexivity.
  - rewrite (bind_raise (_apply_preprocessing env) _ w1 e Hpre1).
    rewrite (bind_raise (_apply_preprocessing env) _ w2 e Hpre2).
    reflexivity.
Qed.

(** An override that the conversion cannot tell from no override. *)
Lemma convert_indistinguishable (w : world F) (l : ref) (s : ConversionSettings F)
    (kw : kwarg F) :
  heap w !! l = Some s ->
  for_each resolve_name [kw] = Ok [kw] ->
  design.pipeline (setattr s kw) = design.pipeline s ->
  (forall st q, design.run_stage env (setattr s kw) st q = design.run_stage env s st q) ->
  (forall q wd ht, rows_of env (setattr s kw) q wd ht = rows_of env s q wd ht) ->
  color_mode (setattr s kw) = color_mode s ->
  ascii_converter.use_emoji (setattr s kw) = ascii_converter.use_emoji s ->
  snd (convert env (Some l) [kw] w) = snd (convert env (Some l) [] w).
Proof.
  intros Hs Hres Hpl Hst Hrows Hmode Hemo.
  assert (Hpipe : forall q,
            design.run_stages env (setattr s kw) (design.pipeline (setattr s kw)) q
            = design.run_stages env s (design.pipeline s) q).
  { intros q. rewrite Hpl. apply run_stages_ext. exact Hst. }
  rewrite !convert_phases, Hres.
  change (for_each resolve_name []) with (Ok (@nil (kwarg F))). cbv iota.
  set (W1 := configured w l [kw]). set (W2 := configured w l []).
  assert (Hs1 : heap W1 !! l = Some (setattr s kw)).
  { unfold W1. rewrite configured_lookup, Hs. reflexivity. }
  assert (Hs2 : heap W2 !! l = Some s).
  { unfold W2. rewrite configured_lookup, Hs. reflexivity. }
  destruct (ImageProcessor_init (F := F) (ascii_converter.image_path (this w)))
    as [p|e] eqn:Hinit.
  - rewrite (process_init_ok env W1 l p Hinit), (process_init_ok env W2 l p Hinit).
    apply (render_congruence _ _ l (setattr s kw) s p); try reflexivity; assumption.
  - rewrite (process_init_raise env W1 l e Hinit), (process_init_raise env W2 l e Hinit).
    reflexivity.
Qed.

End indistinguishable_settings.

(** X25. Options without effect.  Whatever the image file and the float
    arithmetic, the result of [convert] (the artifact, or the exception)
    is the same with and without an override of: [dithering], which no
    code reads; [color_emoji] and [emoji_set] when [use_emoji] is off;
    [charset] and [edge_detection] when [use_emoji] is on; [invert] when
    both [use_emoji] and [color_emoji] are on. *)
Theorem options_without_effect :
  forall (F : Type) (HF : PyFloat F) (env : image_processor.PixelSource F)
         (w : ascii_converter.world F) (l : ascii_converter.ref)
         (s : ascii_converter.ConversionSettings F),
    ascii_converter.heap w !! l = Some s ->
    let result kwargs := snd (ascii_converter.convert env (Some l) kwargs w) in
    (forall b, result [ascii_converter.kw_dithering b] = result [])
    /\ (ascii_converter.use_emoji s = false ->
        (forall b, result [ascii_converter.kw_color_emoji b] = result [])
        /\ (forall e, result [ascii_converter.kw_emoji_set (ascii_converter.member e)]
                      = result []))
    /\ (ascii_converter.use_emoji s = true ->
        (forall c, result [ascii_converter.kw_charset (ascii_converter.member c)]
                   = result [])
        /\ (forall b, result [ascii_converter.kw_edge_detection b] = result []))
    /\ (ascii_converter.use_emoji s = true -> ascii_converter.color_emoji s = true ->
        forall b, result [ascii_converter.kw_invert b] = result []).
Proof.
  intros F HF env w l s Hs result. unfold result.
  split; [|split; [|split]].
  - intros b.
    apply (convert_indistinguishable env w l s (ascii_converter.kw_dithering b)
             Hs eq_refl);
      destruct s; intros; reflexivity.
  - intros Hemo. split.
    + intros b.
      apply (convert_indistinguishable env w l s (ascii_converter.kw_color_emoji b)
               Hs eq_refl);
        destruct s as [wd ht cs cm inv con bri edg den emo es ce dit sha aut];
        cbn in Hemo; subst emo; intros;
        first [reflexivity | destruct cm, ce, b; reflexivity].
    + intros e.
      apply (convert_indistinguishable env w l s
               (ascii_converter.kw_emoji_set (ascii_converter.member e)) Hs eq_refl);
        destruct s as [wd ht cs cm inv con bri edg den emo es ce dit sha aut];
        cbn in Hemo; subst emo; intros; reflexivity.
  - intros Hemo. split.
    + intros c.
      apply (convert_indistinguishable env w l s
               (ascii_converter.kw_charset (ascii_converter.member c)) Hs eq_refl);
        destruct s as [wd ht cs cm inv con bri edg den emo es ce dit sha aut];
        cbn in Hemo; subst emo; intros; reflexivity.
    + intros b.
      apply (convert_indistinguishable env w l s
               (ascii_converter.kw_edge_detection b) Hs eq_refl);
        destruct s as [wd ht cs cm inv con bri edg den emo es ce dit sha aut];
        cbn in Hemo; subst emo; intros;
        first [reflexivity | destruct edg, b; reflexivity].
  - intros Hemo Hce b.
    apply (convert_indistinguishable env w l s (ascii_converter.kw_invert b)
             Hs eq_refl);
      destruct s as [wd ht cs cm inv con bri edg den emo es ce dit sha aut];
      cbn in Hemo, Hce; subst emo ce; intros;
      first [reflexivity | destruct cm; reflexivity].
Qed.

Lemma options_without_effect_witness :
  let s := ascii_converter.setattr
             (examples.settings_of_width (F := spec_float) 4)
             (ascii_converter.kw_use_emoji true) in
  let w := examples.caller_world (examples.png 8 8) s in
  let result kwargs :=
    snd (ascii_converter.convert examples.flat_gray (Some examples.the_settings)
           kwargs w) in
  (forall c, result [ascii_converter.kw_charset (ascii_converter.member c)] = result [])
  /\ (forall b, result [ascii_converter.kw_edge_detection b] = result []).
Proof.
  intros s w.
  assert (Hs : ascii_converter.heap w !! examples.the_settings = Some s) by reflexivity.
  assert (Hemo : ascii_converter.use_emoji s = true) by reflexivity.
  exact (proj1 (proj2 (proj2 (options_without_effect spec_float binary64
                                examples.flat_gray w examples.the_settings s Hs)))
           Hemo).
Defined.

Section unknown_keys.
Import character_sets color_handler image_processor ascii_converter phases.
Context {F : Type} `{PyFloat F}.



End unknown_keys.

